(** * git-laminar-flow: the configuration core (API version v1.5)

    A shallow embedding of [ConfigBase] and its entity classes (hashing
    with [updateHash]/[calculateHash], serialisation with [toHash],
    version resolution) and of the reference parser
    [parseConfigReference], followed by the properties established about
    them.

    A JavaScript string is a [string]: the bytes of its UTF-8 encoding,
    which is what a hash object receives. An optional field [x?: T] is an
    [option]; a plain object used as a record of keys is an association
    list in insertion order; a [Crypto.Hash] object is the algorithm it was
    created with and the bytes it has been fed so far; a function that
    updates a hash object takes the object's state and returns the new
    one. *)

From Stdlib Require Import String Ascii List Bool Arith ZArith Lia.
From Stdlib Require Import DecimalString.
Import ListNotations.
Open Scope list_scope.
Open Scope string_scope.

Set Implicit Arguments.
Set Warnings "-register-all".

(** ** JavaScript values and helpers *)

(** A JSON-compatible value: what [unknown] ranges over in a parsed
    document. Objects keep their keys in insertion order. *)
Inductive JValue : Type :=
| JNull
| JBool (b : bool)
| JNumber (n : Z)
| JString (s : string)
| JArray (items : list JValue)
| JObject (members : list (string * JValue)).

(** [Record<string, string | string[]>]: the value of a label. *)
Inductive LabelValue : Type :=
| LabelString (s : string)
| LabelArray (items : list string).

(** [string | Record<string, string>]: one dependency declaration. *)
Inductive Dependency : Type :=
| DependencyName (s : string)
| DependencyMap (versions : list (string * string)).

Definition LabelValue_toJSON (v : LabelValue) : JValue :=
  match v with
  | LabelString s => JString s
  | LabelArray items => JArray (map JString items)
  end.

Definition labels_toJSON (labels : list (string * LabelValue)) : JValue :=
  JObject (map (fun kv => (fst kv, LabelValue_toJSON (snd kv))) labels).

Definition Dependency_toJSON (d : Dependency) : JValue :=
  match d with
  | DependencyName s => JString s
  | DependencyMap versions =>
      JObject (map (fun kv => (fst kv, JString (snd kv))) versions)
  end.

(** [_.isEmpty(obj)] on a plain object: it has no own enumerable key. *)
Definition isEmpty {V : Type} (obj : list (string * V)) : bool :=
  match obj with
  | [] => true
  | _ :: _ => false
  end.

(** Truthiness of an optional string: [undefined] and [''] are falsy. *)
Definition truthy (o : option string) : bool :=
  match o with
  | Some s => negb (s =? "")
  | None => false
  end.

(** Truthiness of an optional boolean ([shadow?: boolean]). *)
Definition truthy_flag (o : option bool) : bool :=
  match o with
  | Some b => b
  | None => false
  end.

(** [Boolean.prototype.toString]. *)
Definition Boolean_toString (b : bool) : string :=
  if b then "true" else "false".

(** [String.prototype.split(sep)] for a non-empty separator: the pieces
    between successive, non-overlapping occurrences of [sep], scanning
    from the left. [skip] counts the characters of a matched separator
    still to be dropped; [cur] is the piece being collected. *)
Fixpoint split_from (sep : string) (skip : nat) (cur : string) (s : string)
  : list string :=
  match s with
  | EmptyString => [cur]
  | String c rest =>
      match skip with
      | S k => split_from sep k cur rest
      | O =>
          if prefix sep s
          then cur :: split_from sep (String.length sep - 1) "" rest
          else split_from sep 0 (cur ++ String c "") rest
      end
  end.

Definition split (sep : string) (s : string) : list string :=
  split_from sep 0 "" s.

(** Concatenation of a list of strings. *)
Definition concat_strings (l : list string) : string :=
  fold_right String.append "" l.

(** ** The libraries the module imports

    [Crypto], [JSON], [Semver] and [Zod] are not part of the repository;
    their functions are the fields of [Platform]. Every definition below
    takes them from the platform in scope and every theorem holds for all
    platforms.

    - [Crypto_digest alg enc bytes]: the digest, in text encoding [enc], of
      algorithm [alg] (one the runtime supports) over the whole input
      [bytes]. A [Crypto.Hash] is a streaming hash: successive [update]
      calls are equivalent to one call on the concatenation.
    - [JSON_stringify]: [JSON.stringify] on a JSON value.
    - [Semver_clean]: [Semver.clean], [None] standing for [null].
    - [Semver_coerce]: [Semver.coerce(..)?.toString()].
    - [Zod_isUrl]: whether [Zod.string().url()] accepts the string. *)
Class Platform : Type := {
  Crypto_digest : string -> string -> string -> string;
  JSON_stringify : JValue -> string;
  Semver_clean : string -> option string;
  Semver_coerce : string -> option string;
  Zod_isUrl : string -> bool
}.

(** ** [Crypto.Hash] *)

Module Crypto.

Record Hash : Type := {
  algorithm : string;
  data : string
}.

(** [Crypto.createHash(algorithm)] *)
Definition createHash (alg : string) : Hash :=
  {| algorithm := alg; data := "" |}.

(** [hash.update(chunk)] *)
Definition update (hash : Hash) (chunk : string) : Hash :=
  {| algorithm := algorithm hash; data := data hash ++ chunk |}.

(** [hash.digest(encoding)] *)
Definition digest `{Platform} (hash : Hash) (encoding : string) : string :=
  Crypto_digest (algorithm hash) encoding (data hash).

(** [o && hash.update(o)] and [if (o) hash.update(o)] *)
Definition update_if (hash : Hash) (o : option string) : Hash :=
  match o with
  | Some s => if truthy o then update hash s else hash
  | None => hash
  end.

(** [for (const x of xs) hash.update(x)] *)
Definition update_each (hash : Hash) (xs : list string) : Hash :=
  fold_left update xs hash.

End Crypto.

(** ** Exceptions and results

    A function that may [throw] returns a [Result]. [Error message] is
    [new Error(message)]; [ZodError issues] is what a Zod schema's [parse]
    throws, with the issues it collected. *)

Inductive ZodIssue : Type :=
| invalid_url
    (* invalid_string at the root: Zod.string().url() refused the input *)
| invalid_protocol
    (* invalid_union at the key protocol: the value is none of the literals *)
| required_qualifier.
    (* invalid_type at the key qualifier: Zod.string() received undefined *)

Inductive Exception : Type :=
| Error (message : string)
| ZodError (issues : list ZodIssue).

Inductive Result (A : Type) : Type :=
| Ok (value : A)
| Throw (e : Exception).

Arguments Ok {A} value.
Arguments Throw {A} e.

(** The double-quote character, for messages that quote a value. *)
Definition dquote : string := String (ascii_of_nat 34) EmptyString.

(** [`Version "${v}" is not a valid semver format`] *)
Definition invalid_semver_message (v : string) : string :=
  "Version " ++ dquote ++ v ++ dquote ++ " is not a valid semver format".

(** ** Document shapes (the Zod schemas, v1.5)

    One record per schema object; [Zod.infer] of the schema. A key that is
    absent from the document (or [undefined] in an object literal) is
    [None]. *)

Module ConfigMessageTemplate.
Record t : Type := {
  name : string;
  message : string
}.
End ConfigMessageTemplate.

Module ConfigTagTemplate.
Record t : Type := {
  name : string;
  tag : string;
  annotation : option string
}.
End ConfigTagTemplate.

Module ConfigTaggingSchema.
Record t : Type := {
  name : string;
  annotation : option string
}.
End ConfigTaggingSchema.

Module ConfigSubmoduleSchema.
Record t : Type := {
  name : string;
  path : string;
  url : option string;
  tags : option (list string);
  labels : option (list (string * LabelValue));
  annotations : option (list (string * JValue))
}.
End ConfigSubmoduleSchema.

Module ConfigFeatureSchema.
Record t : Type := {
  name : string;
  branchName : string;
  sourceSha : string;
  version : option string;
  upstream : option string;
  tags : option (list ConfigTaggingSchema.t)
}.
End ConfigFeatureSchema.

Module ConfigReleaseSchema.
Record t : Type := {
  name : string;
  branchName : string;
  sourceSha : string;
  version : option string;
  upstream : option string;
  intermediate : option bool;
  tags : option (list ConfigTaggingSchema.t)
}.
End ConfigReleaseSchema.

Module ConfigHotfixSchema.
Record t : Type := {
  name : string;
  branchName : string;
  sourceSha : string;
  version : option string;
  upstream : option string;
  intermediate : option bool;
  tags : option (list ConfigTaggingSchema.t)
}.
End ConfigHotfixSchema.

Module ConfigSupportSchema.
Record t : Type := {
  name : string;
  masterBranchName : string;
  developBranchName : string;
  sourceSha : string;
  developVersion : option string;
  masterVersion : option string;
  upstream : option string;
  features : option (list ConfigFeatureSchema.t);
  releases : option (list ConfigReleaseSchema.t);
  hotfixes : option (list ConfigHotfixSchema.t)
}.
End ConfigSupportSchema.

Module ConfigIntegrationSchema.
Record t : Type := {
  plugin : string;
  options : option (list (string * JValue))
}.
End ConfigIntegrationSchema.

(** An upstream remote [{ name, url }]: the same shape in the document and
    in the tree. *)
Module Upstream.
Record t : Type := {
  name : string;
  url : string
}.
End Upstream.

Module ConfigSchema.
Record t : Type := {
  apiVersion : option string;
  identifier : string;
  managed : option bool;
  version : option string;
  developVersion : option string;
  masterVersion : option string;
  upstreams : option (list Upstream.t);
  submodules : option (list ConfigSubmoduleSchema.t);
  features : option (list ConfigFeatureSchema.t);
  releases : option (list ConfigReleaseSchema.t);
  hotfixes : option (list ConfigHotfixSchema.t);
  supports : option (list ConfigSupportSchema.t);
  included : option (list string);
  excluded : option (list string);
  featureMessageTemplate : option string;
  releaseMessageTemplate : option string;
  hotfixMessageTemplate : option string;
  releaseTagTemplate : option string;
  hotfixTagTemplate : option string;
  tags : option (list string);
  integrations : option (list ConfigIntegrationSchema.t);
  commitMessageTemplates : option (list ConfigMessageTemplate.t);
  tagTemplates : option (list ConfigTagTemplate.t);
  masterBranchName : option string;
  developBranchName : option string;
  dependencies : option (list Dependency);
  labels : option (list (string * LabelValue));
  annotations : option (list (string * JValue))
}.
End ConfigSchema.

(** [xs.length ? f(xs) : undefined] *)
Definition if_nonempty {A B : Type} (xs : list A) (f : list A -> B) : option B :=
  match xs with
  | [] => None
  | _ :: _ => Some (f xs)
  end.

(** [_.isEmpty(obj) ? undefined : { ...obj }] *)
Definition unless_empty {V : Type} (obj : list (string * V))
  : option (list (string * V)) :=
  if isEmpty obj then None else Some obj.

(** [xs.filter(i => !i.shadow)] *)
Definition not_shadow {A : Type} (shadow : A -> option bool) (xs : list A)
  : list A :=
  filter (fun i => negb (truthy_flag (shadow i))) xs.

(** ** The entity classes

    Each class is a module: its record [t] holds the fields, [updateHash]
    feeds the instance into a hash object and returns the hash object's new
    state, [toHash] builds the plain object that is serialised. *)

Module TaggingBase.
Record t : Type := {
  name : string;
  annotation : option string
}.

Definition updateHash (this : t) (hash : Crypto.Hash) : Crypto.Hash :=
  let hash := Crypto.update hash (name this) in
  let hash := Crypto.update_if hash (annotation this) in
  hash.

Definition toHash (this : t) : ConfigTaggingSchema.t :=
  {| ConfigTaggingSchema.name := name this;
     ConfigTaggingSchema.annotation := annotation this |}.
End TaggingBase.

Module MessageTemplateBase.
Record t : Type := {
  name : string;
  message : string
}.

Definition updateHash (this : t) (hash : Crypto.Hash) : Crypto.Hash :=
  let hash := Crypto.update hash (name this) in
  let hash := Crypto.update hash (message this) in
  hash.

Definition toHash (this : t) : ConfigMessageTemplate.t :=
  {| ConfigMessageTemplate.name := name this;
     ConfigMessageTemplate.message := message this |}.
End MessageTemplateBase.

Module TagTemplateBase.
Record t : Type := {
  name : string;
  tag : string;
  annotation : option string
}.

Definition updateHash (this : t) (hash : Crypto.Hash) : Crypto.Hash :=
  let hash := Crypto.update hash (name this) in
  let hash := Crypto.update hash (tag this) in
  let hash := Crypto.update_if hash (annotation this) in
  hash.

Definition toHash (this : t) : ConfigTagTemplate.t :=
  {| ConfigTagTemplate.name := name this;
     ConfigTagTemplate.tag := tag this;
     ConfigTagTemplate.annotation := annotation this |}.
End TagTemplateBase.

Module IntegrationBase.
Record t : Type := {
  plugin : string;
  options : list (string * JValue)
}.

Definition updateHash `{Platform} (this : t) (hash : Crypto.Hash)
  : Crypto.Hash :=
  let hash := Crypto.update hash (plugin this) in
  let hash := Crypto.update hash (JSON_stringify (JObject (options this))) in
  hash.

Definition toHash (this : t) : ConfigIntegrationSchema.t :=
  {| ConfigIntegrationSchema.plugin := plugin this;
     ConfigIntegrationSchema.options := unless_empty (options this) |}.
End IntegrationBase.

Module SubmoduleBase.
Record t : Type := {
  name : string;
  path : string;
  url : option string;
  tags : list string;
  labels : list (string * LabelValue);
  annotations : list (string * JValue);
  shadow : option bool
}.

Definition updateHash `{Platform} (this : t) (hash : Crypto.Hash)
  : Crypto.Hash :=
  let hash := Crypto.update hash (name this) in
  let hash := Crypto.update hash (path this) in
  let hash := Crypto.update_if hash (url this) in
  let hash := Crypto.update_each hash (tags this) in
  let hash :=
    if negb (isEmpty (labels this))
    then Crypto.update hash (JSON_stringify (labels_toJSON (labels this)))
    else hash in
  let hash :=
    if negb (isEmpty (annotations this))
    then Crypto.update hash (JSON_stringify (JObject (annotations this)))
    else hash in
  hash.

Definition toHash (this : t) : ConfigSubmoduleSchema.t :=
  {| ConfigSubmoduleSchema.name := name this;
     ConfigSubmoduleSchema.path := path this;
     ConfigSubmoduleSchema.url := url this;
     ConfigSubmoduleSchema.tags := if_nonempty (tags this) (fun xs => xs);
     ConfigSubmoduleSchema.labels := unless_empty (labels this);
     ConfigSubmoduleSchema.annotations := unless_empty (annotations this) |}.
End SubmoduleBase.

(** [Semver.clean] applied to a version field that is set: shared by every
    [resolveVersion]. *)
Definition clean_version `{Platform} (currentVersion : option string)
  : Result (option string) :=
  match currentVersion with
  | None => Ok None
  | Some raw =>
      if negb (truthy currentVersion) then Ok None
      else
        let version := Semver_clean raw in
        if negb (truthy version)
        then Throw (Error (invalid_semver_message raw))
        else Ok version
  end.

(** [for (const tag of this.tags) tag.updateHash(hash)] *)
Definition update_taggings (hash : Crypto.Hash) (tags : list TaggingBase.t)
  : Crypto.Hash :=
  fold_left (fun h tag => TaggingBase.updateHash tag h) tags hash.

Module FeatureBase.
Record t : Type := {
  name : string;
  branchName : string;
  sourceSha : string;
  upstream : option string;
  version : option string;
  tags : list TaggingBase.t;
  shadow : option bool
}.

Definition updateHash (this : t) (hash : Crypto.Hash) : Crypto.Hash :=
  let hash := Crypto.update hash (name this) in
  let hash := Crypto.update hash (branchName this) in
  let hash := Crypto.update hash (sourceSha this) in
  let hash := Crypto.update_if hash (version this) in
  let hash := Crypto.update_if hash (upstream this) in
  let hash := update_taggings hash (tags this) in
  hash.

Definition toHash (this : t) : ConfigFeatureSchema.t :=
  {| ConfigFeatureSchema.name := name this;
     ConfigFeatureSchema.branchName := branchName this;
     ConfigFeatureSchema.sourceSha := sourceSha this;
     ConfigFeatureSchema.version := version this;
     ConfigFeatureSchema.upstream := upstream this;
     ConfigFeatureSchema.tags := None |}.

Definition resolveVersion `{Platform} (this : t) : Result (option string) :=
  clean_version (version this).
End FeatureBase.

Module ReleaseBase.
Record t : Type := {
  name : string;
  branchName : string;
  sourceSha : string;
  version : option string;
  upstream : option string;
  intermediate : bool;
  tags : list TaggingBase.t;
  shadow : option bool
}.

Definition updateHash (this : t) (hash : Crypto.Hash) : Crypto.Hash :=
  let hash := Crypto.update hash (name this) in
  let hash := Crypto.update hash (branchName this) in
  let hash := Crypto.update hash (sourceSha this) in
  let hash := Crypto.update_if hash (version this) in
  let hash := Crypto.update_if hash (upstream this) in
  let hash := Crypto.update hash (Boolean_toString (intermediate this)) in
  let hash := update_taggings hash (tags this) in
  hash.

Definition toHash (this : t) : ConfigReleaseSchema.t :=
  {| ConfigReleaseSchema.name := name this;
     ConfigReleaseSchema.branchName := branchName this;
     ConfigReleaseSchema.sourceSha := sourceSha this;
     ConfigReleaseSchema.version := version this;
     ConfigReleaseSchema.upstream := upstream this;
     ConfigReleaseSchema.intermediate := Some (intermediate this);
     ConfigReleaseSchema.tags := None |}.

Definition resolveVersion `{Platform} (this : t) : Result (option string) :=
  clean_version (version this).
End ReleaseBase.

Module HotfixBase.
Record t : Type := {
  name : string;
  branchName : string;
  sourceSha : string;
  version : option string;
  upstream : option string;
  intermediate : bool;
  tags : list TaggingBase.t;
  shadow : option bool
}.

Definition updateHash (this : t) (hash : Crypto.Hash) : Crypto.Hash :=
  let hash := Crypto.update hash (name this) in
  let hash := Crypto.update hash (branchName this) in
  let hash := Crypto.update hash (sourceSha this) in
  let hash := Crypto.update_if hash (version this) in
  let hash := Crypto.update_if hash (upstream this) in
  let hash := Crypto.update hash (Boolean_toString (intermediate this)) in
  let hash := update_taggings hash (tags this) in
  hash.

Definition toHash (this : t) : ConfigHotfixSchema.t :=
  {| ConfigHotfixSchema.name := name this;
     ConfigHotfixSchema.branchName := branchName this;
     ConfigHotfixSchema.sourceSha := sourceSha this;
     ConfigHotfixSchema.version := version this;
     ConfigHotfixSchema.upstream := upstream this;
     ConfigHotfixSchema.intermediate := Some (intermediate this);
     ConfigHotfixSchema.tags := None |}.

Definition resolveVersion `{Platform} (this : t) : Result (option string) :=
  clean_version (version this).
End HotfixBase.

(** The branch a version is resolved for: ['develop' | 'master']. *)
Inductive BranchType : Type := develop | master.

(** [for (const x of xs.filter(i => !i.shadow)) x.updateHash(hash)] for
    the three short-lived branch kinds. *)
Definition update_features (hash : Crypto.Hash) (xs : list FeatureBase.t)
  : Crypto.Hash :=
  fold_left (fun h x => FeatureBase.updateHash x h)
            (not_shadow FeatureBase.shadow xs) hash.

Definition update_releases (hash : Crypto.Hash) (xs : list ReleaseBase.t)
  : Crypto.Hash :=
  fold_left (fun h x => ReleaseBase.updateHash x h)
            (not_shadow ReleaseBase.shadow xs) hash.

Definition update_hotfixes (hash : Crypto.Hash) (xs : list HotfixBase.t)
  : Crypto.Hash :=
  fold_left (fun h x => HotfixBase.updateHash x h)
            (not_shadow HotfixBase.shadow xs) hash.

(** [const xs' = xs.filter(i => !i.shadow); xs'.length ? xs'.map(i => i.toHash()) : undefined] *)
Definition toHash_visible {A B : Type} (shadow : A -> option bool)
  (toHash : A -> B) (xs : list A) : option (list B) :=
  if_nonempty (not_shadow shadow xs) (map toHash).

Module SupportBase.
Record t : Type := {
  name : string;
  masterBranchName : string;
  developBranchName : string;
  sourceSha : string;
  developVersion : option string;
  masterVersion : option string;
  upstream : option string;
  features : list FeatureBase.t;
  releases : list ReleaseBase.t;
  hotfixes : list HotfixBase.t
}.

Definition updateHash (this : t) (hash : Crypto.Hash) : Crypto.Hash :=
  let hash := Crypto.update hash (name this) in
  let hash := Crypto.update hash (masterBranchName this) in
  let hash := Crypto.update hash (developBranchName this) in
  let hash := Crypto.update hash (sourceSha this) in
  let hash := Crypto.update_if hash (developVersion this) in
  let hash := Crypto.update_if hash (masterVersion this) in
  let hash := Crypto.update_if hash (upstream this) in
  let hash := update_features hash (features this) in
  let hash := update_releases hash (releases this) in
  let hash := update_hotfixes hash (hotfixes this) in
  hash.

Definition toHash (this : t) : ConfigSupportSchema.t :=
  {| ConfigSupportSchema.name := name this;
     ConfigSupportSchema.masterBranchName := masterBranchName this;
     ConfigSupportSchema.developBranchName := developBranchName this;
     ConfigSupportSchema.sourceSha := sourceSha this;
     ConfigSupportSchema.developVersion := developVersion this;
     ConfigSupportSchema.masterVersion := masterVersion this;
     ConfigSupportSchema.upstream := upstream this;
     ConfigSupportSchema.features :=
       toHash_visible FeatureBase.shadow FeatureBase.toHash (features this);
     ConfigSupportSchema.releases :=
       toHash_visible ReleaseBase.shadow ReleaseBase.toHash (releases this);
     ConfigSupportSchema.hotfixes :=
       toHash_visible HotfixBase.shadow HotfixBase.toHash (hotfixes this) |}.

(** [resolveVersion(type = 'develop')]: [None] is the omitted argument. *)
Definition resolveVersion `{Platform} (this : t) (type : option BranchType)
  : Result (option string) :=
  let type := match type with Some ty => ty | None => develop end in
  let currentVersion :=
    match type with
    | develop => developVersion this
    | master => masterVersion this
    end in
  clean_version currentVersion.
End SupportBase.

Definition API_VERSION : string := "v1.5".

(** The module-level [resolveApiVersion()]. *)
Definition resolveApiVersion `{Platform} : Result string :=
  match Semver_coerce API_VERSION with
  | None => Throw (Error (invalid_semver_message API_VERSION))
  | Some version => Ok version
  end.

Module ConfigBase.
Record t : Type := {
  apiVersion : option string;
  identifier : string;
  managed : bool;
  developVersion : option string;
  masterVersion : option string;
  upstreams : list Upstream.t;
  submodules : list SubmoduleBase.t;
  features : list FeatureBase.t;
  releases : list ReleaseBase.t;
  hotfixes : list HotfixBase.t;
  supports : list SupportBase.t;
  included : list string;
  excluded : list string;
  featureMessageTemplate : option string;
  releaseMessageTemplate : option string;
  hotfixMessageTemplate : option string;
  releaseTagTemplate : option string;
  hotfixTagTemplate : option string;
  tags : list string;
  integrations : list IntegrationBase.t;
  commitMessageTemplates : list MessageTemplateBase.t;
  tagTemplates : list TagTemplateBase.t;
  masterBranchName : option string;
  developBranchName : option string;
  dependencies : option (list Dependency);
  labels : list (string * LabelValue);
  annotations : list (string * JValue)
}.

Definition updateHash `{Platform} (this : t) (hash : Crypto.Hash)
  : Crypto.Hash :=
  let hash := Crypto.update_if hash (apiVersion this) in
  let hash := Crypto.update hash (identifier this) in
  let hash :=
    if negb (managed this) then Crypto.update hash "unmanaged" else hash in
  let hash := Crypto.update_if hash (developVersion this) in
  let hash := Crypto.update_if hash (masterVersion this) in
  let hash :=
    fold_left
      (fun h upstream =>
         let h := Crypto.update h (Upstream.name upstream) in
         let h := Crypto.update h (Upstream.url upstream) in
         h)
      (upstreams this) hash in
  let hash := Crypto.update_each hash (included this) in
  let hash := Crypto.update_each hash (excluded this) in
  let hash :=
    fold_left (fun h submodule => SubmoduleBase.updateHash submodule h)
              (not_shadow SubmoduleBase.shadow (submodules this)) hash in
  let hash := update_features hash (features this) in
  let hash := update_releases hash (releases this) in
  let hash := update_hotfixes hash (hotfixes this) in
  let hash :=
    fold_left (fun h support => SupportBase.updateHash support h)
              (supports this) hash in
  let hash := Crypto.update_if hash (featureMessageTemplate this) in
  let hash := Crypto.update_if hash (releaseMessageTemplate this) in
  let hash := Crypto.update_if hash (hotfixMessageTemplate this) in
  let hash := Crypto.update_if hash (releaseTagTemplate this) in
  let hash := Crypto.update_if hash (hotfixTagTemplate this) in
  let hash := Crypto.update_each hash (tags this) in
  let hash :=
    fold_left (fun h integration => IntegrationBase.updateHash integration h)
              (integrations this) hash in
  let hash :=
    fold_left (fun h messageTemplate =>
                 MessageTemplateBase.updateHash messageTemplate h)
              (commitMessageTemplates this) hash in
  let hash :=
    fold_left (fun h tagTemplate => TagTemplateBase.updateHash tagTemplate h)
              (tagTemplates this) hash in
  let hash := Crypto.update_if hash (masterBranchName this) in
  let hash := Crypto.update_if hash (developBranchName this) in
  let hash :=
    fold_left
      (fun h dependency =>
         Crypto.update h (JSON_stringify (Dependency_toJSON dependency)))
      (match dependencies this with Some ds => ds | None => [] end) hash in
  let hash :=
    if negb (isEmpty (labels this))
    then Crypto.update hash (JSON_stringify (labels_toJSON (labels this)))
    else hash in
  let hash :=
    if negb (isEmpty (annotations this))
    then Crypto.update hash (JSON_stringify (JObject (annotations this)))
    else hash in
  hash.

(** [calculateHash({ algorithm = 'sha256', encoding = 'hex' } = {})] *)
Definition calculateHash `{Platform} (this : t)
  (algorithm encoding : option string) : string :=
  let algorithm := match algorithm with Some a => a | None => "sha256" end in
  let encoding := match encoding with Some e => e | None => "hex" end in
  let hash := Crypto.createHash algorithm in
  let hash := updateHash this hash in
  Crypto.digest hash encoding.

(** [toHash(stampApiVersion = false)]; it throws only where the module's
    [resolveApiVersion()] does. *)
Definition toHash `{Platform} (stampApiVersion : bool) (this : t)
  : Result ConfigSchema.t :=
  let submodules := not_shadow SubmoduleBase.shadow (submodules this) in
  let features := not_shadow FeatureBase.shadow (features this) in
  let releases := not_shadow ReleaseBase.shadow (releases this) in
  let hotfixes := not_shadow HotfixBase.shadow (hotfixes this) in
  let stamped :=
    if stampApiVersion
    then match resolveApiVersion with
         | Ok version => Ok (Some ("v" ++ version))
         | Throw e => Throw e
         end
    else Ok (apiVersion this) in
  match stamped with
  | Throw e => Throw e
  | Ok apiVersion' =>
    Ok {| ConfigSchema.apiVersion := apiVersion';
          ConfigSchema.identifier := identifier this;
          ConfigSchema.managed :=
            if negb (managed this) then Some (managed this) else None;
          ConfigSchema.version := None;
          ConfigSchema.developVersion := developVersion this;
          ConfigSchema.masterVersion := masterVersion this;
          ConfigSchema.upstreams := if_nonempty (upstreams this) (fun xs => xs);
          ConfigSchema.submodules :=
            if_nonempty submodules (map SubmoduleBase.toHash);
          ConfigSchema.features := if_nonempty features (map FeatureBase.toHash);
          ConfigSchema.releases := if_nonempty releases (map ReleaseBase.toHash);
          ConfigSchema.hotfixes := if_nonempty hotfixes (map HotfixBase.toHash);
          ConfigSchema.supports :=
            if_nonempty (supports this) (map SupportBase.toHash);
          ConfigSchema.included := if_nonempty (included this) (fun xs => xs);
          ConfigSchema.excluded := if_nonempty (excluded this) (fun xs => xs);
          ConfigSchema.featureMessageTemplate := featureMessageTemplate this;
          ConfigSchema.releaseMessageTemplate := releaseMessageTemplate this;
          ConfigSchema.hotfixMessageTemplate := hotfixMessageTemplate this;
          ConfigSchema.releaseTagTemplate := releaseTagTemplate this;
          ConfigSchema.hotfixTagTemplate := hotfixTagTemplate this;
          ConfigSchema.tags := if_nonempty (tags this) (fun xs => xs);
          ConfigSchema.integrations :=
            if_nonempty (integrations this) (map IntegrationBase.toHash);
          ConfigSchema.commitMessageTemplates :=
            if_nonempty (commitMessageTemplates this)
                        (map MessageTemplateBase.toHash);
          ConfigSchema.tagTemplates :=
            if_nonempty (tagTemplates this) (map TagTemplateBase.toHash);
          ConfigSchema.masterBranchName := masterBranchName this;
          ConfigSchema.developBranchName := developBranchName this;
          ConfigSchema.dependencies :=
            match dependencies this with
            | Some ds => if_nonempty ds (fun xs => xs)
            | None => None
            end;
          ConfigSchema.labels := unless_empty (labels this);
          ConfigSchema.annotations := unless_empty (annotations this) |}
  end.

(** [resolveApiVersion()] of a tree: [this.apiVersion ?? 'v0.0'] coerced. *)
Definition resolveApiVersion `{Platform} (this : t) : Result string :=
  let declared := match apiVersion this with Some v => v | None => "v0.0" end in
  match Semver_coerce declared with
  | None => Throw (Error (invalid_semver_message declared))
  | Some version => Ok version
  end.

(** [resolveVersion(type = 'develop')]: [None] is the omitted argument. *)
Definition resolveVersion `{Platform} (this : t) (type : option BranchType)
  : Result (option string) :=
  let type := match type with Some ty => ty | None => develop end in
  let currentVersion :=
    match type with
    | develop => developVersion this
    | master => masterVersion this
    end in
  clean_version currentVersion.
End ConfigBase.

(** ** Config references *)

(** The literals of the [protocol] union in [ConfigUriSchema]. *)
Definition protocols : list string :=
  ["config"; "file"; "branch"; "http"; "https"; "glfs"].

Definition is_protocol (s : string) : bool :=
  existsb (String.eqb s) protocols.

(** [ConfigUriSchema.parse(value)]: the string must pass the URL check;
    then the transform runs: [value.split('://')] gives [parts], and the
    object [{ protocol: parts[0], qualifier: parts[1] }] is parsed by the
    inner schema, every failing key adding its issue. The error the inner
    [parse] throws leaves the transform and reaches the caller. *)
Definition ConfigUriSchema_parse `{Platform} (value : string)
  : Result (string * string) :=
  if negb (Zod_isUrl value) then Throw (ZodError [invalid_url])
  else
    let parts := split "://" value in
    let protocol := nth_error parts 0 in
    let qualifier := nth_error parts 1 in
    let protocol_issues :=
      match protocol with
      | Some p => if is_protocol p then [] else [invalid_protocol]
      | None => [invalid_protocol]
      end in
    let qualifier_issues :=
      match qualifier with
      | Some _ => []
      | None => [required_qualifier]
      end in
    match protocol, qualifier, (protocol_issues ++ qualifier_issues)%list with
    | Some p, Some q, [] => Ok (p, q)
    | _, _, issues => Throw (ZodError issues)
    end.

Inductive ConfigReference : Type :=
| ConfigRef
    (* { type: 'config' } *)
| FileRef (path : string)
    (* { type: 'file', path } *)
| BranchRef (branchName : string)
    (* { type: 'branch', branchName } *)
| HttpRef (protocol : string) (url : string)
    (* { type: 'http', protocol, url } *)
| GlfsRef (hostname : option string) (namespace : string) (name : string)
          (support : option string).
    (* { type: 'glfs', hostname?, namespace, name, support? } *)

(** [`GLFS Uri invalid [${uri}]`] *)
Definition glfs_invalid_message (uri : string) : string :=
  "GLFS Uri invalid [" ++ uri ++ "]".

(** [`Unsupported config protocol ${protocol}`] *)
Definition unsupported_protocol_message (protocol : string) : string :=
  "Unsupported config protocol " ++ protocol.

(** [parseConfigReference(uri)]. The tests on [parts.length] followed by
    [parts[0]], ..., [parts[3]] are the list patterns of that length. *)
Definition parseConfigReference `{Platform} (uri : string)
  : Result ConfigReference :=
  match ConfigUriSchema_parse uri with
  | Throw e => Throw e
  | Ok (protocol, qualifier) =>
      if protocol =? "config" then Ok ConfigRef
      else if protocol =? "file" then Ok (FileRef qualifier)
      else if protocol =? "branch" then Ok (BranchRef qualifier)
      else if (protocol =? "http") || (protocol =? "https")
      then Ok (HttpRef protocol qualifier)
      else if protocol =? "glfs" then
        let parts := split "/" qualifier in
        match parts with
        | [p0; p1; p2; p3] => Ok (GlfsRef (Some p0) p1 p2 (Some p3))
        | [p0; p1; p2] => Ok (GlfsRef (Some p0) p1 p2 None)
        | [p0; p1] => Ok (GlfsRef None p0 p1 None)
        | _ => Throw (Error (glfs_invalid_message uri))
        end
      else Throw (Error (unsupported_protocol_message protocol))
  end.

(** The number of segments of a glfs qualifier is outside 2, 3 and 4. *)
Definition malformed_glfs (protocol qualifier : string) : bool :=
  (protocol =? "glfs")
  && negb (existsb (Nat.eqb (length (split "/" qualifier))) [2; 3; 4]).

(** ** Building a tree from a document

    The constructors of the concrete entity classes (the step from a
    validated document to the tree) are not in the source files. *)

Module Validate.

(** Modelled from the spec: the tree constructors are missing; an absent
    collection of a document is the empty collection of the tree. *)
Definition collection {A : Type} (o : option (list A)) : list A :=
  match o with
  | Some xs => xs
  | None => []
  end.

(** Modelled from the spec: the [Tagging] constructor is missing; a
    Tagging is [{name, optional annotation}]. *)
Definition tagging (d : ConfigTaggingSchema.t) : TaggingBase.t :=
  {| TaggingBase.name := ConfigTaggingSchema.name d;
     TaggingBase.annotation := ConfigTaggingSchema.annotation d |}.

(** Modelled from the spec: the [MessageTemplate] constructor is missing. *)
Definition messageTemplate (d : ConfigMessageTemplate.t)
  : MessageTemplateBase.t :=
  {| MessageTemplateBase.name := ConfigMessageTemplate.name d;
     MessageTemplateBase.message := ConfigMessageTemplate.message d |}.

(** Modelled from the spec: the [TagTemplate] constructor is missing. *)
Definition tagTemplate (d : ConfigTagTemplate.t) : TagTemplateBase.t :=
  {| TagTemplateBase.name := ConfigTagTemplate.name d;
     TagTemplateBase.tag := ConfigTagTemplate.tag d;
     TagTemplateBase.annotation := ConfigTagTemplate.annotation d |}.

(** Modelled from the spec: the [Integration] constructor is missing; an
    absent options map is the empty map. *)
Definition integration (d : ConfigIntegrationSchema.t) : IntegrationBase.t :=
  {| IntegrationBase.plugin := ConfigIntegrationSchema.plugin d;
     IntegrationBase.options := collection (ConfigIntegrationSchema.options d) |}.

(** Modelled from the spec: the [Submodule] constructor is missing; a
    document never carries the shadow flag. *)
Definition submodule (d : ConfigSubmoduleSchema.t) : SubmoduleBase.t :=
  {| SubmoduleBase.name := ConfigSubmoduleSchema.name d;
     SubmoduleBase.path := ConfigSubmoduleSchema.path d;
     SubmoduleBase.url := ConfigSubmoduleSchema.url d;
     SubmoduleBase.tags := collection (ConfigSubmoduleSchema.tags d);
     SubmoduleBase.labels := collection (ConfigSubmoduleSchema.labels d);
     SubmoduleBase.annotations :=
       collection (ConfigSubmoduleSchema.annotations d);
     SubmoduleBase.shadow := None |}.

(** Modelled from the spec: the [Feature] constructor is missing. *)
Definition feature (d : ConfigFeatureSchema.t) : FeatureBase.t :=
  {| FeatureBase.name := ConfigFeatureSchema.name d;
     FeatureBase.branchName := ConfigFeatureSchema.branchName d;
     FeatureBase.sourceSha := ConfigFeatureSchema.sourceSha d;
     FeatureBase.upstream := ConfigFeatureSchema.upstream d;
     FeatureBase.version := ConfigFeatureSchema.version d;
     FeatureBase.tags := map tagging (collection (ConfigFeatureSchema.tags d));
     FeatureBase.shadow := None |}.

(** Modelled from the spec: the [Release] constructor is missing;
    [intermediate] is false when absent. *)
Definition release (d : ConfigReleaseSchema.t) : ReleaseBase.t :=
  {| ReleaseBase.name := ConfigReleaseSchema.name d;
     ReleaseBase.branchName := ConfigReleaseSchema.branchName d;
     ReleaseBase.sourceSha := ConfigReleaseSchema.sourceSha d;
     ReleaseBase.version := ConfigReleaseSchema.version d;
     ReleaseBase.upstream := ConfigReleaseSchema.upstream d;
     ReleaseBase.intermediate :=
       match ConfigReleaseSchema.intermediate d with
       | Some b => b
       | None => false
       end;
     ReleaseBase.tags := map tagging (collection (ConfigReleaseSchema.tags d));
     ReleaseBase.shadow := None |}.

(** Modelled from the spec: the [Hotfix] constructor is missing;
    [intermediate] is false when absent. *)
Definition hotfix (d : ConfigHotfixSchema.t) : HotfixBase.t :=
  {| HotfixBase.name := ConfigHotfixSchema.name d;
     HotfixBase.branchName := ConfigHotfixSchema.branchName d;
     HotfixBase.sourceSha := ConfigHotfixSchema.sourceSha d;
     HotfixBase.version := ConfigHotfixSchema.version d;
     HotfixBase.upstream := ConfigHotfixSchema.upstream d;
     HotfixBase.intermediate :=
       match ConfigHotfixSchema.intermediate d with
       | Some b => b
       | None => false
       end;
     HotfixBase.tags := map tagging (collection (ConfigHotfixSchema.tags d));
     HotfixBase.shadow := None |}.

(** Modelled from the spec: the [Support] constructor is missing. *)
Definition support (d : ConfigSupportSchema.t) : SupportBase.t :=
  {| SupportBase.name := ConfigSupportSchema.name d;
     SupportBase.masterBranchName := ConfigSupportSchema.masterBranchName d;
     SupportBase.developBranchName := ConfigSupportSchema.developBranchName d;
     SupportBase.sourceSha := ConfigSupportSchema.sourceSha d;
     SupportBase.developVersion := ConfigSupportSchema.developVersion d;
     SupportBase.masterVersion := ConfigSupportSchema.masterVersion d;
     SupportBase.upstream := ConfigSupportSchema.upstream d;
     SupportBase.features :=
       map feature (collection (ConfigSupportSchema.features d));
     SupportBase.releases :=
       map release (collection (ConfigSupportSchema.releases d));
     SupportBase.hotfixes :=
       map hotfix (collection (ConfigSupportSchema.hotfixes d)) |}.

(** Modelled from the spec: [validate], the [Config] constructor, is
    missing; [managed] is true when absent, every absent collection is
    empty, the other fields are taken as they are. The legacy [version]
    key has no field in the v1.5 tree. *)
Definition validate (d : ConfigSchema.t) : ConfigBase.t :=
  {| ConfigBase.apiVersion := ConfigSchema.apiVersion d;
     ConfigBase.identifier := ConfigSchema.identifier d;
     ConfigBase.managed :=
       match ConfigSchema.managed d with
       | Some b => b
       | None => true
       end;
     ConfigBase.developVersion := ConfigSchema.developVersion d;
     ConfigBase.masterVersion := ConfigSchema.masterVersion d;
     ConfigBase.upstreams := collection (ConfigSchema.upstreams d);
     ConfigBase.submodules :=
       map submodule (collection (ConfigSchema.submodules d));
     ConfigBase.features := map feature (collection (ConfigSchema.features d));
     ConfigBase.releases := map release (collection (ConfigSchema.releases d));
     ConfigBase.hotfixes := map hotfix (collection (ConfigSchema.hotfixes d));
     ConfigBase.supports := map support (collection (ConfigSchema.supports d));
     ConfigBase.included := collection (ConfigSchema.included d);
     ConfigBase.excluded := collection (ConfigSchema.excluded d);
     ConfigBase.featureMessageTemplate :=
       ConfigSchema.featureMessageTemplate d;
     ConfigBase.releaseMessageTemplate :=
       ConfigSchema.releaseMessageTemplate d;
     ConfigBase.hotfixMessageTemplate := ConfigSchema.hotfixMessageTemplate d;
     ConfigBase.releaseTagTemplate := ConfigSchema.releaseTagTemplate d;
     ConfigBase.hotfixTagTemplate := ConfigSchema.hotfixTagTemplate d;
     ConfigBase.tags := collection (ConfigSchema.tags d);
     ConfigBase.integrations :=
       map integration (collection (ConfigSchema.integrations d));
     ConfigBase.commitMessageTemplates :=
       map messageTemplate (collection (ConfigSchema.commitMessageTemplates d));
     ConfigBase.tagTemplates :=
       map tagTemplate (collection (ConfigSchema.tagTemplates d));
     ConfigBase.masterBranchName := ConfigSchema.masterBranchName d;
     ConfigBase.developBranchName := ConfigSchema.developBranchName d;
     ConfigBase.dependencies := ConfigSchema.dependencies d;
     ConfigBase.labels := collection (ConfigSchema.labels d);
     ConfigBase.annotations := collection (ConfigSchema.annotations d) |}.

End Validate.

(** ** A reference platform

    One concrete [Platform], used to run the definitions on sample inputs.
    The general theorems quantify over every platform; the reference
    platform instantiates them on samples. It covers the parts of the
    libraries the samples exercise and is conservative elsewhere:
    - the digest is the tagged input itself (so it never collides);
    - [JSON.stringify] on JSON values with integer numbers;
    - [Semver.clean] on release versions [MAJOR.MINOR.PATCH] (a version
      with a prerelease or build suffix is rejected);
    - [Semver.coerce] on a leading [MAJOR], [MAJOR.MINOR] or
      [MAJOR.MINOR.PATCH] after any non-digit prefix;
    - the URL check accepts [scheme:rest] where [scheme] is a letter
      followed by letters, digits, [+], [-] or [.], and [rest] has no
      space or control character. *)

Module Reference.

Definition is_space (c : ascii) : bool :=
  let n := nat_of_ascii c in
  Nat.eqb n 32 || (Nat.leb 9 n && Nat.leb n 13).

Definition is_digit (c : ascii) : bool :=
  let n := nat_of_ascii c in
  Nat.leb 48 n && Nat.leb n 57.

Definition is_alpha (c : ascii) : bool :=
  let n := nat_of_ascii c in
  (Nat.leb 65 n && Nat.leb n 90) || (Nat.leb 97 n && Nat.leb n 122).

Fixpoint string_rev (s : string) : string :=
  match s with
  | EmptyString => EmptyString
  | String c rest => string_rev rest ++ String c EmptyString
  end.

Fixpoint drop_while (p : ascii -> bool) (s : string) : string :=
  match s with
  | EmptyString => EmptyString
  | String c rest => if p c then drop_while p rest else s
  end.

Fixpoint string_forallb (p : ascii -> bool) (s : string) : bool :=
  match s with
  | EmptyString => true
  | String c rest => p c && string_forallb p rest
  end.

(** [String.prototype.trim] on ASCII white space. *)
Definition trim (s : string) : string :=
  string_rev (drop_while is_space (string_rev (drop_while is_space s))).

(** The decimal value of a string of digits. *)
Fixpoint digits_value (acc : N) (s : string) : N :=
  match s with
  | EmptyString => acc
  | String c rest =>
      digits_value (acc * 10 + N.of_nat (nat_of_ascii c - 48)) rest
  end.

(** [Number.MAX_SAFE_INTEGER] *)
Definition MAX_SAFE_INTEGER : N := 9007199254740991.

(** A numeric identifier: [0|[1-9]\d*], at most [MAX_SAFE_INTEGER]. *)
Definition numeric_identifier (s : string) : bool :=
  match s with
  | EmptyString => false
  | String c rest =>
      string_forallb is_digit s
      && (negb (Ascii.eqb c "0"%char) || (rest =? ""))
      && N.leb (digits_value 0 s) MAX_SAFE_INTEGER
  end.

(** A release version [MAJOR.MINOR.PATCH] of at most 256 characters with
    an optional leading [v], white space around it trimmed. *)
Definition parse_release (s : string) : option string :=
  if Nat.ltb 256 (String.length s) then None else
  let s := trim s in
  let s := match s with
           | String c rest => if Ascii.eqb c "v"%char then rest else s
           | EmptyString => s
           end in
  match split "." s with
  | [major; minor; patch] =>
      if numeric_identifier major && numeric_identifier minor
         && numeric_identifier patch
      then Some (major ++ "." ++ minor ++ "." ++ patch)
      else None
  | _ => None
  end.

(** [clean]: trim, drop the leading run of [=] and [v], then parse. *)
Definition clean (version : string) : option string :=
  let is_eq_or_v c := Ascii.eqb c "="%char || Ascii.eqb c "v"%char in
  parse_release (drop_while is_eq_or_v (trim version)).

Fixpoint take_while (p : ascii -> bool) (s : string) : string :=
  match s with
  | EmptyString => EmptyString
  | String c rest => if p c then String c (take_while p rest) else EmptyString
  end.

(** [coerce]: the first run of digits and up to two dotted runs after it,
    missing components being [0]. *)
Definition coerce (version : string) : option string :=
  let s := drop_while (fun c => negb (is_digit c)) version in
  let major := take_while is_digit s in
  let s := drop_while is_digit s in
  let component s :=
    match s with
    | String c rest =>
        if Ascii.eqb c "."%char && negb (take_while is_digit rest =? "")
        then (take_while is_digit rest, drop_while is_digit rest)
        else ("0", s)
    | EmptyString => ("0", s)
    end in
  let '(minor, s) := component s in
  let '(patch, _) := component s in
  parse_release (major ++ "." ++ minor ++ "." ++ patch).

Definition is_scheme_char (c : ascii) : bool :=
  is_alpha c || is_digit c || Ascii.eqb c "+"%char || Ascii.eqb c "-"%char
  || Ascii.eqb c "."%char.

Definition isUrl (s : string) : bool :=
  match split ":" s with
  | scheme :: _ :: _ =>
      match scheme with
      | String c _ =>
          is_alpha c && string_forallb is_scheme_char scheme
          && string_forallb (fun c => Nat.ltb 32 (nat_of_ascii c)) s
      | EmptyString => false
      end
  | _ => false
  end.

Definition join (sep : string) (l : list string) : string :=
  match l with
  | [] => ""
  | x :: xs => fold_left (fun acc y => acc ++ sep ++ y) xs x
  end.

Definition hex_digit (n : nat) : string :=
  String (ascii_of_nat (if Nat.ltb n 10 then 48 + n else 87 + n)) "".

(** One character of a JSON string literal. *)
Definition escape_char (c : ascii) : string :=
  let n := nat_of_ascii c in
  if Nat.eqb n 34 then String (ascii_of_nat 92) dquote
  else if Nat.eqb n 92 then String c (String c "")
  else if Nat.eqb n 8 then String (ascii_of_nat 92) "b"
  else if Nat.eqb n 9 then String (ascii_of_nat 92) "t"
  else if Nat.eqb n 10 then String (ascii_of_nat 92) "n"
  else if Nat.eqb n 12 then String (ascii_of_nat 92) "f"
  else if Nat.eqb n 13 then String (ascii_of_nat 92) "r"
  else if Nat.ltb n 32
       then String (ascii_of_nat 92) "u00" ++ hex_digit (n / 16)
            ++ hex_digit (n mod 16)
  else String c "".

Fixpoint escape (s : string) : string :=
  match s with
  | EmptyString => EmptyString
  | String c rest => escape_char c ++ escape rest
  end.

Definition quote (s : string) : string := dquote ++ escape s ++ dquote.

Fixpoint stringify (v : JValue) : string :=
  match v with
  | JNull => "null"
  | JBool b => Boolean_toString b
  | JNumber n => NilEmpty.string_of_int (Z.to_int n)
  | JString s => quote s
  | JArray items => "[" ++ join "," (map stringify items) ++ "]"
  | JObject members =>
      "{" ++ join ","
               (map (fun kv => match kv with
                               | (k, x) => quote k ++ ":" ++ stringify x
                               end) members)
          ++ "}"
  end.

#[export] Instance platform : Platform := {
  Crypto_digest algorithm encoding bytes :=
    algorithm ++ ":" ++ encoding ++ ":" ++ bytes;
  JSON_stringify := stringify;
  Semver_clean := clean;
  Semver_coerce := coerce;
  Zod_isUrl := isUrl
}.

End Reference.

(** ** The bytes an entity contributes to a hash

    What each [updateHash] appends to the hash object's input, written as
    a string: the statement side of the hashing theorems. *)

(** An optional string field: nothing when absent. *)
Definition optional_bytes (o : option string) : string :=
  match o with
  | Some s => s
  | None => ""
  end.

(** The contributions of the elements of a collection, in order. *)
Definition each_bytes {A : Type} (f : A -> string) (xs : list A) : string :=
  concat_strings (map f xs).

(** A record of keys: nothing when empty, else its JSON text. *)
Definition record_bytes `{Platform} {V : Type} (toJSON : list (string * V) -> JValue)
  (obj : list (string * V)) : string :=
  if isEmpty obj then "" else JSON_stringify (toJSON obj).

Module Bytes.

Definition tagging (x : TaggingBase.t) : string :=
  TaggingBase.name x ++ optional_bytes (TaggingBase.annotation x).

Definition messageTemplate (x : MessageTemplateBase.t) : string :=
  MessageTemplateBase.name x ++ MessageTemplateBase.message x.

Definition tagTemplate (x : TagTemplateBase.t) : string :=
  TagTemplateBase.name x ++ TagTemplateBase.tag x
  ++ optional_bytes (TagTemplateBase.annotation x).

Definition integration `{Platform} (x : IntegrationBase.t) : string :=
  IntegrationBase.plugin x
  ++ JSON_stringify (JObject (IntegrationBase.options x)).

Definition upstream (x : Upstream.t) : string :=
  Upstream.name x ++ Upstream.url x.

Definition submodule `{Platform} (x : SubmoduleBase.t) : string :=
  SubmoduleBase.name x ++ SubmoduleBase.path x
  ++ optional_bytes (SubmoduleBase.url x)
  ++ each_bytes (fun tag => tag) (SubmoduleBase.tags x)
  ++ record_bytes labels_toJSON (SubmoduleBase.labels x)
  ++ record_bytes JObject (SubmoduleBase.annotations x).

Definition feature (x : FeatureBase.t) : string :=
  FeatureBase.name x ++ FeatureBase.branchName x ++ FeatureBase.sourceSha x
  ++ optional_bytes (FeatureBase.version x)
  ++ optional_bytes (FeatureBase.upstream x)
  ++ each_bytes tagging (FeatureBase.tags x).

Definition release (x : ReleaseBase.t) : string :=
  ReleaseBase.name x ++ ReleaseBase.branchName x ++ ReleaseBase.sourceSha x
  ++ optional_bytes (ReleaseBase.version x)
  ++ optional_bytes (ReleaseBase.upstream x)
  ++ Boolean_toString (ReleaseBase.intermediate x)
  ++ each_bytes tagging (ReleaseBase.tags x).

Definition hotfix (x : HotfixBase.t) : string :=
  HotfixBase.name x ++ HotfixBase.branchName x ++ HotfixBase.sourceSha x
  ++ optional_bytes (HotfixBase.version x)
  ++ optional_bytes (HotfixBase.upstream x)
  ++ Boolean_toString (HotfixBase.intermediate x)
  ++ each_bytes tagging (HotfixBase.tags x).

Definition support (x : SupportBase.t) : string :=
  SupportBase.name x ++ SupportBase.masterBranchName x
  ++ SupportBase.developBranchName x ++ SupportBase.sourceSha x
  ++ optional_bytes (SupportBase.developVersion x)
  ++ optional_bytes (SupportBase.masterVersion x)
  ++ optional_bytes (SupportBase.upstream x)
  ++ each_bytes feature (not_shadow FeatureBase.shadow (SupportBase.features x))
  ++ each_bytes release (not_shadow ReleaseBase.shadow (SupportBase.releases x))
  ++ each_bytes hotfix (not_shadow HotfixBase.shadow (SupportBase.hotfixes x)).

Definition dependency `{Platform} (d : Dependency) : string :=
  JSON_stringify (Dependency_toJSON d).

(** The sentinel of an unmanaged tree. *)
Definition managed (b : bool) : string :=
  if b then "" else "unmanaged".

(** The fields of a Config that come before the [managed] flag in the
    traversal, and those that come after it. *)
Definition before_managed (c : ConfigBase.t) : list string :=
  [ optional_bytes (ConfigBase.apiVersion c);
    ConfigBase.identifier c ].

Definition after_managed `{Platform} (c : ConfigBase.t) : list string :=
  [ optional_bytes (ConfigBase.developVersion c);
    optional_bytes (ConfigBase.masterVersion c);
    each_bytes upstream (ConfigBase.upstreams c);
    each_bytes (fun s => s) (ConfigBase.included c);
    each_bytes (fun s => s) (ConfigBase.excluded c);
    each_bytes submodule
      (not_shadow SubmoduleBase.shadow (ConfigBase.submodules c));
    each_bytes feature (not_shadow FeatureBase.shadow (ConfigBase.features c));
    each_bytes release (not_shadow ReleaseBase.shadow (ConfigBase.releases c));
    each_bytes hotfix (not_shadow HotfixBase.shadow (ConfigBase.hotfixes c));
    each_bytes support (ConfigBase.supports c);
    optional_bytes (ConfigBase.featureMessageTemplate c);
    optional_bytes (ConfigBase.releaseMessageTemplate c);
    optional_bytes (ConfigBase.hotfixMessageTemplate c);
    optional_bytes (ConfigBase.releaseTagTemplate c);
    optional_bytes (ConfigBase.hotfixTagTemplate c);
    each_bytes (fun s => s) (ConfigBase.tags c);
    each_bytes integration (ConfigBase.integrations c);
    each_bytes messageTemplate (ConfigBase.commitMessageTemplates c);
    each_bytes tagTemplate (ConfigBase.tagTemplates c);
    optional_bytes (ConfigBase.masterBranchName c);
    optional_bytes (ConfigBase.developBranchName c);
    each_bytes dependency
      (match ConfigBase.dependencies c with Some ds => ds | None => [] end);
    record_bytes labels_toJSON (ConfigBase.labels c);
    record_bytes JObject (ConfigBase.annotations c) ].

(** The contributions of a Config's fields in the order [updateHash]
    visits them: apiVersion, identifier, managed, developVersion,
    masterVersion, upstreams, included, excluded, submodules, features,
    releases, hotfixes, supports, the five per-kind templates, tags,
    integrations, commitMessageTemplates, tagTemplates, masterBranchName,
    developBranchName, dependencies, labels, annotations. *)
Definition fields `{Platform} (c : ConfigBase.t) : list string :=
  (before_managed c ++ managed (ConfigBase.managed c) :: after_managed c)%list.

Definition config `{Platform} (c : ConfigBase.t) : string :=
  concat_strings (fields c).

End Bytes.

(** ** Trees that differ in one field

    Entities are immutable; a changed tree is a new tree. These build a
    copy of a value with one field replaced. *)

Module With.

Definition feature_tags (tags : list TaggingBase.t) (x : FeatureBase.t)
  : FeatureBase.t :=
  {| FeatureBase.name := FeatureBase.name x;
     FeatureBase.branchName := FeatureBase.branchName x;
     FeatureBase.sourceSha := FeatureBase.sourceSha x;
     FeatureBase.upstream := FeatureBase.upstream x;
     FeatureBase.version := FeatureBase.version x;
     FeatureBase.tags := tags;
     FeatureBase.shadow := FeatureBase.shadow x |}.

(** A Support line with its three branch collections replaced. *)
Definition support_branches (features : list FeatureBase.t)
  (releases : list ReleaseBase.t) (hotfixes : list HotfixBase.t)
  (x : SupportBase.t) : SupportBase.t :=
  {| SupportBase.name := SupportBase.name x;
     SupportBase.masterBranchName := SupportBase.masterBranchName x;
     SupportBase.developBranchName := SupportBase.developBranchName x;
     SupportBase.sourceSha := SupportBase.sourceSha x;
     SupportBase.developVersion := SupportBase.developVersion x;
     SupportBase.masterVersion := SupportBase.masterVersion x;
     SupportBase.upstream := SupportBase.upstream x;
     SupportBase.features := features;
     SupportBase.releases := releases;
     SupportBase.hotfixes := hotfixes |}.

(** A Config with its [managed] flag and its child collections replaced;
    every other field is kept. *)
Definition children (managed : bool)
  (upstreams : list Upstream.t) (included excluded : list string)
  (submodules : list SubmoduleBase.t) (features : list FeatureBase.t)
  (releases : list ReleaseBase.t) (hotfixes : list HotfixBase.t)
  (supports : list SupportBase.t) (c : ConfigBase.t) : ConfigBase.t :=
  {| ConfigBase.apiVersion := ConfigBase.apiVersion c;
     ConfigBase.identifier := ConfigBase.identifier c;
     ConfigBase.managed := managed;
     ConfigBase.developVersion := ConfigBase.developVersion c;
     ConfigBase.masterVersion := ConfigBase.masterVersion c;
     ConfigBase.upstreams := upstreams;
     ConfigBase.submodules := submodules;
     ConfigBase.features := features;
     ConfigBase.releases := releases;
     ConfigBase.hotfixes := hotfixes;
     ConfigBase.supports := supports;
     ConfigBase.included := included;
     ConfigBase.excluded := excluded;
     ConfigBase.featureMessageTemplate := ConfigBase.featureMessageTemplate c;
     ConfigBase.releaseMessageTemplate := ConfigBase.releaseMessageTemplate c;
     ConfigBase.hotfixMessageTemplate := ConfigBase.hotfixMessageTemplate c;
     ConfigBase.releaseTagTemplate := ConfigBase.releaseTagTemplate c;
     ConfigBase.hotfixTagTemplate := ConfigBase.hotfixTagTemplate c;
     ConfigBase.tags := ConfigBase.tags c;
     ConfigBase.integrations := ConfigBase.integrations c;
     ConfigBase.commitMessageTemplates := ConfigBase.commitMessageTemplates c;
     ConfigBase.tagTemplates := ConfigBase.tagTemplates c;
     ConfigBase.masterBranchName := ConfigBase.masterBranchName c;
     ConfigBase.developBranchName := ConfigBase.developBranchName c;
     ConfigBase.dependencies := ConfigBase.dependencies c;
     ConfigBase.labels := ConfigBase.labels c;
     ConfigBase.annotations := ConfigBase.annotations c |}.

Definition managed (b : bool) (c : ConfigBase.t) : ConfigBase.t :=
  children b (ConfigBase.upstreams c) (ConfigBase.included c)
    (ConfigBase.excluded c) (ConfigBase.submodules c) (ConfigBase.features c)
    (ConfigBase.releases c) (ConfigBase.hotfixes c) (ConfigBase.supports c) c.

Definition upstreams (xs : list Upstream.t) (c : ConfigBase.t)
  : ConfigBase.t :=
  children (ConfigBase.managed c) xs (ConfigBase.included c)
    (ConfigBase.excluded c) (ConfigBase.submodules c) (ConfigBase.features c)
    (ConfigBase.releases c) (ConfigBase.hotfixes c) (ConfigBase.supports c) c.

Definition globs (included excluded : list string) (c : ConfigBase.t)
  : ConfigBase.t :=
  children (ConfigBase.managed c) (ConfigBase.upstreams c) included excluded
    (ConfigBase.submodules c) (ConfigBase.features c)
    (ConfigBase.releases c) (ConfigBase.hotfixes c) (ConfigBase.supports c) c.

Definition submodules (xs : list SubmoduleBase.t) (c : ConfigBase.t)
  : ConfigBase.t :=
  children (ConfigBase.managed c) (ConfigBase.upstreams c)
    (ConfigBase.included c) (ConfigBase.excluded c) xs (ConfigBase.features c)
    (ConfigBase.releases c) (ConfigBase.hotfixes c) (ConfigBase.supports c) c.

Definition features (xs : list FeatureBase.t) (c : ConfigBase.t)
  : ConfigBase.t :=
  children (ConfigBase.managed c) (ConfigBase.upstreams c)
    (ConfigBase.included c) (ConfigBase.excluded c) (ConfigBase.submodules c)
    xs (ConfigBase.releases c) (ConfigBase.hotfixes c) (ConfigBase.supports c)
    c.

Definition releases (xs : list ReleaseBase.t) (c : ConfigBase.t)
  : ConfigBase.t :=
  children (ConfigBase.managed c) (ConfigBase.upstreams c)
    (ConfigBase.included c) (ConfigBase.excluded c) (ConfigBase.submodules c)
    (ConfigBase.features c) xs (ConfigBase.hotfixes c) (ConfigBase.supports c)
    c.

Definition hotfixes (xs : list HotfixBase.t) (c : ConfigBase.t)
  : ConfigBase.t :=
  children (ConfigBase.managed c) (ConfigBase.upstreams c)
    (ConfigBase.included c) (ConfigBase.excluded c) (ConfigBase.submodules c)
    (ConfigBase.features c) (ConfigBase.releases c) xs (ConfigBase.supports c)
    c.

Definition supports (xs : list SupportBase.t) (c : ConfigBase.t)
  : ConfigBase.t :=
  children (ConfigBase.managed c) (ConfigBase.upstreams c)
    (ConfigBase.included c) (ConfigBase.excluded c) (ConfigBase.submodules c)
    (ConfigBase.features c) (ConfigBase.releases c) (ConfigBase.hotfixes c) xs
    c.

(** A document with its [managed] key replaced. *)
Definition document_managed (m : option bool) (d : ConfigSchema.t)
  : ConfigSchema.t :=
  {| ConfigSchema.apiVersion := ConfigSchema.apiVersion d;
     ConfigSchema.identifier := ConfigSchema.identifier d;
     ConfigSchema.managed := m;
     ConfigSchema.version := ConfigSchema.version d;
     ConfigSchema.developVersion := ConfigSchema.developVersion d;
     ConfigSchema.masterVersion := ConfigSchema.masterVersion d;
     ConfigSchema.upstreams := ConfigSchema.upstreams d;
     ConfigSchema.submodules := ConfigSchema.submodules d;
     ConfigSchema.features := ConfigSchema.features d;
     ConfigSchema.releases := ConfigSchema.releases d;
     ConfigSchema.hotfixes := ConfigSchema.hotfixes d;
     ConfigSchema.supports := ConfigSchema.supports d;
     ConfigSchema.included := ConfigSchema.included d;
     ConfigSchema.excluded := ConfigSchema.excluded d;
     ConfigSchema.featureMessageTemplate :=
       ConfigSchema.featureMessageTemplate d;
     ConfigSchema.releaseMessageTemplate :=
       ConfigSchema.releaseMessageTemplate d;
     ConfigSchema.hotfixMessageTemplate := ConfigSchema.hotfixMessageTemplate d;
     ConfigSchema.releaseTagTemplate := ConfigSchema.releaseTagTemplate d;
     ConfigSchema.hotfixTagTemplate := ConfigSchema.hotfixTagTemplate d;
     ConfigSchema.tags := ConfigSchema.tags d;
     ConfigSchema.integrations := ConfigSchema.integrations d;
     ConfigSchema.commitMessageTemplates :=
       ConfigSchema.commitMessageTemplates d;
     ConfigSchema.tagTemplates := ConfigSchema.tagTemplates d;
     ConfigSchema.masterBranchName := ConfigSchema.masterBranchName d;
     ConfigSchema.developBranchName := ConfigSchema.developBranchName d;
     ConfigSchema.dependencies := ConfigSchema.dependencies d;
     ConfigSchema.labels := ConfigSchema.labels d;
     ConfigSchema.annotations := ConfigSchema.annotations d |}.

End With.

(** ** Shadow entries *)

(** An entry of one of the four kinds that carry the shadow flag. *)
Inductive Entry : Type :=
| SubmoduleEntry (x : SubmoduleBase.t)
| FeatureEntry (x : FeatureBase.t)
| ReleaseEntry (x : ReleaseBase.t)
| HotfixEntry (x : HotfixBase.t).

Definition Entry_shadow (e : Entry) : option bool :=
  match e with
  | SubmoduleEntry x => SubmoduleBase.shadow x
  | FeatureEntry x => FeatureBase.shadow x
  | ReleaseEntry x => ReleaseBase.shadow x
  | HotfixEntry x => HotfixBase.shadow x
  end.

(** Where an entry is added: among the Config's own collections, or among
    those of its [k]-th Support line. *)
Inductive Place : Type :=
| AtRoot
| InSupport (k : nat).

(** [xs] with [x] added before position [n] (at the end when [n] is past
    it). *)
Definition insert_at {A : Type} (n : nat) (x : A) (xs : list A) : list A :=
  (firstn n xs ++ x :: skipn n xs)%list.

(** [xs] with its [k]-th element replaced by [x]. *)
Definition replace_at {A : Type} (k : nat) (x : A) (xs : list A) : list A :=
  (firstn k xs ++ x :: skipn (S k) xs)%list.

(** A Support line has no submodules. *)
Definition add_to_support (e : Entry) (n : nat) (s : SupportBase.t)
  : option SupportBase.t :=
  match e with
  | SubmoduleEntry _ => None
  | FeatureEntry x =>
      Some (With.support_branches (insert_at n x (SupportBase.features s))
              (SupportBase.releases s) (SupportBase.hotfixes s) s)
  | ReleaseEntry x =>
      Some (With.support_branches (SupportBase.features s)
              (insert_at n x (SupportBase.releases s))
              (SupportBase.hotfixes s) s)
  | HotfixEntry x =>
      Some (With.support_branches (SupportBase.features s)
              (SupportBase.releases s)
              (insert_at n x (SupportBase.hotfixes s)) s)
  end.

(** The tree [c] with the entry [e] added at position [n] of the
    collection of its kind at [place]; [None] when the place does not
    exist. *)
Definition add_entry (place : Place) (e : Entry) (n : nat) (c : ConfigBase.t)
  : option ConfigBase.t :=
  match place with
  | AtRoot =>
      Some
        match e with
        | SubmoduleEntry x =>
            With.submodules (insert_at n x (ConfigBase.submodules c)) c
        | FeatureEntry x =>
            With.features (insert_at n x (ConfigBase.features c)) c
        | ReleaseEntry x =>
            With.releases (insert_at n x (ConfigBase.releases c)) c
        | HotfixEntry x =>
            With.hotfixes (insert_at n x (ConfigBase.hotfixes c)) c
        end
  | InSupport k =>
      match nth_error (ConfigBase.supports c) k with
      | None => None
      | Some s =>
          match add_to_support e n s with
          | None => None
          | Some s' =>
              Some (With.supports (replace_at k s' (ConfigBase.supports c)) c)
          end
      end
  end.

(** The entry is an element of the collection of its kind of a Support
    line. *)
Definition in_support (e : Entry) (s : SupportBase.t) : Prop :=
  match e with
  | SubmoduleEntry _ => False
  | FeatureEntry x => In x (SupportBase.features s)
  | ReleaseEntry x => In x (SupportBase.releases s)
  | HotfixEntry x => In x (SupportBase.hotfixes s)
  end.

(** The entry is an element of the in-memory tree at [place]. *)
Definition in_tree (place : Place) (e : Entry) (c : ConfigBase.t) : Prop :=
  match place with
  | AtRoot =>
      match e with
      | SubmoduleEntry x => In x (ConfigBase.submodules c)
      | FeatureEntry x => In x (ConfigBase.features c)
      | ReleaseEntry x => In x (ConfigBase.releases c)
      | HotfixEntry x => In x (ConfigBase.hotfixes c)
      end
  | InSupport k =>
      exists s, nth_error (ConfigBase.supports c) k = Some s /\ in_support e s
  end.

Definition visible {A : Type} (shadow : A -> option bool) (xs : list A) : bool :=
  forallb (fun i => negb (truthy_flag (shadow i))) xs.

(** The tree contains no shadow-flagged entry. *)
Definition no_shadow (c : ConfigBase.t) : bool :=
  visible SubmoduleBase.shadow (ConfigBase.submodules c)
  && visible FeatureBase.shadow (ConfigBase.features c)
  && visible ReleaseBase.shadow (ConfigBase.releases c)
  && visible HotfixBase.shadow (ConfigBase.hotfixes c)
  && forallb
       (fun s =>
          visible FeatureBase.shadow (SupportBase.features s)
          && visible ReleaseBase.shadow (SupportBase.releases s)
          && visible HotfixBase.shadow (SupportBase.hotfixes s))
       (ConfigBase.supports c).

(** No element of the collection carries a tagging. *)
Definition untagged {A : Type} (tags : A -> list TaggingBase.t) (xs : list A)
  : bool :=
  forallb (fun x => match tags x with [] => true | _ :: _ => false end) xs.

(** No Feature, Release or Hotfix of the tree, nor of its Support lines,
    carries a tagging. *)
Definition no_taggings (c : ConfigBase.t) : bool :=
  untagged FeatureBase.tags (ConfigBase.features c)
  && untagged ReleaseBase.tags (ConfigBase.releases c)
  && untagged HotfixBase.tags (ConfigBase.hotfixes c)
  && forallb
       (fun s =>
          untagged FeatureBase.tags (SupportBase.features s)
          && untagged ReleaseBase.tags (SupportBase.releases s)
          && untagged HotfixBase.tags (SupportBase.hotfixes s))
       (ConfigBase.supports c).

(** ** The specification's wording, where it is compared with the code *)

Module Claimed.

(** The traversal order as the specification words it: identifier,
    apiVersion, managed, version(s), upstreams, included, excluded,
    submodules, features, releases, hotfixes, supports, templates, tags,
    integrations, branch-name overrides, dependencies, labels,
    annotations. *)
Definition fields `{Platform} (c : ConfigBase.t) : list string :=
  [ ConfigBase.identifier c;
    optional_bytes (ConfigBase.apiVersion c);
    Bytes.managed (ConfigBase.managed c);
    optional_bytes (ConfigBase.developVersion c);
    optional_bytes (ConfigBase.masterVersion c);
    each_bytes Bytes.upstream (ConfigBase.upstreams c);
    each_bytes (fun s => s) (ConfigBase.included c);
    each_bytes (fun s => s) (ConfigBase.excluded c);
    each_bytes Bytes.submodule
      (not_shadow SubmoduleBase.shadow (ConfigBase.submodules c));
    each_bytes Bytes.feature
      (not_shadow FeatureBase.shadow (ConfigBase.features c));
    each_bytes Bytes.release
      (not_shadow ReleaseBase.shadow (ConfigBase.releases c));
    each_bytes Bytes.hotfix
      (not_shadow HotfixBase.shadow (ConfigBase.hotfixes c));
    each_bytes Bytes.support (ConfigBase.supports c);
    optional_bytes (ConfigBase.featureMessageTemplate c);
    optional_bytes (ConfigBase.releaseMessageTemplate c);
    optional_bytes (ConfigBase.hotfixMessageTemplate c);
    optional_bytes (ConfigBase.releaseTagTemplate c);
    optional_bytes (ConfigBase.hotfixTagTemplate c);
    each_bytes Bytes.messageTemplate (ConfigBase.commitMessageTemplates c);
    each_bytes Bytes.tagTemplate (ConfigBase.tagTemplates c);
    each_bytes (fun s => s) (ConfigBase.tags c);
    each_bytes Bytes.integration (ConfigBase.integrations c);
    optional_bytes (ConfigBase.masterBranchName c);
    optional_bytes (ConfigBase.developBranchName c);
    each_bytes Bytes.dependency
      (match ConfigBase.dependencies c with Some ds => ds | None => [] end);
    record_bytes labels_toJSON (ConfigBase.labels c);
    record_bytes JObject (ConfigBase.annotations c) ].

(** The glfs descriptor as the specification words it, segments assigned
    from the right: the last is the name, the one before it the namespace;
    with three or four segments the first is the hostname; with four the
    remaining one is the support qualifier. *)
Definition glfs (parts : list string) : option ConfigReference :=
  match parts with
  | [namespace; name] => Some (GlfsRef None namespace name None)
  | [hostname; namespace; name] =>
      Some (GlfsRef (Some hostname) namespace name None)
  | [hostname; support; namespace; name] =>
      Some (GlfsRef (Some hostname) namespace name (Some support))
  | _ => None
  end.

End Claimed.

(** ** Sample values *)

Module Sample.

(** A Config with the given scalar fields, tags and commit message
    templates, managed, and nothing else. *)
Definition config (apiVersion : option string) (identifier : string)
  (developVersion : option string) (tags : list string)
  (commitMessageTemplates : list MessageTemplateBase.t) : ConfigBase.t :=
  {| ConfigBase.apiVersion := apiVersion;
     ConfigBase.identifier := identifier;
     ConfigBase.managed := true;
     ConfigBase.developVersion := developVersion;
     ConfigBase.masterVersion := None;
     ConfigBase.upstreams := [];
     ConfigBase.submodules := [];
     ConfigBase.features := [];
     ConfigBase.releases := [];
     ConfigBase.hotfixes := [];
     ConfigBase.supports := [];
     ConfigBase.included := [];
     ConfigBase.excluded := [];
     ConfigBase.featureMessageTemplate := None;
     ConfigBase.releaseMessageTemplate := None;
     ConfigBase.hotfixMessageTemplate := None;
     ConfigBase.releaseTagTemplate := None;
     ConfigBase.hotfixTagTemplate := None;
     ConfigBase.tags := tags;
     ConfigBase.integrations := [];
     ConfigBase.commitMessageTemplates := commitMessageTemplates;
     ConfigBase.tagTemplates := [];
     ConfigBase.masterBranchName := None;
     ConfigBase.developBranchName := None;
     ConfigBase.dependencies := None;
     ConfigBase.labels := [];
     ConfigBase.annotations := [] |}.

(** [{ identifier: 'repo' }] *)
Definition repo : ConfigBase.t := config None "repo" None [] [].

(** The document [{ identifier: 'repo' }]. *)
Definition repo_document : ConfigSchema.t :=
  {| ConfigSchema.apiVersion := None;
     ConfigSchema.identifier := "repo";
     ConfigSchema.managed := None;
     ConfigSchema.version := None;
     ConfigSchema.developVersion := None;
     ConfigSchema.masterVersion := None;
     ConfigSchema.upstreams := None;
     ConfigSchema.submodules := None;
     ConfigSchema.features := None;
     ConfigSchema.releases := None;
     ConfigSchema.hotfixes := None;
     ConfigSchema.supports := None;
     ConfigSchema.included := None;
     ConfigSchema.excluded := None;
     ConfigSchema.featureMessageTemplate := None;
     ConfigSchema.releaseMessageTemplate := None;
     ConfigSchema.hotfixMessageTemplate := None;
     ConfigSchema.releaseTagTemplate := None;
     ConfigSchema.hotfixTagTemplate := None;
     ConfigSchema.tags := None;
     ConfigSchema.integrations := None;
     ConfigSchema.commitMessageTemplates := None;
     ConfigSchema.tagTemplates := None;
     ConfigSchema.masterBranchName := None;
     ConfigSchema.developBranchName := None;
     ConfigSchema.dependencies := None;
     ConfigSchema.labels := None;
     ConfigSchema.annotations := None |}.

Definition tagging (name : string) : TaggingBase.t :=
  {| TaggingBase.name := name; TaggingBase.annotation := None |}.

(** A feature [{ name, branchName: 'feature/' + name, sourceSha: 'abc123' }]
    with the given taggings and shadow flag. *)
Definition feature (name : string) (tags : list TaggingBase.t)
  (shadow : option bool) : FeatureBase.t :=
  {| FeatureBase.name := name;
     FeatureBase.branchName := "feature/" ++ name;
     FeatureBase.sourceSha := "abc123";
     FeatureBase.upstream := None;
     FeatureBase.version := None;
     FeatureBase.tags := tags;
     FeatureBase.shadow := shadow |}.

(** [{ identifier: 'repo', features: [ f1 ] }] where the feature [f1]
    carries the tagging [{ name: 'wip' }]. *)
Definition tagged : ConfigBase.t :=
  With.features [feature "f1" [tagging "wip"] None] repo.

(** The same tree, the feature carrying no tagging. *)
Definition untagged : ConfigBase.t :=
  With.features [feature "f1" [] None] repo.

(** A support line [{ name: '1.x', ... }] with no branches. *)
Definition support : SupportBase.t :=
  {| SupportBase.name := "1.x";
     SupportBase.masterBranchName := "support/1.x/master";
     SupportBase.developBranchName := "support/1.x/develop";
     SupportBase.sourceSha := "def456";
     SupportBase.developVersion := None;
     SupportBase.masterVersion := None;
     SupportBase.upstream := None;
     SupportBase.features := [];
     SupportBase.releases := [];
     SupportBase.hotfixes := [] |}.

(** A shadow feature with a tagging of its own. *)
Definition scratch : Entry :=
  FeatureEntry (feature "scratch" [tagging "x"] (Some true)).

(** A shadow hotfix. *)
Definition patch : Entry :=
  HotfixEntry
    {| HotfixBase.name := "patch";
       HotfixBase.branchName := "hotfix/patch";
       HotfixBase.sourceSha := "0a1b2c";
       HotfixBase.version := Some "1.0.1";
       HotfixBase.upstream := None;
       HotfixBase.intermediate := false;
       HotfixBase.tags := [];
       HotfixBase.shadow := Some true |}.

(** The tagged tree with one Support line. *)
Definition supported : ConfigBase.t := With.supports [support] tagged.

End Sample.

(** ** Element references *)

(** The literals of the [type] union in [ElementUriSchema]. *)
Definition element_types : list string :=
  ["feature"; "release"; "hotfix"; "support"].

Definition is_element_type (s : string) : bool :=
  existsb (String.eqb s) element_types.

(** [{ type, qualifier }] *)
Module ElementUri.
Record t : Type := {
  type : string;
  qualifier : string
}.
End ElementUri.

(** The issues of the [ZodError] that [ElementUriSchema.parse] throws. *)
Inductive ElementIssue : Type :=
| element_invalid_url
    (* invalid_string at the root: Zod.string().url() refused the input *)
| invalid_element_type
    (* invalid_union at the key type: the value is none of the literals *)
| required_element_qualifier.
    (* invalid_type at the key qualifier: Zod.string() received undefined *)

Inductive ElementResult : Type :=
| ElementOk (value : ElementUri.t)
| ElementZodError (issues : list ElementIssue).

(** [ElementUriSchema.parse(value)]: the URL check, then the transform
    that splits at ['://'] and parses [{ type: parts[0], qualifier:
    parts[1] }] with the inner schema. *)
Definition ElementUriSchema_parse `{Platform} (value : string)
  : ElementResult :=
  if negb (Zod_isUrl value) then ElementZodError [element_invalid_url]
  else
    let parts := split "://" value in
    let type := nth_error parts 0 in
    let qualifier := nth_error parts 1 in
    let type_issues :=
      match type with
      | Some t => if is_element_type t then [] else [invalid_element_type]
      | None => [invalid_element_type]
      end in
    let qualifier_issues :=
      match qualifier with
      | Some _ => []
      | None => [required_element_qualifier]
      end in
    match type, qualifier, (type_issues ++ qualifier_issues)%list with
    | Some t, Some q, [] =>
        ElementOk {| ElementUri.type := t; ElementUri.qualifier := q |}
    | _, _, issues => ElementZodError issues
    end.

(** [parseElementUri(uri)] *)
Definition parseElementUri `{Platform} (uri : string) : ElementResult :=
  ElementUriSchema_parse uri.

(** ** Earlier versions of the module

    The files of the earlier API versions define the same classes with
    fewer fields. Their hashing ([updateHash], [calculateHash]) and their
    [parseConfigReference] are embedded here; [ConfigUriSchema] is the
    same in every version. *)

(** [String(i)] for an array index. *)
Definition index_string (i : nat) : string :=
  NilEmpty.string_of_uint (Nat.to_uint i).

(** The keys [for (const k in xs)] visits on an array: its indices, as
    strings, in ascending order. *)
Definition array_keys {A : Type} (xs : list A) : list string :=
  map index_string (seq 0 (length xs)).

(** The first version (src/lib/config.ts, first file). *)
Module V1_0.

Module SubmoduleBase.
Record t : Type := {
  name : string;
  path : string;
  url : option string
}.

Definition updateHash (this : t) (hash : Crypto.Hash) : Crypto.Hash :=
  let hash := Crypto.update hash (name this) in
  let hash := Crypto.update hash (path this) in
  let hash := Crypto.update_if hash (url this) in
  hash.
End SubmoduleBase.

Module FeatureBase.
Record t : Type := {
  name : string;
  branchName : string;
  sourceSha : string;
  sources : list string
}.

Definition updateHash (this : t) (hash : Crypto.Hash) : Crypto.Hash :=
  let hash := Crypto.update hash (name this) in
  let hash := Crypto.update hash (branchName this) in
  let hash := Crypto.update hash (sourceSha this) in
  let hash := Crypto.update_each hash (sources this) in
  hash.
End FeatureBase.

Module ReleaseBase.
Record t : Type := {
  name : string;
  branchName : string;
  sourceSha : string;
  sources : list string
}.

Definition updateHash (this : t) (hash : Crypto.Hash) : Crypto.Hash :=
  let hash := Crypto.update hash (name this) in
  let hash := Crypto.update hash (branchName this) in
  let hash := Crypto.update hash (sourceSha this) in
  let hash := Crypto.update_each hash (sources this) in
  hash.
End ReleaseBase.

Module HotfixBase.
Record t : Type := {
  name : string;
  branchName : string;
  sourceSha : string;
  sources : list string
}.

Definition updateHash (this : t) (hash : Crypto.Hash) : Crypto.Hash :=
  let hash := Crypto.update hash (name this) in
  let hash := Crypto.update hash (branchName this) in
  let hash := Crypto.update hash (sourceSha this) in
  let hash := Crypto.update_each hash (sources this) in
  hash.
End HotfixBase.

Module SupportBase.
Record t : Type := {
  name : string;
  masterBranchName : string;
  developBranchName : string;
  sourceSha : string;
  features : list FeatureBase.t;
  releases : list ReleaseBase.t;
  hotfixes : list HotfixBase.t
}.

Definition updateHash (this : t) (hash : Crypto.Hash) : Crypto.Hash :=
  let hash := Crypto.update hash (name this) in
  let hash := Crypto.update hash (masterBranchName this) in
  let hash := Crypto.update hash (developBranchName this) in
  let hash := Crypto.update hash (sourceSha this) in
  let hash :=
    fold_left (fun h feature => FeatureBase.updateHash feature h)
              (features this) hash in
  let hash :=
    fold_left (fun h release => ReleaseBase.updateHash release h)
              (releases this) hash in
  let hash :=
    fold_left (fun h hotfix => HotfixBase.updateHash hotfix h)
              (hotfixes this) hash in
  hash.
End SupportBase.

Module ConfigBase.
Record t : Type := {
  identifier : string;
  upstreams : list Upstream.t;
  submodules : list SubmoduleBase.t;
  features : list FeatureBase.t;
  releases : list ReleaseBase.t;
  hotfixes : list HotfixBase.t;
  supports : list SupportBase.t;
  included : list string;
  excluded : list string
}.

(** The loops over [included] and [excluded] are [for ... in] loops: they
    visit the keys of the arrays. *)
Definition updateHash (this : t) (hash : Crypto.Hash) : Crypto.Hash :=
  let hash := Crypto.update hash (identifier this) in
  let hash :=
    fold_left
      (fun h upstream =>
         let h := Crypto.update h (Upstream.name upstream) in
         let h := Crypto.update h (Upstream.url upstream) in
         h)
      (upstreams this) hash in
  let hash := Crypto.update_each hash (array_keys (included this)) in
  let hash := Crypto.update_each hash (array_keys (excluded this)) in
  let hash :=
    fold_left (fun h submodule => SubmoduleBase.updateHash submodule h)
              (submodules this) hash in
  let hash :=
    fold_left (fun h feature => FeatureBase.updateHash feature h)
              (features this) hash in
  let hash :=
    fold_left (fun h release => ReleaseBase.updateHash release h)
              (releases this) hash in
  let hash :=
    fold_left (fun h hotfix => HotfixBase.updateHash hotfix h)
              (hotfixes this) hash in
  let hash :=
    fold_left (fun h support => SupportBase.updateHash support h)
              (supports this) hash in
  hash.

Definition calculateHash `{Platform} (this : t)
  (algorithm encoding : option string) : string :=
  let algorithm := match algorithm with Some a => a | None => "sha256" end in
  let encoding := match encoding with Some e => e | None => "hex" end in
  let hash := Crypto.createHash algorithm in
  let hash := updateHash this hash in
  Crypto.digest hash encoding.
End ConfigBase.

(** The descriptors of this version; the three keys of a glfs descriptor
    are [parts[0]], [parts[1]] and [parts[2]], [undefined] past the end
    of [parts]. *)
Inductive ConfigReference : Type :=
| ConfigRef
| FileRef (path : string)
| BranchRef (branchName : string)
| HttpRef (protocol : string) (url : string)
| GlfsRef (hostname : option string) (namespace : option string)
          (name : option string).

Definition parseConfigReference `{Platform} (uri : string)
  : Result ConfigReference :=
  match ConfigUriSchema_parse uri with
  | Throw e => Throw e
  | Ok (protocol, qualifier) =>
      if protocol =? "config" then Ok ConfigRef
      else if protocol =? "file" then Ok (FileRef qualifier)
      else if protocol =? "branch" then Ok (BranchRef qualifier)
      else if (protocol =? "http") || (protocol =? "https")
      then Ok (HttpRef protocol qualifier)
      else if protocol =? "glfs" then
        let parts := split "/" qualifier in
        Ok (GlfsRef (nth_error parts 0) (nth_error parts 1)
              (nth_error parts 2))
      else Throw (Error (unsupported_protocol_message protocol))
  end.

End V1_0.

(** The version that adds the templates and the [intermediate] flag (the
    file whose [ConfigSchema] ends with [hotfixTagTemplate]). *)
Module V1_1.

Module SubmoduleBase.
Record t : Type := {
  name : string;
  path : string;
  url : option string
}.

Definition updateHash (this : t) (hash : Crypto.Hash) : Crypto.Hash :=
  let hash := Crypto.update hash (name this) in
  let hash := Crypto.update hash (path this) in
  let hash := Crypto.update_if hash (url this) in
  hash.
End SubmoduleBase.

Module FeatureBase.
Record t : Type := {
  name : string;
  branchName : string;
  sourceSha : string
}.

Definition updateHash (this : t) (hash : Crypto.Hash) : Crypto.Hash :=
  let hash := Crypto.update hash (name this) in
  let hash := Crypto.update hash (branchName this) in
  let hash := Crypto.update hash (sourceSha this) in
  hash.
End FeatureBase.

Module ReleaseBase.
Record t : Type := {
  name : string;
  branchName : string;
  sourceSha : string;
  intermediate : bool
}.

Definition updateHash (this : t) (hash : Crypto.Hash) : Crypto.Hash :=
  let hash := Crypto.update hash (name this) in
  let hash := Crypto.update hash (branchName this) in
  let hash := Crypto.update hash (sourceSha this) in
  let hash := Crypto.update hash (Boolean_toString (intermediate this)) in
  hash.
End ReleaseBase.

Module HotfixBase.
Record t : Type := {
  name : string;
  branchName : string;
  sourceSha : string;
  intermediate : bool
}.

Definition updateHash (this : t) (hash : Crypto.Hash) : Crypto.Hash :=
  let hash := Crypto.update hash (name this) in
  let hash := Crypto.update hash (branchName this) in
  let hash := Crypto.update hash (sourceSha this) in
  let hash := Crypto.update hash (Boolean_toString (intermediate this)) in
  hash.
End HotfixBase.

Module SupportBase.
Record t : Type := {
  name : string;
  masterBranchName : string;
  developBranchName : string;
  sourceSha : string;
  features : list FeatureBase.t;
  releases : list ReleaseBase.t;
  hotfixes : list HotfixBase.t
}.

Definition updateHash (this : t) (hash : Crypto.Hash) : Crypto.Hash :=
  let hash := Crypto.update hash (name this) in
  let hash := Crypto.update hash (masterBranchName this) in
  let hash := Crypto.update hash (developBranchName this) in
  let hash := Crypto.update hash (sourceSha this) in
  let hash :=
    fold_left (fun h feature => FeatureBase.updateHash feature h)
              (features this) hash in
  let hash :=
    fold_left (fun h release => ReleaseBase.updateHash release h)
              (releases this) hash in
  let hash :=
    fold_left (fun h hotfix => HotfixBase.updateHash hotfix h)
              (hotfixes this) hash in
  hash.
End SupportBase.

Module ConfigBase.
Record t : Type := {
  identifier : string;
  upstreams : list Upstream.t;
  submodules : list SubmoduleBase.t;
  features : list FeatureBase.t;
  releases : list ReleaseBase.t;
  hotfixes : list HotfixBase.t;
  supports : list SupportBase.t;
  included : list string;
  excluded : list string;
  featureMessageTemplate : option string;
  releaseMessageTemplate : option string;
  hotfixMessageTemplate : option string;
  releaseTagTemplate : option string;
  hotfixTagTemplate : option string
}.

Definition updateHash (this : t) (hash : Crypto.Hash) : Crypto.Hash :=
  let hash := Crypto.update hash (identifier this) in
  let hash :=
    fold_left
      (fun h upstream =>
         let h := Crypto.update h (Upstream.name upstream) in
         let h := Crypto.update h (Upstream.url upstream) in
         h)
      (upstreams this) hash in
  let hash := Crypto.update_each hash (included this) in
  let hash := Crypto.update_each hash (excluded this) in
  let hash :=
    fold_left (fun h submodule => SubmoduleBase.updateHash submodule h)
              (submodules this) hash in
  let hash :=
    fold_left (fun h feature => FeatureBase.updateHash feature h)
              (features this) hash in
  let hash :=
    fold_left (fun h release => ReleaseBase.updateHash release h)
              (releases this) hash in
  let hash :=
    fold_left (fun h hotfix => HotfixBase.updateHash hotfix h)
              (hotfixes this) hash in
  let hash :=
    fold_left (fun h support => SupportBase.updateHash support h)
              (supports this) hash in
  let hash := Crypto.update_if hash (featureMessageTemplate this) in
  let hash := Crypto.update_if hash (releaseMessageTemplate this) in
  let hash := Crypto.update_if hash (hotfixMessageTemplate this) in
  let hash := Crypto.update_if hash (releaseTagTemplate this) in
  let hash := Crypto.update_if hash (hotfixTagTemplate this) in
  hash.

Definition calculateHash `{Platform} (this : t)
  (algorithm encoding : option string) : string :=
  let algorithm := match algorithm with Some a => a | None => "sha256" end in
  let encoding := match encoding with Some e => e | None => "hex" end in
  let hash := Crypto.createHash algorithm in
  let hash := updateHash this hash in
  Crypto.digest hash encoding.
End ConfigBase.

(** [parseConfigReference(uri)] of this version (and of the two after
    it): a glfs qualifier has three or two segments. Its descriptors are
    those of v1.5 without the [support] key. *)
Definition parseConfigReference `{Platform} (uri : string)
  : Result ConfigReference :=
  match ConfigUriSchema_parse uri with
  | Throw e => Throw e
  | Ok (protocol, qualifier) =>
      if protocol =? "config" then Ok ConfigRef
      else if protocol =? "file" then Ok (FileRef qualifier)
      else if protocol =? "branch" then Ok (BranchRef qualifier)
      else if (protocol =? "http") || (protocol =? "https")
      then Ok (HttpRef protocol qualifier)
      else if protocol =? "glfs" then
        let parts := split "/" qualifier in
        match parts with
        | [p0; p1; p2] => Ok (GlfsRef (Some p0) p1 p2 None)
        | [p0; p1] => Ok (GlfsRef None p0 p1 None)
        | _ => Throw (Error (glfs_invalid_message uri))
        end
      else Throw (Error (unsupported_protocol_message protocol))
  end.

End V1_1.

(** The version that adds the [managed] flag, the tags and the upstream
    of a branch (the file whose [ConfigSchema] ends with [tags]). *)
Module V1_2.

Module SubmoduleBase.
Record t : Type := {
  name : string;
  path : string;
  url : option string;
  tags : list string
}.

Definition updateHash (this : t) (hash : Crypto.Hash) : Crypto.Hash :=
  let hash := Crypto.update hash (name this) in
  let hash := Crypto.update hash (path this) in
  let hash := Crypto.update_if hash (url this) in
  let hash := Crypto.update_each hash (tags this) in
  hash.
End SubmoduleBase.

Module FeatureBase.
Record t : Type := {
  name : string;
  branchName : string;
  sourceSha : string;
  upstream : option string
}.

Definition updateHash (this : t) (hash : Crypto.Hash) : Crypto.Hash :=
  let hash := Crypto.update hash (name this) in
  let hash := Crypto.update hash (branchName this) in
  let hash := Crypto.update hash (sourceSha this) in
  let hash := Crypto.update_if hash (upstream this) in
  hash.
End FeatureBase.

Module ReleaseBase.
Record t : Type := {
  name : string;
  branchName : string;
  sourceSha : string;
  upstream : option string;
  intermediate : bool
}.

Definition updateHash (this : t) (hash : Crypto.Hash) : Crypto.Hash :=
  let hash := Crypto.update hash (name this) in
  let hash := Crypto.update hash (branchName this) in
  let hash := Crypto.update hash (sourceSha this) in
  let hash := Crypto.update_if hash (upstream this) in
  let hash := Crypto.update hash (Boolean_toString (intermediate this)) in
  hash.
End ReleaseBase.

Module HotfixBase.
Record t : Type := {
  name : string;
  branchName : string;
  sourceSha : string;
  upstream : option string;
  intermediate : bool
}.

Definition updateHash (this : t) (hash : Crypto.Hash) : Crypto.Hash :=
  let hash := Crypto.update hash (name this) in
  let hash := Crypto.update hash (branchName this) in
  let hash := Crypto.update hash (sourceSha this) in
  let hash := Crypto.update_if hash (upstream this) in
  let hash := Crypto.update hash (Boolean_toString (intermediate this)) in
  hash.
End HotfixBase.

Module SupportBase.
Record t : Type := {
  name : string;
  masterBranchName : string;
  developBranchName : string;
  sourceSha : string;
  upstream : option string;
  features : list FeatureBase.t;
  releases : list ReleaseBase.t;
  hotfixes : list HotfixBase.t
}.

Definition updateHash (this : t) (hash : Crypto.Hash) : Crypto.Hash :=
  let hash := Crypto.update hash (name this) in
  let hash := Crypto.update hash (masterBranchName this) in
  let hash := Crypto.update hash (developBranchName this) in
  let hash := Crypto.update hash (sourceSha this) in
  let hash := Crypto.update_if hash (upstream this) in
  let hash :=
    fold_left (fun h feature => FeatureBase.updateHash feature h)
              (features this) hash in
  let hash :=
    fold_left (fun h release => ReleaseBase.updateHash release h)
              (releases this) hash in
  let hash :=
    fold_left (fun h hotfix => HotfixBase.updateHash hotfix h)
              (hotfixes this) hash in
  hash.
End SupportBase.

Module ConfigBase.
Record t : Type := {
  identifier : string;
  managed : bool;
  upstreams : list Upstream.t;
  submodules : list SubmoduleBase.t;
  features : list FeatureBase.t;
  releases : list ReleaseBase.t;
  hotfixes : list HotfixBase.t;
  supports : list SupportBase.t;
  included : list string;
  excluded : list string;
  featureMessageTemplate : option string;
  releaseMessageTemplate : option string;
  hotfixMessageTemplate : option string;
  releaseTagTemplate : option string;
  hotfixTagTemplate : option string;
  tags : list string
}.

Definition updateHash (this : t) (hash : Crypto.Hash) : Crypto.Hash :=
  let hash := Crypto.update hash (identifier this) in
  let hash :=
    if negb (managed this) then Crypto.update hash "unmanaged" else hash in
  let hash :=
    fold_left
      (fun h upstream =>
         let h := Crypto.update h (Upstream.name upstream) in
         let h := Crypto.update h (Upstream.url upstream) in
         h)
      (upstreams this) hash in
  let hash := Crypto.update_each hash (included this) in
  let hash := Crypto.update_each hash (excluded this) in
  let hash :=
    fold_left (fun h submodule => SubmoduleBase.updateHash submodule h)
              (submodules this) hash in
  let hash :=
    fold_left (fun h feature => FeatureBase.updateHash feature h)
              (features this) hash in
  let hash :=
    fold_left (fun h release => ReleaseBase.updateHash release h)
              (releases this) hash in
  let hash :=
    fold_left (fun h hotfix => HotfixBase.updateHash hotfix h)
              (hotfixes this) hash in
  let hash :=
    fold_left (fun h support => SupportBase.updateHash support h)
              (supports this) hash in
  let hash := Crypto.update_if hash (featureMessageTemplate this) in
  let hash := Crypto.update_if hash (releaseMessageTemplate this) in
  let hash := Crypto.update_if hash (hotfixMessageTemplate this) in
  let hash := Crypto.update_if hash (releaseTagTemplate this) in
  let hash := Crypto.update_if hash (hotfixTagTemplate this) in
  let hash := Crypto.update_each hash (tags this) in
  hash.

Definition calculateHash `{Platform} (this : t)
  (algorithm encoding : option string) : string :=
  let algorithm := match algorithm with Some a => a | None => "sha256" end in
  let encoding := match encoding with Some e => e | None => "hex" end in
  let hash := Crypto.createHash algorithm in
  let hash := updateHash this hash in
  Crypto.digest hash encoding.
End ConfigBase.

End V1_2.

(** ** An earlier tree read as a v1.5 tree

    The v1.5 tree that holds the same values as a tree of an earlier
    version: every field the earlier version lacks is absent or empty,
    no entry is shadow-flagged, and [managed] is true where the earlier
    version has no such flag. *)
Module Upgrade.

Definition submodule_1_1 (x : V1_1.SubmoduleBase.t) : SubmoduleBase.t :=
  {| SubmoduleBase.name := V1_1.SubmoduleBase.name x;
     SubmoduleBase.path := V1_1.SubmoduleBase.path x;
     SubmoduleBase.url := V1_1.SubmoduleBase.url x;
     SubmoduleBase.tags := [];
     SubmoduleBase.labels := [];
     SubmoduleBase.annotations := [];
     SubmoduleBase.shadow := None |}.

Definition feature_1_1 (x : V1_1.FeatureBase.t) : FeatureBase.t :=
  {| FeatureBase.name := V1_1.FeatureBase.name x;
     FeatureBase.branchName := V1_1.FeatureBase.branchName x;
     FeatureBase.sourceSha := V1_1.FeatureBase.sourceSha x;
     FeatureBase.upstream := None;
     FeatureBase.version := None;
     FeatureBase.tags := [];
     FeatureBase.shadow := None |}.

Definition release_1_1 (x : V1_1.ReleaseBase.t) : ReleaseBase.t :=
  {| ReleaseBase.name := V1_1.ReleaseBase.name x;
     ReleaseBase.branchName := V1_1.ReleaseBase.branchName x;
     ReleaseBase.sourceSha := V1_1.ReleaseBase.sourceSha x;
     ReleaseBase.version := None;
     ReleaseBase.upstream := None;
     ReleaseBase.intermediate := V1_1.ReleaseBase.intermediate x;
     ReleaseBase.tags := [];
     ReleaseBase.shadow := None |}.

Definition hotfix_1_1 (x : V1_1.HotfixBase.t) : HotfixBase.t :=
  {| HotfixBase.name := V1_1.HotfixBase.name x;
     HotfixBase.branchName := V1_1.HotfixBase.branchName x;
     HotfixBase.sourceSha := V1_1.HotfixBase.sourceSha x;
     HotfixBase.version := None;
     HotfixBase.upstream := None;
     HotfixBase.intermediate := V1_1.HotfixBase.intermediate x;
     HotfixBase.tags := [];
     HotfixBase.shadow := None |}.

Definition support_1_1 (x : V1_1.SupportBase.t) : SupportBase.t :=
  {| SupportBase.name := V1_1.SupportBase.name x;
     SupportBase.masterBranchName := V1_1.SupportBase.masterBranchName x;
     SupportBase.developBranchName := V1_1.SupportBase.developBranchName x;
     SupportBase.sourceSha := V1_1.SupportBase.sourceSha x;
     SupportBase.developVersion := None;
     SupportBase.masterVersion := None;
     SupportBase.upstream := None;
     SupportBase.features := map feature_1_1 (V1_1.SupportBase.features x);
     SupportBase.releases := map release_1_1 (V1_1.SupportBase.releases x);
     SupportBase.hotfixes := map hotfix_1_1 (V1_1.SupportBase.hotfixes x) |}.

Definition config_1_1 (c : V1_1.ConfigBase.t) : ConfigBase.t :=
  {| ConfigBase.apiVersion := None;
     ConfigBase.identifier := V1_1.ConfigBase.identifier c;
     ConfigBase.managed := true;
     ConfigBase.developVersion := None;
     ConfigBase.masterVersion := None;
     ConfigBase.upstreams := V1_1.ConfigBase.upstreams c;
     ConfigBase.submodules := map submodule_1_1 (V1_1.ConfigBase.submodules c);
     ConfigBase.features := map feature_1_1 (V1_1.ConfigBase.features c);
     ConfigBase.releases := map release_1_1 (V1_1.ConfigBase.releases c);
     ConfigBase.hotfixes := map hotfix_1_1 (V1_1.ConfigBase.hotfixes c);
     ConfigBase.supports := map support_1_1 (V1_1.ConfigBase.supports c);
     ConfigBase.included := V1_1.ConfigBase.included c;
     ConfigBase.excluded := V1_1.ConfigBase.excluded c;
     ConfigBase.featureMessageTemplate :=
       V1_1.ConfigBase.featureMessageTemplate c;
     ConfigBase.releaseMessageTemplate :=
       V1_1.ConfigBase.releaseMessageTemplate c;
     ConfigBase.hotfixMessageTemplate :=
       V1_1.ConfigBase.hotfixMessageTemplate c;
     ConfigBase.releaseTagTemplate := V1_1.ConfigBase.releaseTagTemplate c;
     ConfigBase.hotfixTagTemplate := V1_1.ConfigBase.hotfixTagTemplate c;
     ConfigBase.tags := [];
     ConfigBase.integrations := [];
     ConfigBase.commitMessageTemplates := [];
     ConfigBase.tagTemplates := [];
     ConfigBase.masterBranchName := None;
     ConfigBase.developBranchName := None;
     ConfigBase.dependencies := None;
     ConfigBase.labels := [];
     ConfigBase.annotations := [] |}.

Definition submodule_1_2 (x : V1_2.SubmoduleBase.t) : SubmoduleBase.t :=
  {| SubmoduleBase.name := V1_2.SubmoduleBase.name x;
     SubmoduleBase.path := V1_2.SubmoduleBase.path x;
     SubmoduleBase.url := V1_2.SubmoduleBase.url x;
     SubmoduleBase.tags := V1_2.SubmoduleBase.tags x;
     SubmoduleBase.labels := [];
     SubmoduleBase.annotations := [];
     SubmoduleBase.shadow := None |}.

Definition feature_1_2 (x : V1_2.FeatureBase.t) : FeatureBase.t :=
  {| FeatureBase.name := V1_2.FeatureBase.name x;
     FeatureBase.branchName := V1_2.FeatureBase.branchName x;
     FeatureBase.sourceSha := V1_2.FeatureBase.sourceSha x;
     FeatureBase.upstream := V1_2.FeatureBase.upstream x;
     FeatureBase.version := None;
     FeatureBase.tags := [];
     FeatureBase.shadow := None |}.

Definition release_1_2 (x : V1_2.ReleaseBase.t) : ReleaseBase.t :=
  {| ReleaseBase.name := V1_2.ReleaseBase.name x;
     ReleaseBase.branchName := V1_2.ReleaseBase.branchName x;
     ReleaseBase.sourceSha := V1_2.ReleaseBase.sourceSha x;
     ReleaseBase.version := None;
     ReleaseBase.upstream := V1_2.ReleaseBase.upstream x;
     ReleaseBase.intermediate := V1_2.ReleaseBase.intermediate x;
     ReleaseBase.tags := [];
     ReleaseBase.shadow := None |}.

Definition hotfix_1_2 (x : V1_2.HotfixBase.t) : HotfixBase.t :=
  {| HotfixBase.name := V1_2.HotfixBase.name x;
     HotfixBase.branchName := V1_2.HotfixBase.branchName x;
     HotfixBase.sourceSha := V1_2.HotfixBase.sourceSha x;
     HotfixBase.version := None;
     HotfixBase.upstream := V1_2.HotfixBase.upstream x;
     HotfixBase.intermediate := V1_2.HotfixBase.intermediate x;
     HotfixBase.tags := [];
     HotfixBase.shadow := None |}.

Definition support_1_2 (x : V1_2.SupportBase.t) : SupportBase.t :=
  {| SupportBase.name := V1_2.SupportBase.name x;
     SupportBase.masterBranchName := V1_2.SupportBase.masterBranchName x;
     SupportBase.developBranchName := V1_2.SupportBase.developBranchName x;
     SupportBase.sourceSha := V1_2.SupportBase.sourceSha x;
     SupportBase.developVersion := None;
     SupportBase.masterVersion := None;
     SupportBase.upstream := V1_2.SupportBase.upstream x;
     SupportBase.features := map feature_1_2 (V1_2.SupportBase.features x);
     SupportBase.releases := map release_1_2 (V1_2.SupportBase.releases x);
     SupportBase.hotfixes := map hotfix_1_2 (V1_2.SupportBase.hotfixes x) |}.

Definition config_1_2 (c : V1_2.ConfigBase.t) : ConfigBase.t :=
  {| ConfigBase.apiVersion := None;
     ConfigBase.identifier := V1_2.ConfigBase.identifier c;
     ConfigBase.managed := V1_2.ConfigBase.managed c;
     ConfigBase.developVersion := None;
     ConfigBase.masterVersion := None;
     ConfigBase.upstreams := V1_2.ConfigBase.upstreams c;
     ConfigBase.submodules := map submodule_1_2 (V1_2.ConfigBase.submodules c);
     ConfigBase.features := map feature_1_2 (V1_2.ConfigBase.features c);
     ConfigBase.releases := map release_1_2 (V1_2.ConfigBase.releases c);
     ConfigBase.hotfixes := map hotfix_1_2 (V1_2.ConfigBase.hotfixes c);
     ConfigBase.supports := map support_1_2 (V1_2.ConfigBase.supports c);
     ConfigBase.included := V1_2.ConfigBase.included c;
     ConfigBase.excluded := V1_2.ConfigBase.excluded c;
     ConfigBase.featureMessageTemplate :=
       V1_2.ConfigBase.featureMessageTemplate c;
     ConfigBase.releaseMessageTemplate :=
       V1_2.ConfigBase.releaseMessageTemplate c;
     ConfigBase.hotfixMessageTemplate :=
       V1_2.ConfigBase.hotfixMessageTemplate c;
     ConfigBase.releaseTagTemplate := V1_2.ConfigBase.releaseTagTemplate c;
     ConfigBase.hotfixTagTemplate := V1_2.ConfigBase.hotfixTagTemplate c;
     ConfigBase.tags := V1_2.ConfigBase.tags c;
     ConfigBase.integrations := [];
     ConfigBase.commitMessageTemplates := [];
     ConfigBase.tagTemplates := [];
     ConfigBase.masterBranchName := None;
     ConfigBase.developBranchName := None;
     ConfigBase.dependencies := None;
     ConfigBase.labels := [];
     ConfigBase.annotations := [] |}.

End Upgrade.

(** ** Further trees that differ in one field *)

Module Replace.

(** A Config with its identifier replaced. *)
Definition identifier (identifier : string) (c : ConfigBase.t)
  : ConfigBase.t :=
  {| ConfigBase.apiVersion := ConfigBase.apiVersion c;
     ConfigBase.identifier := identifier;
     ConfigBase.managed := ConfigBase.managed c;
     ConfigBase.developVersion := ConfigBase.developVersion c;
     ConfigBase.masterVersion := ConfigBase.masterVersion c;
     ConfigBase.upstreams := ConfigBase.upstreams c;
     ConfigBase.submodules := ConfigBase.submodules c;
     ConfigBase.features := ConfigBase.features c;
     ConfigBase.releases := ConfigBase.releases c;
     ConfigBase.hotfixes := ConfigBase.hotfixes c;
     ConfigBase.supports := ConfigBase.supports c;
     ConfigBase.included := ConfigBase.included c;
     ConfigBase.excluded := ConfigBase.excluded c;
     ConfigBase.featureMessageTemplate := ConfigBase.featureMessageTemplate c;
     ConfigBase.releaseMessageTemplate := ConfigBase.releaseMessageTemplate c;
     ConfigBase.hotfixMessageTemplate := ConfigBase.hotfixMessageTemplate c;
     ConfigBase.releaseTagTemplate := ConfigBase.releaseTagTemplate c;
     ConfigBase.hotfixTagTemplate := ConfigBase.hotfixTagTemplate c;
     ConfigBase.tags := ConfigBase.tags c;
     ConfigBase.integrations := ConfigBase.integrations c;
     ConfigBase.commitMessageTemplates := ConfigBase.commitMessageTemplates c;
     ConfigBase.tagTemplates := ConfigBase.tagTemplates c;
     ConfigBase.masterBranchName := ConfigBase.masterBranchName c;
     ConfigBase.developBranchName := ConfigBase.developBranchName c;
     ConfigBase.dependencies := ConfigBase.dependencies c;
     ConfigBase.labels := ConfigBase.labels c;
     ConfigBase.annotations := ConfigBase.annotations c |}.

(** A Release with its taggings replaced. *)
Definition release_tags (tags : list TaggingBase.t) (x : ReleaseBase.t)
  : ReleaseBase.t :=
  {| ReleaseBase.name := ReleaseBase.name x;
     ReleaseBase.branchName := ReleaseBase.branchName x;
     ReleaseBase.sourceSha := ReleaseBase.sourceSha x;
     ReleaseBase.version := ReleaseBase.version x;
     ReleaseBase.upstream := ReleaseBase.upstream x;
     ReleaseBase.intermediate := ReleaseBase.intermediate x;
     ReleaseBase.tags := tags;
     ReleaseBase.shadow := ReleaseBase.shadow x |}.

(** A Hotfix with its taggings replaced. *)
Definition hotfix_tags (tags : list TaggingBase.t) (x : HotfixBase.t)
  : HotfixBase.t :=
  {| HotfixBase.name := HotfixBase.name x;
     HotfixBase.branchName := HotfixBase.branchName x;
     HotfixBase.sourceSha := HotfixBase.sourceSha x;
     HotfixBase.version := HotfixBase.version x;
     HotfixBase.upstream := HotfixBase.upstream x;
     HotfixBase.intermediate := HotfixBase.intermediate x;
     HotfixBase.tags := tags;
     HotfixBase.shadow := HotfixBase.shadow x |}.

(** A tree of the first version with its path globs replaced. *)
Definition globs_1_0 (included excluded : list string)
  (c : V1_0.ConfigBase.t) : V1_0.ConfigBase.t :=
  {| V1_0.ConfigBase.identifier := V1_0.ConfigBase.identifier c;
     V1_0.ConfigBase.upstreams := V1_0.ConfigBase.upstreams c;
     V1_0.ConfigBase.submodules := V1_0.ConfigBase.submodules c;
     V1_0.ConfigBase.features := V1_0.ConfigBase.features c;
     V1_0.ConfigBase.releases := V1_0.ConfigBase.releases c;
     V1_0.ConfigBase.hotfixes := V1_0.ConfigBase.hotfixes c;
     V1_0.ConfigBase.supports := V1_0.ConfigBase.supports c;
     V1_0.ConfigBase.included := included;
     V1_0.ConfigBase.excluded := excluded |}.

End Replace.

(** No Feature, Release or Hotfix that is not shadow-flagged, in the tree
    or in one of its Support lines, carries a tagging. *)
Definition no_visible_taggings (c : ConfigBase.t) : bool :=
  untagged FeatureBase.tags (not_shadow FeatureBase.shadow (ConfigBase.features c))
  && untagged ReleaseBase.tags
       (not_shadow ReleaseBase.shadow (ConfigBase.releases c))
  && untagged HotfixBase.tags
       (not_shadow HotfixBase.shadow (ConfigBase.hotfixes c))
  && forallb
       (fun s =>
          untagged FeatureBase.tags
            (not_shadow FeatureBase.shadow (SupportBase.features s))
          && untagged ReleaseBase.tags
               (not_shadow ReleaseBase.shadow (SupportBase.releases s))
          && untagged HotfixBase.tags
               (not_shadow HotfixBase.shadow (SupportBase.hotfixes s)))
       (ConfigBase.supports c).

(** What an entry feeds to a hash. *)
Definition Entry_bytes `{Platform} (e : Entry) : string :=
  match e with
  | SubmoduleEntry x => Bytes.submodule x
  | FeatureEntry x => Bytes.feature x
  | ReleaseEntry x => Bytes.release x
  | HotfixEntry x => Bytes.hotfix x
  end.

(** [s'] is [s] with [x] inserted at some position. *)
Definition inserted (x s s' : string) : Prop :=
  exists before after, s = before ++ after /\ s' = before ++ x ++ after.

(** More sample values. *)
Module Sample2.

(** A visible (not shadow-flagged) release. *)
Definition release_1_0 : ReleaseBase.t :=
  {| ReleaseBase.name := "1.0";
     ReleaseBase.branchName := "release/1.0";
     ReleaseBase.sourceSha := "abc123";
     ReleaseBase.version := None;
     ReleaseBase.upstream := None;
     ReleaseBase.intermediate := false;
     ReleaseBase.tags := [];
     ReleaseBase.shadow := Some false |}.

Definition release : Entry := ReleaseEntry release_1_0.

(** [{ identifier: 'repo' }] in the first version. *)
Definition repo_1_0 : V1_0.ConfigBase.t :=
  {| V1_0.ConfigBase.identifier := "repo";
     V1_0.ConfigBase.upstreams := [];
     V1_0.ConfigBase.submodules := [];
     V1_0.ConfigBase.features := [];
     V1_0.ConfigBase.releases := [];
     V1_0.ConfigBase.hotfixes := [];
     V1_0.ConfigBase.supports := [];
     V1_0.ConfigBase.included := [];
     V1_0.ConfigBase.excluded := [] |}.

(** A shadow hotfix. *)
Definition shadow_hotfix : HotfixBase.t :=
  {| HotfixBase.name := "patch";
     HotfixBase.branchName := "hotfix/patch";
     HotfixBase.sourceSha := "0a1b2c";
     HotfixBase.version := Some "1.0.1";
     HotfixBase.upstream := None;
     HotfixBase.intermediate := false;
     HotfixBase.tags := [];
     HotfixBase.shadow := Some true |}.

(** The untagged sample tree with the shadow hotfix. *)
Definition patched : ConfigBase.t :=
  With.hotfixes [shadow_hotfix] Sample.untagged.

End Sample2.

(** ** Hash objects as objects

    A hash object is created by [Crypto.createHash], changed in place by
    every [update] and read by [digest]; a method such as [updateHash]
    receives a reference to it. The heap holds the hash objects that
    exist, each at its address. *)
Module Heap.

Definition t : Type := list Crypto.Hash.

(** A reference to a hash object: its address. *)
Definition ref : Type := nat.

(** [Crypto.createHash(algorithm)]: a new object, at an address that no
    object has yet. *)
Definition createHash (algorithm : string) (heap : t) : ref * t :=
  (length heap, (heap ++ [Crypto.createHash algorithm])%list).

(** [hash.update(chunk)] on the object [hash] refers to. *)
Definition update (hash : ref) (chunk : string) (heap : t) : t :=
  match nth_error heap hash with
  | Some object => replace_at hash (Crypto.update object chunk) heap
  | None => heap
  end.

(** A call [x.updateHash(hash)]: the method calls [update] on the object
    [hash] refers to and on no other; [method] is what these calls make
    of that object. *)
Definition call (hash : ref) (method : Crypto.Hash -> Crypto.Hash) (heap : t)
  : t :=
  match nth_error heap hash with
  | Some object => replace_at hash (method object) heap
  | None => heap
  end.

(** [hash.digest(encoding)]; nothing when [hash] refers to no object. *)
Definition digest `{Platform} (hash : ref) (encoding : string) (heap : t)
  : option string :=
  match nth_error heap hash with
  | Some object => Some (Crypto.digest object encoding)
  | None => None
  end.

(** [calculateHash({ algorithm = 'sha256', encoding = 'hex' } = {})] in a
    heap: it returns the digest and leaves the heap with the object it
    created. *)
Definition calculateHash `{Platform} (this : ConfigBase.t)
  (algorithm encoding : option string) (heap : t) : option string * t :=
  let algorithm := match algorithm with Some a => a | None => "sha256" end in
  let encoding := match encoding with Some e => e | None => "hex" end in
  let (hash, heap) := createHash algorithm heap in
  let heap := call hash (ConfigBase.updateHash this) heap in
  (digest hash encoding heap, heap).

End Heap.

(** * Properties *)

(** ** Strings *)

Lemma append_nil_r (s : string) : s ++ "" = s.
Proof.
  induction s as [|c s IH]; simpl; [reflexivity | now rewrite IH].
Qed.

Lemma append_assoc (a b c : string) : (a ++ b) ++ c = a ++ (b ++ c).
Proof.
  induction a as [|x a IH]; simpl; [reflexivity | now rewrite IH].
Qed.

Lemma length_append (a b : string) :
  String.length (a ++ b) = String.length a + String.length b.
Proof.
  induction a as [|x a IH]; simpl; [reflexivity | now rewrite IH].
Qed.

Lemma append_inv_head (a b c : string) : a ++ b = a ++ c -> b = c.
Proof.
  induction a as [|x a IH]; simpl; intros E; [exact E |].
  injection E as E. now apply IH.
Qed.

Lemma append_pair (a b a' b' r : string) :
  a ++ b = a' ++ b' -> a ++ (b ++ r) = a' ++ (b' ++ r).
Proof. intros E. now rewrite <- !append_assoc, E. Qed.

(** Inserting a non-empty token changes a string. *)
Lemma append_token_neq (a token b : string) :
  token <> "" -> a ++ token ++ b <> a ++ b.
Proof.
  intros Hne E. apply append_inv_head in E.
  apply (f_equal String.length) in E. rewrite length_append in E.
  destruct token as [|x token]; [now apply Hne | simpl in E; lia].
Qed.

Lemma each_bytes_app {A : Type} (f : A -> string) (xs ys : list A) :
  each_bytes f (xs ++ ys)%list = each_bytes f xs ++ each_bytes f ys.
Proof.
  unfold each_bytes, concat_strings.
  induction xs as [|x xs IH]; simpl; [reflexivity |].
  now rewrite IH, append_assoc.
Qed.

Lemma each_bytes_cons {A : Type} (f : A -> string) (x : A) (xs : list A) :
  each_bytes f (x :: xs) = f x ++ each_bytes f xs.
Proof. reflexivity. Qed.

Arguments each_bytes : simpl never.

(** ** Lists *)

Lemma firstn_skipn_nth {A : Type} (k : nat) (xs : list A) (x : A) :
  nth_error xs k = Some x ->
  xs = (firstn k xs ++ x :: skipn (S k) xs)%list.
Proof.
  revert xs. induction k as [|k IH]; intros [|y xs] E; simpl in *;
    try discriminate.
  - now injection E as ->.
  - f_equal. now apply IH.
Qed.

Lemma nth_error_replace_at {A : Type} (k : nat) (x y : A) (xs : list A) :
  nth_error xs k = Some y -> nth_error (replace_at k x xs) k = Some x.
Proof.
  unfold replace_at. revert xs.
  induction k as [|k IH]; intros [|z xs] E; simpl in *; try discriminate.
  - reflexivity.
  - now apply IH.
Qed.

Lemma map_replace_at {A B : Type} (f : A -> B) (k : nat) (x y : A)
  (xs : list A) :
  nth_error xs k = Some y -> f x = f y -> map f (replace_at k x xs) = map f xs.
Proof.
  intros E Hf. rewrite (firstn_skipn_nth k xs E) at 2.
  unfold replace_at. rewrite !map_app. simpl. now rewrite Hf.
Qed.

Lemma In_insert_at {A : Type} (n : nat) (x : A) (xs : list A) :
  In x (insert_at n x xs).
Proof.
  unfold insert_at. apply in_or_app. right. now left.
Qed.

Lemma not_shadow_insert_at {A : Type} (shadow : A -> option bool) (n : nat)
  (x : A) (xs : list A) :
  truthy_flag (shadow x) = true ->
  not_shadow shadow (insert_at n x xs) = not_shadow shadow xs.
Proof.
  intros Hx. unfold not_shadow, insert_at.
  rewrite filter_app. simpl. rewrite Hx. simpl.
  rewrite <- filter_app. now rewrite firstn_skipn.
Qed.

Lemma not_shadow_visible {A : Type} (shadow : A -> option bool) (xs : list A) :
  visible shadow xs = true -> not_shadow shadow xs = xs.
Proof.
  unfold visible, not_shadow. induction xs as [|x xs IH]; simpl;
    [reflexivity |].
  intros E. apply andb_prop in E as [Hx Hxs]. rewrite Hx. f_equal.
  now apply IH.
Qed.

(** ** The hash object *)

Lemma update_nil (h : Crypto.Hash) : Crypto.update h "" = h.
Proof.
  destruct h as [alg bytes]. unfold Crypto.update. simpl.
  now rewrite append_nil_r.
Qed.

Lemma update_update (h : Crypto.Hash) (a b : string) :
  Crypto.update (Crypto.update h a) b = Crypto.update h (a ++ b).
Proof.
  unfold Crypto.update. simpl. now rewrite append_assoc.
Qed.

Lemma update_if_bytes (h : Crypto.Hash) (o : option string) :
  Crypto.update_if h o = Crypto.update h (optional_bytes o).
Proof.
  destruct o as [s|]; simpl; [| now rewrite update_nil].
  destruct (String.eqb_spec s "") as [-> |]; simpl;
    [now rewrite update_nil | reflexivity].
Qed.

(** A loop that lets every element update the hash appends the elements'
    contributions in order. *)
Lemma fold_updateHash {A : Type} (f : A -> Crypto.Hash -> Crypto.Hash)
  (g : A -> string) :
  (forall a h, f a h = Crypto.update h (g a)) ->
  forall xs h,
    fold_left (fun h a => f a h) xs h = Crypto.update h (each_bytes g xs).
Proof.
  intros Hf xs. induction xs as [|x xs IH]; intros h; simpl.
  - now rewrite update_nil.
  - rewrite IH, Hf, update_update. reflexivity.
Qed.

Lemma update_each_bytes (h : Crypto.Hash) (xs : list string) :
  Crypto.update_each h xs = Crypto.update h (each_bytes (fun s => s) xs).
Proof.
  unfold Crypto.update_each.
  exact (fold_updateHash (fun s h => Crypto.update h s) (fun s => s)
           (fun a h => eq_refl) xs h).
Qed.

Lemma update_managed (h : Crypto.Hash) (b : bool) :
  (if negb b then Crypto.update h "unmanaged" else h)
  = Crypto.update h (Bytes.managed b).
Proof.
  destruct b; simpl; [now rewrite update_nil | reflexivity].
Qed.

Lemma update_record `{Platform} {V : Type} (toJSON : list (string * V) -> JValue)
  (h : Crypto.Hash) (obj : list (string * V)) :
  (if negb (isEmpty obj) then Crypto.update h (JSON_stringify (toJSON obj))
   else h)
  = Crypto.update h (record_bytes toJSON obj).
Proof.
  unfold record_bytes. destruct (isEmpty obj); simpl;
    [now rewrite update_nil | reflexivity].
Qed.

(** ** What every [updateHash] appends *)

Create Rewrite HintDb hashing.

#[export] Hint Rewrite update_if_bytes update_each_bytes update_update
  : hashing.

(** After the steps of an [updateHash] have been rewritten into single
    updates, both sides are one update of the same hash. *)
Ltac hash_steps :=
  cbv zeta; autorewrite with hashing;
  f_equal; repeat rewrite append_assoc; repeat rewrite append_nil_r;
  try reflexivity.

Lemma TaggingBase_updateHash_bytes (x : TaggingBase.t) (h : Crypto.Hash) :
  TaggingBase.updateHash x h = Crypto.update h (Bytes.tagging x).
Proof. unfold TaggingBase.updateHash, Bytes.tagging. hash_steps. Qed.

Lemma update_taggings_bytes (h : Crypto.Hash) (tags : list TaggingBase.t) :
  update_taggings h tags = Crypto.update h (each_bytes Bytes.tagging tags).
Proof.
  unfold update_taggings.
  apply (fold_updateHash TaggingBase.updateHash Bytes.tagging).
  exact TaggingBase_updateHash_bytes.
Qed.

#[export] Hint Rewrite update_taggings_bytes : hashing.

Lemma MessageTemplateBase_updateHash_bytes (x : MessageTemplateBase.t)
  (h : Crypto.Hash) :
  MessageTemplateBase.updateHash x h
  = Crypto.update h (Bytes.messageTemplate x).
Proof.
  unfold MessageTemplateBase.updateHash, Bytes.messageTemplate. hash_steps.
Qed.

Lemma TagTemplateBase_updateHash_bytes (x : TagTemplateBase.t)
  (h : Crypto.Hash) :
  TagTemplateBase.updateHash x h = Crypto.update h (Bytes.tagTemplate x).
Proof. unfold TagTemplateBase.updateHash, Bytes.tagTemplate. hash_steps. Qed.

Lemma IntegrationBase_updateHash_bytes `{Platform} (x : IntegrationBase.t)
  (h : Crypto.Hash) :
  IntegrationBase.updateHash x h = Crypto.update h (Bytes.integration x).
Proof. unfold IntegrationBase.updateHash, Bytes.integration. hash_steps. Qed.

Lemma SubmoduleBase_updateHash_bytes `{Platform} (x : SubmoduleBase.t)
  (h : Crypto.Hash) :
  SubmoduleBase.updateHash x h = Crypto.update h (Bytes.submodule x).
Proof.
  unfold SubmoduleBase.updateHash, Bytes.submodule. cbv zeta.
  rewrite !update_record. hash_steps.
Qed.

Lemma FeatureBase_updateHash_bytes (x : FeatureBase.t) (h : Crypto.Hash) :
  FeatureBase.updateHash x h = Crypto.update h (Bytes.feature x).
Proof. unfold FeatureBase.updateHash, Bytes.feature. hash_steps. Qed.

Lemma ReleaseBase_updateHash_bytes (x : ReleaseBase.t) (h : Crypto.Hash) :
  ReleaseBase.updateHash x h = Crypto.update h (Bytes.release x).
Proof. unfold ReleaseBase.updateHash, Bytes.release. hash_steps. Qed.

Lemma HotfixBase_updateHash_bytes (x : HotfixBase.t) (h : Crypto.Hash) :
  HotfixBase.updateHash x h = Crypto.update h (Bytes.hotfix x).
Proof. unfold HotfixBase.updateHash, Bytes.hotfix. hash_steps. Qed.

Lemma update_features_bytes (h : Crypto.Hash) (xs : list FeatureBase.t) :
  update_features h xs
  = Crypto.update h
      (each_bytes Bytes.feature (not_shadow FeatureBase.shadow xs)).
Proof.
  unfold update_features.
  apply (fold_updateHash FeatureBase.updateHash Bytes.feature).
  exact FeatureBase_updateHash_bytes.
Qed.

Lemma update_releases_bytes (h : Crypto.Hash) (xs : list ReleaseBase.t) :
  update_releases h xs
  = Crypto.update h
      (each_bytes Bytes.release (not_shadow ReleaseBase.shadow xs)).
Proof.
  unfold update_releases.
  apply (fold_updateHash ReleaseBase.updateHash Bytes.release).
  exact ReleaseBase_updateHash_bytes.
Qed.

Lemma update_hotfixes_bytes (h : Crypto.Hash) (xs : list HotfixBase.t) :
  update_hotfixes h xs
  = Crypto.update h
      (each_bytes Bytes.hotfix (not_shadow HotfixBase.shadow xs)).
Proof.
  unfold update_hotfixes.
  apply (fold_updateHash HotfixBase.updateHash Bytes.hotfix).
  exact HotfixBase_updateHash_bytes.
Qed.

#[export] Hint Rewrite update_features_bytes update_releases_bytes
  update_hotfixes_bytes : hashing.

Lemma SupportBase_updateHash_bytes (x : SupportBase.t) (h : Crypto.Hash) :
  SupportBase.updateHash x h = Crypto.update h (Bytes.support x).
Proof. unfold SupportBase.updateHash, Bytes.support. hash_steps. Qed.

(** [ConfigBase.updateHash] appends the contributions of the fields in
    the order of [Bytes.fields], whatever the hash object already holds,
    and leaves its algorithm alone. *)
Lemma ConfigBase_updateHash_bytes `{Platform} (c : ConfigBase.t)
  (h : Crypto.Hash) :
  ConfigBase.updateHash c h = Crypto.update h (Bytes.config c).
Proof.
  unfold ConfigBase.updateHash. cbv zeta.
  rewrite !update_record, update_managed.
  rewrite (fold_updateHash
             (fun u h => Crypto.update (Crypto.update h (Upstream.name u))
                                       (Upstream.url u))
             Bytes.upstream)
    by (intros; unfold Bytes.upstream; now rewrite update_update).
  rewrite (fold_updateHash SubmoduleBase.updateHash Bytes.submodule)
    by exact SubmoduleBase_updateHash_bytes.
  rewrite (fold_updateHash SupportBase.updateHash Bytes.support)
    by exact SupportBase_updateHash_bytes.
  rewrite (fold_updateHash IntegrationBase.updateHash Bytes.integration)
    by exact IntegrationBase_updateHash_bytes.
  rewrite (fold_updateHash MessageTemplateBase.updateHash
             Bytes.messageTemplate)
    by exact MessageTemplateBase_updateHash_bytes.
  rewrite (fold_updateHash TagTemplateBase.updateHash Bytes.tagTemplate)
    by exact TagTemplateBase_updateHash_bytes.
  rewrite (fold_updateHash
             (fun d h => Crypto.update h
                           (JSON_stringify (Dependency_toJSON d)))
             Bytes.dependency)
    by reflexivity.
  autorewrite with hashing. f_equal.
  unfold Bytes.config, Bytes.fields, Bytes.before_managed,
    Bytes.after_managed, concat_strings. simpl.
  repeat rewrite append_assoc. repeat rewrite append_nil_r. reflexivity.
Qed.

(** The digest is the algorithm's digest of the tree's bytes. *)
Lemma calculateHash_bytes `{Platform} (c : ConfigBase.t)
  (algorithm encoding : option string) :
  ConfigBase.calculateHash c algorithm encoding
  = Crypto_digest (match algorithm with Some a => a | None => "sha256" end)
                  (match encoding with Some e => e | None => "hex" end)
                  (Bytes.config c).
Proof.
  unfold ConfigBase.calculateHash. cbv zeta.
  rewrite ConfigBase_updateHash_bytes. reflexivity.
Qed.

Lemma concat_strings_app (xs ys : list string) :
  concat_strings (xs ++ ys)%list = concat_strings xs ++ concat_strings ys.
Proof.
  unfold concat_strings. induction xs as [|x xs IH]; simpl;
    [reflexivity | now rewrite IH, append_assoc].
Qed.

Lemma Bytes_config_managed `{Platform} (c : ConfigBase.t) :
  Bytes.config c
  = concat_strings (Bytes.before_managed c)
    ++ Bytes.managed (ConfigBase.managed c)
    ++ concat_strings (Bytes.after_managed c).
Proof.
  unfold Bytes.config, Bytes.fields. rewrite concat_strings_app.
  reflexivity.
Qed.

(** ** The traversal order of the hash (C4) *)

(** C4, as worded, fails: the specification puts the identifier before
    the apiVersion and the named template lists before the tags, while
    [updateHash] feeds the apiVersion first and the named template lists
    after the integrations. On [{ apiVersion: 'v1.5', identifier: 'repo' }]
    the hash receives [v1.5repo], the worded order gives [repov1.5]; on
    [{ identifier: 'repo', tags: ['t'], commitMessageTemplates:
    [{ name: 'n', message: 'm' }] }] the hash receives [repotnm], the
    worded order gives [reponmt]. *)
Lemma traversal_order_counterexample :
  let versioned := Sample.config (Some "v1.5") "repo" None [] [] in
  let templated :=
    Sample.config None "repo" None ["t"]
      [ {| MessageTemplateBase.name := "n";
           MessageTemplateBase.message := "m" |} ] in
  (forall P : Platform,
      Crypto.data (ConfigBase.updateHash versioned (Crypto.createHash "sha256"))
      = "v1.5repo"
      /\ concat_strings (Claimed.fields versioned) = "repov1.5")
  /\ (forall P : Platform,
      Crypto.data (ConfigBase.updateHash templated (Crypto.createHash "sha256"))
      = "repotnm"
      /\ concat_strings (Claimed.fields templated) = "reponmt")
  /\ "v1.5repo" <> "repov1.5"
  /\ "repotnm" <> "reponmt".
Proof.
  cbv zeta. repeat split; try reflexivity; discriminate.
Qed.

(** C4 (amended): [updateHash] appends to the hash, whatever it already
    holds, the contributions of the tree's fields in the fixed order
    apiVersion, identifier, managed, developVersion, masterVersion,
    upstreams, included, excluded, submodules, features, releases,
    hotfixes, supports, the five per-kind templates, tags, integrations,
    commitMessageTemplates, tagTemplates, masterBranchName,
    developBranchName, dependencies, labels, annotations; the digest is
    the algorithm's digest of exactly these bytes; every child is folded
    by the same rule through its own [updateHash]; an absent optional
    field and an empty collection leave the hash untouched. *)
Theorem updateHash_traversal_order `{Platform} (c : ConfigBase.t)
  (h : Crypto.Hash) (algorithm encoding : option string) :
  let stream :=
    concat_strings
      [ optional_bytes (ConfigBase.apiVersion c);
        ConfigBase.identifier c;
        (if ConfigBase.managed c then "" else "unmanaged");
        optional_bytes (ConfigBase.developVersion c);
        optional_bytes (ConfigBase.masterVersion c);
        each_bytes (fun u => Upstream.name u ++ Upstream.url u)
          (ConfigBase.upstreams c);
        each_bytes (fun s => s) (ConfigBase.included c);
        each_bytes (fun s => s) (ConfigBase.excluded c);
        each_bytes Bytes.submodule
          (not_shadow SubmoduleBase.shadow (ConfigBase.submodules c));
        each_bytes Bytes.feature
          (not_shadow FeatureBase.shadow (ConfigBase.features c));
        each_bytes Bytes.release
          (not_shadow ReleaseBase.shadow (ConfigBase.releases c));
        each_bytes Bytes.hotfix
          (not_shadow HotfixBase.shadow (ConfigBase.hotfixes c));
        each_bytes Bytes.support (ConfigBase.supports c);
        optional_bytes (ConfigBase.featureMessageTemplate c);
        optional_bytes (ConfigBase.releaseMessageTemplate c);
        optional_bytes (ConfigBase.hotfixMessageTemplate c);
        optional_bytes (ConfigBase.releaseTagTemplate c);
        optional_bytes (ConfigBase.hotfixTagTemplate c);
        each_bytes (fun s => s) (ConfigBase.tags c);
        each_bytes Bytes.integration (ConfigBase.integrations c);
        each_bytes Bytes.messageTemplate (ConfigBase.commitMessageTemplates c);
        each_bytes Bytes.tagTemplate (ConfigBase.tagTemplates c);
        optional_bytes (ConfigBase.masterBranchName c);
        optional_bytes (ConfigBase.developBranchName c);
        each_bytes (fun d => JSON_stringify (Dependency_toJSON d))
          (match ConfigBase.dependencies c with
           | Some ds => ds
           | None => []
           end);
        (if isEmpty (ConfigBase.labels c) then ""
         else JSON_stringify (labels_toJSON (ConfigBase.labels c)));
        (if isEmpty (ConfigBase.annotations c) then ""
         else JSON_stringify (JObject (ConfigBase.annotations c))) ] in
  Crypto.data (ConfigBase.updateHash c h) = Crypto.data h ++ stream
  /\ Crypto.algorithm (ConfigBase.updateHash c h) = Crypto.algorithm h
  /\ ConfigBase.calculateHash c algorithm encoding
     = Crypto_digest
         (match algorithm with Some a => a | None => "sha256" end)
         (match encoding with Some e => e | None => "hex" end)
         stream
  /\ (forall x h', SubmoduleBase.updateHash x h'
                   = Crypto.update h' (Bytes.submodule x))
  /\ (forall x h', FeatureBase.updateHash x h'
                   = Crypto.update h' (Bytes.feature x))
  /\ (forall x h', ReleaseBase.updateHash x h'
                   = Crypto.update h' (Bytes.release x))
  /\ (forall x h', HotfixBase.updateHash x h'
                   = Crypto.update h' (Bytes.hotfix x))
  /\ (forall x h', SupportBase.updateHash x h'
                   = Crypto.update h' (Bytes.support x))
  /\ Crypto.update_if h None = h
  /\ Crypto.update_each h [] = h.
Proof.
  cbv zeta.
  rewrite calculateHash_bytes, ConfigBase_updateHash_bytes.
  repeat split; try reflexivity.
  - apply SubmoduleBase_updateHash_bytes.
  - apply FeatureBase_updateHash_bytes.
  - apply ReleaseBase_updateHash_bytes.
  - apply HotfixBase_updateHash_bytes.
  - apply SupportBase_updateHash_bytes.
Qed.

(** ** The managed sentinel (C3) *)

(** C3: a tree with [managed] false feeds the literal token [unmanaged]
    right after the identifier, and a managed tree feeds nothing there, so
    the two hash inputs differ; the two digests are the algorithm's
    digests of these different inputs, and they differ for every algorithm
    that does not collide. A document that leaves [managed] out and one
    that sets it to true give the same tree, hence the same digest. *)
Theorem managed_sentinel `{Platform} (c : ConfigBase.t) (d : ConfigSchema.t)
  (algorithm encoding : option string) :
  let before := concat_strings (Bytes.before_managed c) in
  let after := concat_strings (Bytes.after_managed c) in
  let alg := match algorithm with Some a => a | None => "sha256" end in
  let enc := match encoding with Some e => e | None => "hex" end in
  (forall h, ConfigBase.updateHash (With.managed false c) h
             = Crypto.update h (before ++ "unmanaged" ++ after))
  /\ (forall h, ConfigBase.updateHash (With.managed true c) h
                = Crypto.update h (before ++ after))
  /\ before ++ "unmanaged" ++ after <> before ++ after
  /\ ConfigBase.calculateHash (With.managed false c) algorithm encoding
     = Crypto_digest alg enc (before ++ "unmanaged" ++ after)
  /\ ConfigBase.calculateHash (With.managed true c) algorithm encoding
     = Crypto_digest alg enc (before ++ after)
  /\ ((forall a b, Crypto_digest alg enc a = Crypto_digest alg enc b -> a = b)
      -> ConfigBase.calculateHash (With.managed false c) algorithm encoding
         <> ConfigBase.calculateHash (With.managed true c) algorithm encoding)
  /\ Validate.validate (With.document_managed None d)
     = Validate.validate (With.document_managed (Some true) d)
  /\ ConfigBase.calculateHash
       (Validate.validate (With.document_managed None d)) algorithm encoding
     = ConfigBase.calculateHash
         (Validate.validate (With.document_managed (Some true) d))
         algorithm encoding.
Proof.
  cbv zeta.
  assert (Hf : Bytes.config (With.managed false c)
               = concat_strings (Bytes.before_managed c) ++ "unmanaged"
                 ++ concat_strings (Bytes.after_managed c))
    by (rewrite Bytes_config_managed; reflexivity).
  assert (Ht : Bytes.config (With.managed true c)
               = concat_strings (Bytes.before_managed c)
                 ++ concat_strings (Bytes.after_managed c))
    by (rewrite Bytes_config_managed; reflexivity).
  assert (Hne : concat_strings (Bytes.before_managed c) ++ "unmanaged"
                ++ concat_strings (Bytes.after_managed c)
                <> concat_strings (Bytes.before_managed c)
                   ++ concat_strings (Bytes.after_managed c))
    by (apply append_token_neq; discriminate).
  rewrite !calculateHash_bytes, Hf, Ht.
  repeat split.
  - intros h. now rewrite ConfigBase_updateHash_bytes, Hf.
  - intros h. now rewrite ConfigBase_updateHash_bytes, Ht.
  - exact Hne.
  - intros inj E. exact (Hne (inj _ _ E)).
Qed.

(** On [{ identifier: 'repo' }] with the reference platform, whose digest
    never collides: the unmanaged and the managed tree hash differently. *)
Lemma managed_sentinel_witness :
  (forall a b,
      Crypto_digest (Platform := Reference.platform) "sha256" "hex" a
      = Crypto_digest (Platform := Reference.platform) "sha256" "hex" b ->
      a = b)
  /\ ConfigBase.calculateHash (H := Reference.platform)
       (With.managed false Sample.repo) None None
     <> ConfigBase.calculateHash (H := Reference.platform)
          (With.managed true Sample.repo) None None.
Proof.
  assert (inj : forall a b,
             Crypto_digest (Platform := Reference.platform) "sha256" "hex" a
             = Crypto_digest (Platform := Reference.platform) "sha256" "hex" b
             -> a = b).
  { intros a b E. exact (append_inv_head "sha256:hex:" a b E). }
  split; [exact inj |].
  exact (proj1 (proj2 (proj2 (proj2 (proj2 (proj2
           (managed_sentinel (H := Reference.platform) Sample.repo
              Sample.repo_document None None)))))) inj).
Defined.

(** ** Collisions of the undelimited stream (C10) *)

(** C10: [updateHash] feeds the field values one after the other with no
    delimiter and no label: whatever the rest of the tree is, the
    upstreams and the globs reach the hash as the names and urls of the
    upstreams, then the included globs, then the excluded globs, joined
    end to end between bytes that do not depend on them. So distinct trees
    feed the same bytes and hash alike under every algorithm and
    encoding: a glob moved from the end of [included] to the front of
    [excluded], and an upstream whose name and url are split at another
    point, leave the bytes unchanged. In particular
    [{ included: ['src'] }] and [{ excluded: ['src'] }] both feed
    [reposrc], and the upstreams [{ name: 'ab', url: 'c' }] and
    [{ name: 'a', url: 'bc' }] both feed [repoabc]. *)
Theorem undelimited_fields_collide :
  let included_only := With.globs ["src"] [] Sample.repo in
  let excluded_only := With.globs [] ["src"] Sample.repo in
  let upstream_ab_c :=
    With.upstreams [ {| Upstream.name := "ab"; Upstream.url := "c" |} ]
      Sample.repo in
  let upstream_a_bc :=
    With.upstreams [ {| Upstream.name := "a"; Upstream.url := "bc" |} ]
      Sample.repo in
  (included_only <> excluded_only
   /\ (forall (P : Platform) h,
          Crypto.data (ConfigBase.updateHash included_only h)
          = Crypto.data h ++ "reposrc"
          /\ Crypto.data (ConfigBase.updateHash excluded_only h)
             = Crypto.data h ++ "reposrc")
   /\ forall (P : Platform) algorithm encoding,
       ConfigBase.calculateHash included_only algorithm encoding
       = ConfigBase.calculateHash excluded_only algorithm encoding)
  /\ (upstream_ab_c <> upstream_a_bc
      /\ (forall (P : Platform) h,
             Crypto.data (ConfigBase.updateHash upstream_ab_c h)
             = Crypto.data h ++ "repoabc"
             /\ Crypto.data (ConfigBase.updateHash upstream_a_bc h)
                = Crypto.data h ++ "repoabc")
      /\ forall (P : Platform) algorithm encoding,
          ConfigBase.calculateHash upstream_ab_c algorithm encoding
          = ConfigBase.calculateHash upstream_a_bc algorithm encoding)
  /\ (forall (P : Platform) c included excluded glob h algorithm encoding,
         ConfigBase.updateHash
           (With.globs (included ++ [glob])%list excluded c) h
         = ConfigBase.updateHash (With.globs included (glob :: excluded) c) h
         /\ ConfigBase.calculateHash
              (With.globs (included ++ [glob])%list excluded c)
              algorithm encoding
            = ConfigBase.calculateHash
                (With.globs included (glob :: excluded) c)
                algorithm encoding)
  /\ (forall (P : Platform) c a b x upstreams h algorithm encoding,
         ConfigBase.updateHash
           (With.upstreams
              ({| Upstream.name := a ++ b; Upstream.url := x |} :: upstreams)
              c) h
         = ConfigBase.updateHash
             (With.upstreams
                ({| Upstream.name := a; Upstream.url := b ++ x |} :: upstreams)
                c) h
         /\ ConfigBase.calculateHash
              (With.upstreams
                 ({| Upstream.name := a ++ b; Upstream.url := x |}
                  :: upstreams) c) algorithm encoding
            = ConfigBase.calculateHash
                (With.upstreams
                   ({| Upstream.name := a; Upstream.url := b ++ x |}
                    :: upstreams) c) algorithm encoding)
  /\ (forall (P : Platform) c h,
         exists before after,
           forall upstreams included excluded,
             Crypto.data
               (ConfigBase.updateHash
                  (With.upstreams upstreams (With.globs included excluded c))
                  h)
             = before
               ++ concat_strings
                    (map (fun u => Upstream.name u ++ Upstream.url u)
                       upstreams)
               ++ concat_strings included
               ++ concat_strings excluded
               ++ after).
Proof.
  assert (Hglob : forall (P : Platform) c included excluded glob,
             Bytes.config (With.globs (included ++ [glob])%list excluded c)
             = Bytes.config (With.globs included (glob :: excluded) c)).
  { intros P c included excluded glob.
    unfold Bytes.config, Bytes.fields, Bytes.before_managed,
      Bytes.after_managed, concat_strings. simpl.
    do 6 f_equal. apply append_pair.
    rewrite each_bytes_app, each_bytes_cons, each_bytes_cons, append_assoc.
    change (each_bytes (fun s : string => s) []) with "".
    now rewrite append_nil_r. }
  assert (Hupstream : forall (P : Platform) c a b x upstreams,
             Bytes.config
               (With.upstreams
                  ({| Upstream.name := a ++ b; Upstream.url := x |}
                   :: upstreams) c)
             = Bytes.config
                 (With.upstreams
                    ({| Upstream.name := a; Upstream.url := b ++ x |}
                     :: upstreams) c)).
  { intros P c a b x upstreams.
    unfold Bytes.config, Bytes.fields, Bytes.before_managed,
      Bytes.after_managed, concat_strings. simpl.
    do 5 f_equal. rewrite !each_bytes_cons. unfold Bytes.upstream. simpl.
    now rewrite !append_assoc. }
  cbv zeta. split; [| split; [| split; [| split]]].
  - split; [discriminate |]. split.
    + intros P h. rewrite !ConfigBase_updateHash_bytes. split; reflexivity.
    + intros P algorithm encoding. now rewrite !calculateHash_bytes.
  - split; [discriminate |]. split.
    + intros P h. rewrite !ConfigBase_updateHash_bytes. split; reflexivity.
    + intros P algorithm encoding. now rewrite !calculateHash_bytes.
  - intros P c included excluded glob h algorithm encoding.
    rewrite !ConfigBase_updateHash_bytes, !calculateHash_bytes, Hglob.
    split; reflexivity.
  - intros P c a b x upstreams h algorithm encoding.
    rewrite !ConfigBase_updateHash_bytes, !calculateHash_bytes, Hupstream.
    split; reflexivity.
  - intros P c h.
    exists (Crypto.data h
            ++ optional_bytes (ConfigBase.apiVersion c)
            ++ ConfigBase.identifier c
            ++ Bytes.managed (ConfigBase.managed c)
            ++ optional_bytes (ConfigBase.developVersion c)
            ++ optional_bytes (ConfigBase.masterVersion c)),
      (concat_strings (skipn 5 (Bytes.after_managed c))).
    intros upstreams included excluded.
    rewrite ConfigBase_updateHash_bytes. unfold Crypto.update.
    cbn [Crypto.data].
    unfold Bytes.config, Bytes.fields, Bytes.before_managed,
      Bytes.after_managed, concat_strings, each_bytes, concat_strings.
    simpl. rewrite !map_id. repeat rewrite append_assoc. reflexivity.
Qed.

(** ** Feature taggings: hashed, not serialised (C9, C1) *)

(** C9: the plain object [FeatureBase.toHash] builds carries the name,
    the branch name, the source sha, the version and the upstream of the
    feature and no [tags] key, whatever taggings the feature has; the
    same taggings do reach the hash, each after the feature's own fields
    and in order. The taggings of a feature are therefore lost on
    persistence: no reader of the serialised object can tell two features
    apart that differ only in their taggings. *)
Theorem feature_tags_hashed_not_serialised (x : FeatureBase.t) :
  FeatureBase.toHash x
  = {| ConfigFeatureSchema.name := FeatureBase.name x;
       ConfigFeatureSchema.branchName := FeatureBase.branchName x;
       ConfigFeatureSchema.sourceSha := FeatureBase.sourceSha x;
       ConfigFeatureSchema.version := FeatureBase.version x;
       ConfigFeatureSchema.upstream := FeatureBase.upstream x;
       ConfigFeatureSchema.tags := None |}
  /\ (forall tags,
         FeatureBase.toHash (With.feature_tags tags x) = FeatureBase.toHash x)
  /\ (forall h,
         FeatureBase.updateHash x h
         = Crypto.update h
             (FeatureBase.name x ++ FeatureBase.branchName x
              ++ FeatureBase.sourceSha x
              ++ optional_bytes (FeatureBase.version x)
              ++ optional_bytes (FeatureBase.upstream x)
              ++ each_bytes
                   (fun tag => TaggingBase.name tag
                               ++ optional_bytes (TaggingBase.annotation tag))
                   (FeatureBase.tags x)))
  /\ (forall tags tag h,
         FeatureBase.updateHash (With.feature_tags (tags ++ [tag])%list x) h
         = Crypto.update
             (FeatureBase.updateHash (With.feature_tags tags x) h)
             (TaggingBase.name tag
              ++ optional_bytes (TaggingBase.annotation tag)))
  /\ (forall (A : Type) (read : ConfigFeatureSchema.t -> A) tags,
         read (FeatureBase.toHash (With.feature_tags tags x))
         = read (FeatureBase.toHash x)).
Proof.
  split; [reflexivity |]. split; [reflexivity |].
  split; [exact (FeatureBase_updateHash_bytes x) |].
  split; [| reflexivity].
  intros tags tag h. rewrite !FeatureBase_updateHash_bytes, update_update.
  f_equal. unfold Bytes.feature. simpl.
  rewrite each_bytes_app, each_bytes_cons.
  change (each_bytes Bytes.tagging []) with "".
  rewrite append_nil_r. repeat rewrite append_assoc. reflexivity.
Qed.

(** C1, the code at the failing input: the tree
    [{ identifier: 'repo', features: [{ name: 'f1', branchName:
    'feature/f1', sourceSha: 'abc123', tags: [{ name: 'wip' }] }] }] has
    no shadow entry. Its serialisation is that of the same tree without
    the tagging, and rebuilding a tree from it gives the tree without the
    tagging. The hash of the original receives [repof1feature/f1abc123wip]
    and the hash of the rebuilt tree [repof1feature/f1abc123]: the two
    digests are the algorithm's digests of different inputs. Whatever
    function rebuilds trees from documents, the round trip changes the
    hash input of the tagged tree or that of the untagged one. *)
Theorem roundtrip_drops_feature_tags :
  no_shadow Sample.tagged = true
  /\ (forall P : Platform,
         ConfigBase.toHash false Sample.tagged
         = ConfigBase.toHash false Sample.untagged)
  /\ (forall P : Platform,
         exists d,
           ConfigBase.toHash false Sample.tagged = Ok d
           /\ Validate.validate d = Sample.untagged
           /\ Crypto.data
                (ConfigBase.updateHash Sample.tagged
                   (Crypto.createHash "sha256"))
              = "repof1feature/f1abc123wip"
           /\ Crypto.data
                (ConfigBase.updateHash (Validate.validate d)
                   (Crypto.createHash "sha256"))
              = "repof1feature/f1abc123"
           /\ ConfigBase.calculateHash Sample.tagged None None
              = Crypto_digest "sha256" "hex" "repof1feature/f1abc123wip"
           /\ ConfigBase.calculateHash (Validate.validate d) None None
              = Crypto_digest "sha256" "hex" "repof1feature/f1abc123")
  /\ "repof1feature/f1abc123wip" <> "repof1feature/f1abc123"
  /\ (forall (P : Platform) (rebuild : ConfigSchema.t -> ConfigBase.t) d d',
         ConfigBase.toHash false Sample.tagged = Ok d ->
         ConfigBase.toHash false Sample.untagged = Ok d' ->
         Bytes.config (rebuild d) <> Bytes.config Sample.tagged
         \/ Bytes.config (rebuild d') <> Bytes.config Sample.untagged).
Proof.
  split; [reflexivity |]. split; [reflexivity |].
  split.
  { intros P. eexists. split; [reflexivity |].
    repeat split; reflexivity. }
  split; [discriminate |].
  intros P rebuild d d' E E'.
  assert (d = d') as <- by (cbv in E, E'; congruence).
  destruct (string_dec (Bytes.config (rebuild d)) (Bytes.config Sample.tagged))
    as [Eq | Ne]; [right | now left].
  rewrite Eq. discriminate.
Qed.

(** ** Shadow entries (C2) *)

Lemma toHash_visible_insert_at {A B : Type} (shadow : A -> option bool)
  (toHash : A -> B) (n : nat) (x : A) (xs : list A) :
  truthy_flag (shadow x) = true ->
  toHash_visible shadow toHash (insert_at n x xs)
  = toHash_visible shadow toHash xs.
Proof.
  intros Hx. unfold toHash_visible. now rewrite not_shadow_insert_at.
Qed.

(** A shadow entry added to a Support line changes neither what the line
    feeds to a hash nor its serialisation. *)
Lemma add_to_support_shadow (e : Entry) (n : nat) (s s' : SupportBase.t) :
  truthy_flag (Entry_shadow e) = true ->
  add_to_support e n s = Some s' ->
  Bytes.support s' = Bytes.support s
  /\ SupportBase.toHash s' = SupportBase.toHash s
  /\ in_support e s'.
Proof.
  intros Hs Hadd.
  destruct e as [x|x|x|x]; simpl in Hs, Hadd; try discriminate;
    injection Hadd as <-;
    (split; [| split]);
    try (unfold Bytes.support; simpl; now rewrite not_shadow_insert_at);
    try (unfold SupportBase.toHash; simpl;
         now rewrite toHash_visible_insert_at);
    simpl; apply In_insert_at.
Qed.

Lemma each_bytes_replace_at {A : Type} (f : A -> string) (k : nat) (x y : A)
  (xs : list A) :
  nth_error xs k = Some y -> f x = f y ->
  each_bytes f (replace_at k x xs) = each_bytes f xs.
Proof.
  intros E Hf. unfold each_bytes. now rewrite (map_replace_at f k x xs E Hf).
Qed.

Lemma if_nonempty_replace_at {A B : Type} (f : A -> B) (k : nat) (x y : A)
  (xs : list A) :
  nth_error xs k = Some y -> f x = f y ->
  if_nonempty (replace_at k x xs) (map f) = if_nonempty xs (map f).
Proof.
  intros E Hf. pose proof (map_replace_at f k x xs E Hf) as Hmap.
  destruct xs as [|z xs]; [destruct k; discriminate |].
  unfold replace_at in *.
  destruct (firstn k (z :: xs) ++ x :: skipn (S k) (z :: xs))%list
    as [|w ws] eqn:Hl.
  - destruct (firstn k (z :: xs)); discriminate.
  - unfold if_nonempty. now rewrite Hmap.
Qed.

(** C2: adding a shadow-flagged Submodule, Feature, Release or Hotfix
    entry at any position, among the tree's own collections or among
    those of one of its Support lines, changes neither what [updateHash]
    feeds to a hash, nor the digest, nor the object [toHash] builds (with
    or without the API version stamp); the entry is still an element of
    the in-memory tree. *)
Theorem shadow_entries_excluded `{Platform} (place : Place) (e : Entry)
  (n : nat) (c c' : ConfigBase.t) (algorithm encoding : option string)
  (stampApiVersion : bool) :
  truthy_flag (Entry_shadow e) = true ->
  add_entry place e n c = Some c' ->
  (forall h, ConfigBase.updateHash c' h = ConfigBase.updateHash c h)
  /\ ConfigBase.calculateHash c' algorithm encoding
     = ConfigBase.calculateHash c algorithm encoding
  /\ ConfigBase.toHash stampApiVersion c' = ConfigBase.toHash stampApiVersion c
  /\ in_tree place e c'.
Proof.
  intros Hs Hadd.
  assert (Hbytes : Bytes.config c' = Bytes.config c
                   /\ ConfigBase.toHash stampApiVersion c'
                      = ConfigBase.toHash stampApiVersion c
                   /\ in_tree place e c').
  { destruct place as [|k]; simpl in Hadd.
    - injection Hadd as <-.
      destruct e as [x|x|x|x]; simpl in Hs;
        (split; [| split]);
        try (unfold Bytes.config, Bytes.fields, Bytes.after_managed; simpl;
             now rewrite not_shadow_insert_at);
        try (unfold ConfigBase.toHash; simpl;
             now rewrite not_shadow_insert_at);
        simpl; apply In_insert_at.
    - destruct (nth_error (ConfigBase.supports c) k) as [s|] eqn:Hk;
        [| discriminate].
      destruct (add_to_support e n s) as [s'|] eqn:Hsup; [| discriminate].
      injection Hadd as <-.
      destruct (add_to_support_shadow e n s Hs Hsup) as (Hb & Ht & Hin).
      split; [| split].
      + unfold Bytes.config, Bytes.fields, Bytes.after_managed. simpl.
        now rewrite (each_bytes_replace_at Bytes.support k s'
                       (ConfigBase.supports c) Hk Hb).
      + unfold ConfigBase.toHash. simpl.
        now rewrite (if_nonempty_replace_at SupportBase.toHash k s'
                       (ConfigBase.supports c) Hk Ht).
      + simpl. exists s'. split; [| exact Hin].
        exact (nth_error_replace_at k s' (ConfigBase.supports c) Hk). }
  destruct Hbytes as (Hb & Ht & Hin).
  split; [| split; [| split]]; trivial.
  - intros h. now rewrite !ConfigBase_updateHash_bytes, Hb.
  - now rewrite !calculateHash_bytes, Hb.
Qed.

(** A shadow feature (with a tagging of its own) added in front of the
    features of the sample tree, and a shadow hotfix added to the first
    Support line of a tree, on the reference platform. *)
Lemma shadow_entries_excluded_witness :
  (truthy_flag (Entry_shadow Sample.scratch) = true
   /\ exists c',
       add_entry AtRoot Sample.scratch 0 Sample.tagged = Some c'
       /\ ConfigBase.calculateHash (H := Reference.platform) c' None None
          = ConfigBase.calculateHash (H := Reference.platform) Sample.tagged
              None None
       /\ ConfigBase.toHash (H := Reference.platform) false c'
          = ConfigBase.toHash (H := Reference.platform) false Sample.tagged
       /\ in_tree AtRoot Sample.scratch c')
  /\ (truthy_flag (Entry_shadow Sample.patch) = true
      /\ exists c',
          add_entry (InSupport 0) Sample.patch 0 Sample.supported = Some c'
          /\ ConfigBase.calculateHash (H := Reference.platform) c' None None
             = ConfigBase.calculateHash (H := Reference.platform)
                 Sample.supported None None
          /\ ConfigBase.toHash (H := Reference.platform) false c'
             = ConfigBase.toHash (H := Reference.platform) false
                 Sample.supported
          /\ in_tree (InSupport 0) Sample.patch c').
Proof.
  split.
  - split; [reflexivity |]. eexists. split; [reflexivity |].
    exact (proj2 (shadow_entries_excluded (H := Reference.platform)
                    AtRoot Sample.scratch 0 Sample.tagged None None false
                    eq_refl eq_refl)).
  - split; [reflexivity |]. eexists. split; [reflexivity |].
    exact (proj2 (shadow_entries_excluded (H := Reference.platform)
                    (InSupport 0) Sample.patch 0 Sample.supported
                    None None false eq_refl eq_refl)).
Defined.

(** ** Determinism of the digest (C8) *)




Lemma replace_at_twice {A : Type} (k : nat) (x y z : A) (xs : list A) :
  nth_error xs k = Some y ->
  replace_at k z (replace_at k x xs) = replace_at k z xs.
Proof.
  revert xs. induction k as [|k IH]; intros [|w xs] E; simpl in E;
    try discriminate.
  - reflexivity.
  - unfold replace_at in *. cbn [firstn skipn app]. f_equal. now apply IH.
Qed.

(** The calls of [update] a method makes on one object, one after the
    other, are one call of the method on that object. *)
Lemma Heap_call_update (hash : Heap.ref) (method : Crypto.Hash -> Crypto.Hash)
  (chunk : string) (heap : Heap.t) :
  Heap.update hash chunk (Heap.call hash method heap)
  = Heap.call hash (fun object => Crypto.update (method object) chunk) heap.
Proof.
  unfold Heap.update, Heap.call.
  destruct (nth_error heap hash) as [object|] eqn:E; [| now rewrite E].
  rewrite (nth_error_replace_at hash (method object) heap E).
  exact (replace_at_twice hash (method object) _ heap E).
Qed.



(** ** Config references (C5, C6) *)

Lemma split_from_nonempty (sep : string) (s : string) (skip : nat)
  (cur : string) :
  split_from sep skip cur s <> [].
Proof.
  revert skip cur.
  induction s as [|ch s IH]; intros skip cur; cbn [split_from].
  - discriminate.
  - destruct skip as [|k]; [| apply IH].
    destruct (prefix sep (String ch s)); [discriminate | apply IH].
Qed.

Lemma is_protocol_cases (p : string) :
  is_protocol p = true <->
  p = "config" \/ p = "file" \/ p = "branch" \/ p = "http" \/ p = "https"
  \/ p = "glfs".
Proof.
  unfold is_protocol, protocols. simpl.
  rewrite !orb_true_iff, !String.eqb_eq. intuition congruence.
Qed.

(** A URL of the form [protocol://qualifier...] passes the schema exactly
    when its protocol is one of the literals. *)
Lemma ConfigUriSchema_parse_parts `{Platform} (uri protocol qualifier : string)
  (rest : list string) :
  Zod_isUrl uri = true ->
  split "://" uri = protocol :: qualifier :: rest ->
  ConfigUriSchema_parse uri
  = if is_protocol protocol then Ok (protocol, qualifier)
    else Throw (ZodError [invalid_protocol]).
Proof.
  intros Hurl Hsplit. unfold ConfigUriSchema_parse.
  rewrite Hurl, Hsplit. simpl.
  destruct (is_protocol protocol); reflexivity.
Qed.

(** The descriptor of a glfs reference, by the segments of its
    qualifier. *)
Lemma parseConfigReference_glfs `{Platform} (uri qualifier : string)
  (rest : list string) :
  Zod_isUrl uri = true ->
  split "://" uri = "glfs" :: qualifier :: rest ->
  parseConfigReference uri
  = match split "/" qualifier with
    | [p0; p1; p2; p3] => Ok (GlfsRef (Some p0) p1 p2 (Some p3))
    | [p0; p1; p2] => Ok (GlfsRef (Some p0) p1 p2 None)
    | [p0; p1] => Ok (GlfsRef None p0 p1 None)
    | _ => Throw (Error (glfs_invalid_message uri))
    end.
Proof.
  intros Hurl Hsplit. unfold parseConfigReference.
  rewrite (ConfigUriSchema_parse_parts uri Hurl Hsplit). reflexivity.
Qed.

(** C5, as worded, fails on four segments: for
    [glfs://host1/ns1/cfgname/v1] the code returns hostname [host1],
    namespace [ns1], name [cfgname], support [v1], while the assignment
    from the right makes the last segment [v1] the name and [cfgname] the
    namespace. *)
Lemma glfs_four_segments_counterexample :
  let uri := "glfs://host1/ns1/cfgname/v1" in
  split "://" uri = ["glfs"; "host1/ns1/cfgname/v1"]
  /\ split "/" "host1/ns1/cfgname/v1" = ["host1"; "ns1"; "cfgname"; "v1"]
  /\ (forall P : Platform,
         Zod_isUrl uri = true ->
         parseConfigReference uri
         = Ok (GlfsRef (Some "host1") "ns1" "cfgname" (Some "v1")))
  /\ parseConfigReference (H := Reference.platform) uri
     = Ok (GlfsRef (Some "host1") "ns1" "cfgname" (Some "v1"))
  /\ Claimed.glfs ["host1"; "ns1"; "cfgname"; "v1"]
     = Some (GlfsRef (Some "host1") "cfgname" "v1" (Some "ns1"))
  /\ GlfsRef (Some "host1") "ns1" "cfgname" (Some "v1")
     <> GlfsRef (Some "host1") "cfgname" "v1" (Some "ns1").
Proof.
  cbv zeta. split; [reflexivity |]. split; [reflexivity |].
  split.
  { intros P Hurl.
    now rewrite (parseConfigReference_glfs
                   "glfs://host1/ns1/cfgname/v1" Hurl eq_refl). }
  split; [reflexivity |]. split; [reflexivity | discriminate].
Qed.

(** C5 (amended): for a glfs reference whose qualifier has two or three
    segments the last segment is the name and the one before it the
    namespace, and with three segments the first is the hostname, as the
    assignment from the right says. With four segments the assignment is
    positional from the left: hostname, namespace, name, and the last
    segment is the support qualifier. *)
Theorem glfs_segments `{Platform} (uri qualifier : string)
  (rest : list string) :
  Zod_isUrl uri = true ->
  split "://" uri = "glfs" :: qualifier :: rest ->
  let parts := split "/" qualifier in
  (length parts = 2 ->
   parseConfigReference uri
   = Ok (GlfsRef None (nth 0 parts "") (last parts "") None)
   /\ Claimed.glfs parts
      = Some (GlfsRef None (nth 0 parts "") (last parts "") None))
  /\ (length parts = 3 ->
      parseConfigReference uri
      = Ok (GlfsRef (Some (nth 0 parts "")) (nth 1 parts "") (last parts "")
              None)
      /\ Claimed.glfs parts
         = Some (GlfsRef (Some (nth 0 parts "")) (nth 1 parts "")
                   (last parts "") None))
  /\ (length parts = 4 ->
      parseConfigReference uri
      = Ok (GlfsRef (Some (nth 0 parts "")) (nth 1 parts "") (nth 2 parts "")
              (Some (last parts "")))).
Proof.
  intros Hurl Hsplit. cbv zeta.
  rewrite (parseConfigReference_glfs uri Hurl Hsplit).
  destruct (split "/" qualifier) as [|p0 [|p1 [|p2 [|p3 [|p4 ps]]]]];
    (split; [| split]); intros Hlen; try discriminate Hlen;
    try (split; reflexivity); reflexivity.
Qed.

(** The literal cases [glfs://host1/ns1/cfgname] and [glfs://ns1/cfgname],
    and a reference with four segments, on the reference platform. *)
Lemma glfs_segments_witness :
  parseConfigReference (H := Reference.platform) "glfs://host1/ns1/cfgname"
  = Ok (GlfsRef (Some "host1") "ns1" "cfgname" None)
  /\ parseConfigReference (H := Reference.platform) "glfs://ns1/cfgname"
     = Ok (GlfsRef None "ns1" "cfgname" None)
  /\ parseConfigReference (H := Reference.platform)
       "glfs://host1/ns1/cfgname/v1"
     = Ok (GlfsRef (Some "host1") "ns1" "cfgname" (Some "v1")).
Proof.
  split; [| split].
  - exact (proj1 (proj1 (proj2
             (glfs_segments (H := Reference.platform)
                "glfs://host1/ns1/cfgname" (qualifier := "host1/ns1/cfgname")
                (rest := []) eq_refl eq_refl)) eq_refl)).
  - exact (proj1 (proj1
             (glfs_segments (H := Reference.platform)
                "glfs://ns1/cfgname" (qualifier := "ns1/cfgname")
                (rest := []) eq_refl eq_refl) eq_refl)).
  - exact (proj2 (proj2
             (glfs_segments (H := Reference.platform)
                "glfs://host1/ns1/cfgname/v1"
                (qualifier := "host1/ns1/cfgname/v1")
                (rest := []) eq_refl eq_refl)) eq_refl).
Defined.

(** The outcomes of parsing a URL of the form [protocol://qualifier]. *)
Lemma parseConfigReference_outcomes `{Platform}
  (uri protocol qualifier : string) (rest : list string) :
  Zod_isUrl uri = true ->
  split "://" uri = protocol :: qualifier :: rest ->
  (is_protocol protocol = false
   /\ parseConfigReference uri = Throw (ZodError [invalid_protocol]))
  \/ (is_protocol protocol = true
      /\ malformed_glfs protocol qualifier = true
      /\ parseConfigReference uri
         = Throw (Error ("GLFS Uri invalid [" ++ uri ++ "]")))
  \/ (is_protocol protocol = true
      /\ malformed_glfs protocol qualifier = false
      /\ exists reference, parseConfigReference uri = Ok reference).
Proof.
  intros Hurl Hsplit. unfold parseConfigReference.
  rewrite (ConfigUriSchema_parse_parts uri Hurl Hsplit).
  destruct (is_protocol protocol) eqn:Hp; [| left; now split].
  right. apply is_protocol_cases in Hp.
  destruct Hp as [-> | [-> | [-> | [-> | [-> | ->]]]]];
    try (right; split; [reflexivity |]; split; [reflexivity |];
         eexists; reflexivity).
  unfold malformed_glfs, glfs_invalid_message. simpl.
  destruct (split "/" qualifier) as [|p0 [|p1 [|p2 [|p3 [|p4 ps]]]]];
    simpl;
    try (left; split; [reflexivity |]; split; reflexivity);
    (right; split; [reflexivity |]; split; [reflexivity |];
     eexists; reflexivity).
Qed.

Lemma malformed_glfs_shape (protocol qualifier : string) :
  malformed_glfs protocol qualifier = true
  <-> protocol = "glfs"
      /\ (length (split "/" qualifier) = 1
          \/ 5 <= length (split "/" qualifier)).
Proof.
  unfold malformed_glfs. rewrite andb_true_iff, String.eqb_eq.
  pose proof (@split_from_nonempty "/" qualifier 0 "") as Hne.
  fold (split "/" qualifier) in Hne.
  destruct (split "/" qualifier) as [|p0 [|p1 [|p2 [|p3 [|p4 [|p5 ps]]]]]];
    simpl; try contradiction; intuition (try discriminate; try lia).
Qed.

(** The only [Error] [parseConfigReference] throws is the one for a glfs
    qualifier; its final [throw] is never reached. *)
Lemma parseConfigReference_Error `{Platform} (uri message : string) :
  parseConfigReference uri = Throw (Error message) ->
  message = "GLFS Uri invalid [" ++ uri ++ "]".
Proof.
  unfold parseConfigReference, ConfigUriSchema_parse.
  destruct (Zod_isUrl uri); simpl; [| discriminate].
  destruct (split "://" uri) as [|protocol [|qualifier rest]]; simpl;
    try discriminate.
  destruct (is_protocol protocol) eqn:Hp; simpl; [| discriminate].
  apply is_protocol_cases in Hp.
  destruct Hp as [-> | [-> | [-> | [-> | [-> | ->]]]]]; simpl;
    try discriminate.
  destruct (split "/" qualifier) as [|p0 [|p1 [|p2 [|p3 [|p4 ps]]]]];
    intros E; try discriminate E; now injection E as <-.
Qed.

(** C6, as worded, fails on an unrecognised protocol: for
    [ftp://example.com/x] the schema refuses the protocol, and what
    [parseConfigReference] throws is the schema's validation error; the
    error [Unsupported config protocol ftp], whose message carries the
    protocol, is not raised, on any platform. *)
Lemma unsupported_protocol_counterexample :
  let uri := "ftp://example.com/x" in
  split "://" uri = ["ftp"; "example.com/x"]
  /\ is_protocol "ftp" = false
  /\ (forall P : Platform,
         Zod_isUrl uri = true ->
         parseConfigReference uri = Throw (ZodError [invalid_protocol]))
  /\ parseConfigReference (H := Reference.platform) uri
     = Throw (ZodError [invalid_protocol])
  /\ (forall P : Platform,
         parseConfigReference uri
         <> Throw (Error ("Unsupported config protocol " ++ "ftp"))).
Proof.
  cbv zeta. split; [reflexivity |]. split; [reflexivity |].
  split.
  { intros P Hurl. unfold parseConfigReference.
    now rewrite (ConfigUriSchema_parse_parts "ftp://example.com/x" Hurl
                   eq_refl). }
  split; [reflexivity |].
  intros P E. apply parseConfigReference_Error in E. discriminate E.
Qed.

(** C6 (amended): a string that is not a URL is refused by the schema. A
    URL of the form [protocol://qualifier] fails to parse exactly when its
    protocol is not one of the six literals or it is glfs with a number of
    segments other than 2, 3 and 4 (that is 1, or 5 and more): an
    unrecognised protocol is refused by the schema, whose validation error
    (an issue on the protocol key) is thrown; a glfs qualifier of the
    wrong shape raises the error whose message carries the whole URI;
    every other such URL gives a descriptor. No other plain error is
    thrown: the final [throw] of [parseConfigReference], whose message
    would carry the protocol, is never reached. *)
Theorem parseConfigReference_fails_exactly `{Platform} (uri : string) :
  (Zod_isUrl uri = false ->
   parseConfigReference uri = Throw (ZodError [invalid_url]))
  /\ (forall protocol qualifier rest,
         Zod_isUrl uri = true ->
         split "://" uri = protocol :: qualifier :: rest ->
         (is_protocol protocol = false ->
          parseConfigReference uri = Throw (ZodError [invalid_protocol]))
         /\ (malformed_glfs protocol qualifier = true ->
             parseConfigReference uri
             = Throw (Error ("GLFS Uri invalid [" ++ uri ++ "]")))
         /\ (is_protocol protocol = true ->
             malformed_glfs protocol qualifier = false ->
             exists reference, parseConfigReference uri = Ok reference)
         /\ ((exists e, parseConfigReference uri = Throw e)
             <-> is_protocol protocol = false
                 \/ malformed_glfs protocol qualifier = true)
         /\ (malformed_glfs protocol qualifier = true
             <-> protocol = "glfs"
                 /\ (length (split "/" qualifier) = 1
                     \/ 5 <= length (split "/" qualifier))))
  /\ (forall message,
         parseConfigReference uri = Throw (Error message) ->
         message = "GLFS Uri invalid [" ++ uri ++ "]").
Proof.
  split; [| split].
  - intros Hurl. unfold parseConfigReference, ConfigUriSchema_parse.
    now rewrite Hurl.
  - intros protocol qualifier rest Hurl Hsplit.
    pose proof (parseConfigReference_outcomes uri Hurl Hsplit) as Hcases.
    pose proof (malformed_glfs_shape protocol qualifier) as Hshape.
    split; [| split; [| split; [| split]]].
    + intros Hp.
      destruct Hcases as [[_ E] | [[Hp' _] | [Hp' _]]]; [exact E | |];
        congruence.
    + intros Hm.
      destruct Hcases as [[Hp _] | [(_ & _ & E) | (_ & Hm' & _)]];
        [| exact E | congruence].
      apply Hshape in Hm as [-> _]. discriminate Hp.
    + intros Hp Hm.
      destruct Hcases as [[Hp' _] | [(_ & Hm' & _) | (_ & _ & E)]];
        [congruence | congruence | exact E].
    + split.
      * intros [e He].
        destruct Hcases as [[Hp _] | [(_ & Hm & _) | (_ & _ & [r Hr])]];
          [now left | now right | congruence].
      * intros [Hp | Hm].
        -- destruct Hcases as [[_ E] | [[Hp' _] | [Hp' _]]];
             [eexists; exact E | congruence | congruence].
        -- destruct Hcases as [[_ E] | [(_ & _ & E) | (_ & Hm' & _)]];
             [eexists; exact E | eexists; exact E | congruence].
    + exact Hshape.
  - intros message. apply parseConfigReference_Error.
Qed.

(** [ftp://example.com/x] (unrecognised protocol), [glfs://a] (one
    segment), [glfs://a/b/c/d/e] (five segments) and
    [file:///etc/repo.yml], on the reference platform. *)
Lemma parseConfigReference_fails_exactly_witness :
  parseConfigReference (H := Reference.platform) "ftp://example.com/x"
  = Throw (ZodError [invalid_protocol])
  /\ parseConfigReference (H := Reference.platform) "glfs://a"
     = Throw (Error "GLFS Uri invalid [glfs://a]")
  /\ parseConfigReference (H := Reference.platform) "glfs://a/b/c/d/e"
     = Throw (Error "GLFS Uri invalid [glfs://a/b/c/d/e]")
  /\ exists reference,
      parseConfigReference (H := Reference.platform) "file:///etc/repo.yml"
      = Ok reference.
Proof.
  split; [| split; [| split]].
  - exact (proj1
             (proj1 (proj2
                (parseConfigReference_fails_exactly
                   (H := Reference.platform) "ftp://example.com/x"))
                "ftp" "example.com/x" [] eq_refl eq_refl) eq_refl).
  - exact (proj1 (proj2
             (proj1 (proj2
                (parseConfigReference_fails_exactly
                   (H := Reference.platform) "glfs://a"))
                "glfs" "a" [] eq_refl eq_refl)) eq_refl).
  - exact (proj1 (proj2
             (proj1 (proj2
                (parseConfigReference_fails_exactly
                   (H := Reference.platform) "glfs://a/b/c/d/e"))
                "glfs" "a/b/c/d/e" [] eq_refl eq_refl)) eq_refl).
  - exact (proj1 (proj2 (proj2
             (proj1 (proj2
                (parseConfigReference_fails_exactly
                   (H := Reference.platform) "file:///etc/repo.yml"))
                "file" "/etc/repo.yml" [] eq_refl eq_refl))) eq_refl eq_refl).
Defined.

(** ** Version resolution (C7) *)

(** What [resolveVersion] does with the selected version field. *)
Lemma clean_version_cases `{Platform} (selected : option string) :
  (selected = None \/ selected = Some "" -> clean_version selected = Ok None)
  /\ (forall raw version,
         selected = Some raw -> raw <> "" ->
         Semver_clean raw = Some version -> version <> "" ->
         clean_version selected = Ok (Some version))
  /\ (forall raw,
         selected = Some raw -> raw <> "" -> Semver_clean raw = None ->
         clean_version selected
         = Throw (Error ("Version " ++ dquote ++ raw ++ dquote
                         ++ " is not a valid semver format"))).
Proof.
  split; [| split].
  - intros [-> | ->]; reflexivity.
  - intros raw version -> Hraw Hclean Hversion. unfold clean_version. simpl.
    apply String.eqb_neq in Hraw, Hversion. rewrite Hraw, Hclean. simpl.
    now rewrite Hversion.
  - intros raw -> Hraw Hclean. unfold clean_version. simpl.
    apply String.eqb_neq in Hraw. now rewrite Hraw, Hclean.
Qed.

(** C7, as worded, fails on the empty string: in
    [{ identifier: 'repo', developVersion: '' }] the version field is
    present and [Semver.clean('')] is [null], yet [resolveVersion]
    returns nothing instead of failing, on every platform. *)
Lemma resolveVersion_empty_string_counterexample :
  let c := Sample.config None "repo" (Some "") [] [] in
  ConfigBase.developVersion c = Some ""
  /\ Semver_clean (Platform := Reference.platform) "" = None
  /\ (forall P : Platform,
         ConfigBase.resolveVersion c (Some develop) = Ok None)
  /\ (forall P : Platform, ConfigBase.resolveVersion c None = Ok None).
Proof.
  cbv zeta. repeat split.
Qed.

(** C7 (amended): [resolveVersion(branch)] of a Config or of a Support
    line reads developVersion for [develop] (the default) and
    masterVersion for [master]; it returns nothing when that field is
    absent or the empty string; when [Semver.clean] accepts the field it
    returns the cleaned version; when [Semver.clean] rejects it, it fails
    with an error whose message quotes the raw string. *)
Theorem resolveVersion_cases `{Platform} (c : ConfigBase.t)
  (s : SupportBase.t) (type : option BranchType) :
  let branch := match type with Some b => b | None => develop end in
  let of_config :=
    match branch with
    | develop => ConfigBase.developVersion c
    | master => ConfigBase.masterVersion c
    end in
  let of_support :=
    match branch with
    | develop => SupportBase.developVersion s
    | master => SupportBase.masterVersion s
    end in
  let cases (selected : option string) (result : Result (option string)) :=
    (selected = None \/ selected = Some "" -> result = Ok None)
    /\ (forall raw version,
           selected = Some raw -> raw <> "" ->
           Semver_clean raw = Some version -> version <> "" ->
           result = Ok (Some version))
    /\ (forall raw,
           selected = Some raw -> raw <> "" -> Semver_clean raw = None ->
           result
           = Throw (Error ("Version " ++ dquote ++ raw ++ dquote
                           ++ " is not a valid semver format"))) in
  cases of_config (ConfigBase.resolveVersion c type)
  /\ cases of_support (SupportBase.resolveVersion s type).
Proof.
  cbv zeta. split; apply clean_version_cases.
Qed.

(** [{ developVersion: '1.2.3' }] resolves to [1.2.3], so does
    [{ developVersion: ' v1.2.3 ' }]; [{ developVersion: 'garbage' }]
    fails, the message quoting [garbage]; [{}] resolves to nothing; on
    the reference platform. *)
Lemma resolveVersion_cases_witness :
  ConfigBase.resolveVersion (H := Reference.platform)
    (Sample.config None "repo" (Some "1.2.3") [] []) (Some develop)
  = Ok (Some "1.2.3")
  /\ ConfigBase.resolveVersion (H := Reference.platform)
       (Sample.config None "repo" (Some " v1.2.3 ") [] []) None
     = Ok (Some "1.2.3")
  /\ ConfigBase.resolveVersion (H := Reference.platform)
       (Sample.config None "repo" (Some "garbage") [] []) None
     = Throw (Error ("Version " ++ dquote ++ "garbage" ++ dquote
                     ++ " is not a valid semver format"))
  /\ ConfigBase.resolveVersion (H := Reference.platform) Sample.repo None
     = Ok None
  /\ SupportBase.resolveVersion (H := Reference.platform) Sample.support
       (Some master)
     = Ok None.
Proof.
  split; [| split; [| split; [| split]]].
  - refine (proj1 (proj2 (proj1
             (resolveVersion_cases (H := Reference.platform)
                (Sample.config None "repo" (Some "1.2.3") [] [])
                Sample.support (Some develop))))
             "1.2.3" "1.2.3" eq_refl _ eq_refl _); discriminate.
  - refine (proj1 (proj2 (proj1
             (resolveVersion_cases (H := Reference.platform)
                (Sample.config None "repo" (Some " v1.2.3 ") [] [])
                Sample.support None)))
             " v1.2.3 " "1.2.3" eq_refl _ eq_refl _); discriminate.
  - refine (proj2 (proj2 (proj1
             (resolveVersion_cases (H := Reference.platform)
                (Sample.config None "repo" (Some "garbage") [] [])
                Sample.support None)))
             "garbage" eq_refl _ eq_refl); discriminate.
  - exact (proj1 (proj1
             (resolveVersion_cases (H := Reference.platform) Sample.repo
                Sample.support None)) (or_introl eq_refl)).
  - exact (proj1 (proj2
             (resolveVersion_cases (H := Reference.platform) Sample.repo
                Sample.support (Some master))) (or_introl eq_refl)).
Defined.

(** ** The round trip on trees without taggings *)

Lemma collection_if_nonempty {A B : Type} (f : list A -> list B)
  (xs : list A) :
  f [] = [] -> Validate.collection (if_nonempty xs f) = f xs.
Proof. intros Hf. destruct xs; simpl; [now rewrite Hf | reflexivity]. Qed.

Lemma collection_unless_empty {V : Type} (obj : list (string * V)) :
  Validate.collection (unless_empty obj) = obj.
Proof. destruct obj; reflexivity. Qed.

Lemma each_bytes_map {A B : Type} (f : B -> string) (g : A -> B)
  (xs : list A) :
  each_bytes f (map g xs) = each_bytes (fun x => f (g x)) xs.
Proof. unfold each_bytes. now rewrite map_map. Qed.

Lemma each_bytes_ext {A : Type} (f g : A -> string) (ok : A -> bool)
  (xs : list A) :
  (forall x, ok x = true -> f x = g x) ->
  forallb ok xs = true -> each_bytes f xs = each_bytes g xs.
Proof.
  intros Hfg. induction xs as [|x xs IH]; [reflexivity |].
  simpl. intros E. apply andb_prop in E as [Hx Hxs].
  rewrite !each_bytes_cons, (Hfg x Hx), (IH Hxs). reflexivity.
Qed.

Lemma not_shadow_map_unflagged {A D : Type} (shadow : A -> option bool)
  (g : D -> A) (ds : list D) :
  (forall d, shadow (g d) = None) ->
  not_shadow shadow (map g ds) = map g ds.
Proof.
  intros Hg. unfold not_shadow.
  induction ds as [|d ds IH]; simpl; [reflexivity |].
  now rewrite Hg, IH.
Qed.

(** A collection of entries that is serialised and rebuilt contributes
    the bytes of its visible entries, when each entry does. *)
Lemma roundtrip_collection {A D : Type} (shadow : A -> option bool)
  (toHash : A -> D) (rebuild : D -> A) (bytes : A -> string) (ok : A -> bool)
  (xs : list A) :
  (forall d, shadow (rebuild d) = None) ->
  (forall x, ok x = true -> bytes (rebuild (toHash x)) = bytes x) ->
  forallb ok xs = true ->
  visible shadow xs = true ->
  each_bytes bytes
    (not_shadow shadow
       (map rebuild
          (Validate.collection
             (if_nonempty (not_shadow shadow xs) (map toHash)))))
  = each_bytes bytes (not_shadow shadow xs).
Proof.
  intros Hshadow Hbytes Hok Hvis.
  rewrite (not_shadow_visible shadow xs Hvis).
  rewrite collection_if_nonempty by reflexivity.
  rewrite (not_shadow_map_unflagged shadow rebuild _ Hshadow).
  rewrite !each_bytes_map. now apply each_bytes_ext with (ok := ok).
Qed.

Lemma roundtrip_feature (x : FeatureBase.t) :
  match FeatureBase.tags x with [] => true | _ :: _ => false end = true ->
  Bytes.feature (Validate.feature (FeatureBase.toHash x)) = Bytes.feature x.
Proof.
  unfold Bytes.feature. simpl. destruct (FeatureBase.tags x);
    [reflexivity | discriminate].
Qed.

Lemma roundtrip_release (x : ReleaseBase.t) :
  match ReleaseBase.tags x with [] => true | _ :: _ => false end = true ->
  Bytes.release (Validate.release (ReleaseBase.toHash x)) = Bytes.release x.
Proof.
  unfold Bytes.release. simpl. destruct (ReleaseBase.tags x);
    [reflexivity | discriminate].
Qed.

Lemma roundtrip_hotfix (x : HotfixBase.t) :
  match HotfixBase.tags x with [] => true | _ :: _ => false end = true ->
  Bytes.hotfix (Validate.hotfix (HotfixBase.toHash x)) = Bytes.hotfix x.
Proof.
  unfold Bytes.hotfix. simpl. destruct (HotfixBase.tags x);
    [reflexivity | discriminate].
Qed.

Lemma roundtrip_submodule `{Platform} (x : SubmoduleBase.t) :
  Bytes.submodule (Validate.submodule (SubmoduleBase.toHash x))
  = Bytes.submodule x.
Proof.
  unfold Bytes.submodule. simpl.
  rewrite !collection_unless_empty, collection_if_nonempty by reflexivity.
  reflexivity.
Qed.

Lemma roundtrip_integration `{Platform} (x : IntegrationBase.t) :
  Bytes.integration (Validate.integration (IntegrationBase.toHash x))
  = Bytes.integration x.
Proof.
  unfold Bytes.integration. simpl. now rewrite collection_unless_empty.
Qed.

Lemma roundtrip_support (x : SupportBase.t) :
  visible FeatureBase.shadow (SupportBase.features x)
  && visible ReleaseBase.shadow (SupportBase.releases x)
  && visible HotfixBase.shadow (SupportBase.hotfixes x)
  && (untagged FeatureBase.tags (SupportBase.features x)
      && untagged ReleaseBase.tags (SupportBase.releases x)
      && untagged HotfixBase.tags (SupportBase.hotfixes x)) = true ->
  Bytes.support (Validate.support (SupportBase.toHash x)) = Bytes.support x.
Proof.
  intros E. apply andb_prop in E as [E Ht].
  apply andb_prop in E as [E Vh]. apply andb_prop in E as [Vf Vr].
  apply andb_prop in Ht as [Ht Th]. apply andb_prop in Ht as [Tf Tr].
  unfold Bytes.support, SupportBase.toHash, toHash_visible. simpl.
  rewrite (roundtrip_collection FeatureBase.shadow FeatureBase.toHash
             Validate.feature Bytes.feature _ _ (fun d => eq_refl)
             roundtrip_feature Tf Vf).
  rewrite (roundtrip_collection ReleaseBase.shadow ReleaseBase.toHash
             Validate.release Bytes.release _ _ (fun d => eq_refl)
             roundtrip_release Tr Vr).
  rewrite (roundtrip_collection HotfixBase.shadow HotfixBase.toHash
             Validate.hotfix Bytes.hotfix _ _ (fun d => eq_refl)
             roundtrip_hotfix Th Vh).
  reflexivity.
Qed.

Lemma forallb_andb {A : Type} (p q : A -> bool) (xs : list A) :
  forallb p xs = true -> forallb q xs = true ->
  forallb (fun x => p x && q x) xs = true.
Proof.
  induction xs as [|x xs IH]; simpl; [reflexivity |].
  intros Hp Hq. apply andb_prop in Hp as [Hp Hps].
  apply andb_prop in Hq as [Hq Hqs]. now rewrite Hp, Hq, IH.
Qed.

(** Round trip, where it holds: for a tree with no shadow entry in which
    no Feature, Release or Hotfix (of the tree or of a Support line)
    carries a tagging, the tree rebuilt from the serialised document feeds
    the hash the same bytes as the original, so the digests are equal. *)
Theorem roundtrip_without_taggings `{Platform} (c : ConfigBase.t)
  (d : ConfigSchema.t) (algorithm encoding : option string) :
  no_shadow c = true ->
  no_taggings c = true ->
  ConfigBase.toHash false c = Ok d ->
  Bytes.config (Validate.validate d) = Bytes.config c
  /\ ConfigBase.calculateHash (Validate.validate d) algorithm encoding
     = ConfigBase.calculateHash c algorithm encoding.
Proof.
  intros Hs Ht Hd.
  assert (Hb : Bytes.config (Validate.validate d) = Bytes.config c);
    [| split; [exact Hb | now rewrite !calculateHash_bytes, Hb]].
  unfold ConfigBase.toHash in Hd. simpl in Hd. injection Hd as <-.
  unfold no_shadow in Hs. unfold no_taggings in Ht.
  apply andb_prop in Hs as [Hs Vsup]. apply andb_prop in Hs as [Hs Vh].
  apply andb_prop in Hs as [Hs Vr]. apply andb_prop in Hs as [Vsub Vf].
  apply andb_prop in Ht as [Ht Tsup]. apply andb_prop in Ht as [Ht Th].
  apply andb_prop in Ht as [Tf Tr].
  pose proof (forallb_andb _ _ _ Vsup Tsup) as Hsup.
  unfold Bytes.config, Bytes.fields, Bytes.before_managed,
    Bytes.after_managed. simpl.
  rewrite !collection_unless_empty.
  rewrite !(collection_if_nonempty (fun xs : list string => xs))
    by reflexivity.
  rewrite (collection_if_nonempty (fun xs : list Upstream.t => xs))
    by reflexivity.
  rewrite (roundtrip_collection SubmoduleBase.shadow SubmoduleBase.toHash
             Validate.submodule Bytes.submodule (fun _ => true) _
             (fun d => eq_refl) (fun x _ => roundtrip_submodule x)).
  2: { clear. induction (ConfigBase.submodules c); simpl; auto. }
  2: exact Vsub.
  rewrite (roundtrip_collection FeatureBase.shadow FeatureBase.toHash
             Validate.feature Bytes.feature _ _ (fun d => eq_refl)
             roundtrip_feature Tf Vf).
  rewrite (roundtrip_collection ReleaseBase.shadow ReleaseBase.toHash
             Validate.release Bytes.release _ _ (fun d => eq_refl)
             roundtrip_release Tr Vr).
  rewrite (roundtrip_collection HotfixBase.shadow HotfixBase.toHash
             Validate.hotfix Bytes.hotfix _ _ (fun d => eq_refl)
             roundtrip_hotfix Th Vh).
  rewrite !collection_if_nonempty by reflexivity.
  rewrite !each_bytes_map.
  rewrite (each_bytes_ext _ Bytes.support _ _ roundtrip_support Hsup).
  rewrite (each_bytes_ext _ Bytes.integration (fun _ => true) _
             (fun x _ => roundtrip_integration x))
    by (clear; induction (ConfigBase.integrations c); simpl; auto).
  assert (Hm : Bytes.managed
                 match (if negb (ConfigBase.managed c)
                        then Some (ConfigBase.managed c) else None) with
                 | Some b => b
                 | None => true
                 end
               = Bytes.managed (ConfigBase.managed c))
    by (destruct (ConfigBase.managed c); reflexivity).
  rewrite Hm.
  assert (Hdeps :
            match
              match ConfigBase.dependencies c with
              | Some ds => if_nonempty ds (fun xs => xs)
              | None => None
              end
            with
            | Some ds => ds
            | None => []
            end
            = match ConfigBase.dependencies c with
              | Some ds => ds
              | None => []
              end)
    by (destruct (ConfigBase.dependencies c) as [[|x xs]|]; reflexivity).
  rewrite Hdeps. reflexivity.
Qed.

(** The sample tree whose feature carries no tagging, on the reference
    platform. *)
Lemma roundtrip_without_taggings_witness :
  no_shadow Sample.untagged = true
  /\ no_taggings Sample.untagged = true
  /\ exists d,
      ConfigBase.toHash (H := Reference.platform) false Sample.untagged = Ok d
      /\ ConfigBase.calculateHash (H := Reference.platform)
           (Validate.validate d) None None
         = ConfigBase.calculateHash (H := Reference.platform) Sample.untagged
             None None.
Proof.
  split; [reflexivity |]. split; [reflexivity |].
  eexists. split; [reflexivity |].
  exact (proj2 (roundtrip_without_taggings (H := Reference.platform)
                  (c := Sample.untagged) None None eq_refl eq_refl eq_refl)).
Defined.

(** ** The descriptors of the other protocols *)

(** The descriptor of a URL [protocol://qualifier] of the protocols other
    than glfs: [config] ignores the qualifier, [file] keeps it as the
    path, [branch] as the branch name, [http] and [https] give an http
    descriptor with the protocol and the rest of the URL. *)
Theorem parseConfigReference_descriptors `{Platform}
  (uri protocol qualifier : string) (rest : list string) :
  Zod_isUrl uri = true ->
  split "://" uri = protocol :: qualifier :: rest ->
  (protocol = "config" -> parseConfigReference uri = Ok ConfigRef)
  /\ (protocol = "file" -> parseConfigReference uri = Ok (FileRef qualifier))
  /\ (protocol = "branch" ->
      parseConfigReference uri = Ok (BranchRef qualifier))
  /\ (protocol = "http" \/ protocol = "https" ->
      parseConfigReference uri = Ok (HttpRef protocol qualifier)).
Proof.
  intros Hurl Hsplit. unfold parseConfigReference.
  rewrite (ConfigUriSchema_parse_parts uri Hurl Hsplit).
  split; [| split; [| split]].
  - intros ->. reflexivity.
  - intros ->. reflexivity.
  - intros ->. reflexivity.
  - intros [-> | ->]; reflexivity.
Qed.

(** The literal cases [config://], [file:///etc/repo.yml],
    [branch://release/1.0] and [https://example.com/cfg.yml], on the
    reference platform. *)
Lemma parseConfigReference_descriptors_witness :
  parseConfigReference (H := Reference.platform) "config://" = Ok ConfigRef
  /\ parseConfigReference (H := Reference.platform) "file:///etc/repo.yml"
     = Ok (FileRef "/etc/repo.yml")
  /\ parseConfigReference (H := Reference.platform) "branch://release/1.0"
     = Ok (BranchRef "release/1.0")
  /\ parseConfigReference (H := Reference.platform)
       "https://example.com/cfg.yml"
     = Ok (HttpRef "https" "example.com/cfg.yml").
Proof.
  split; [| split; [| split]].
  - exact (proj1
             (parseConfigReference_descriptors (H := Reference.platform)
                "config://" (protocol := "config") (qualifier := "")
                (rest := []) eq_refl eq_refl) eq_refl).
  - exact (proj1 (proj2
             (parseConfigReference_descriptors (H := Reference.platform)
                "file:///etc/repo.yml" (protocol := "file")
                (qualifier := "/etc/repo.yml") (rest := [])
                eq_refl eq_refl)) eq_refl).
  - exact (proj1 (proj2 (proj2
             (parseConfigReference_descriptors (H := Reference.platform)
                "branch://release/1.0" (protocol := "branch")
                (qualifier := "release/1.0") (rest := [])
                eq_refl eq_refl))) eq_refl).
  - exact (proj2 (proj2 (proj2
             (parseConfigReference_descriptors (H := Reference.platform)
                "https://example.com/cfg.yml" (protocol := "https")
                (qualifier := "example.com/cfg.yml") (rest := [])
                eq_refl eq_refl))) (or_intror eq_refl)).
Defined.

(** * Further properties *)

(** ** The serialised document determines the digest *)

Lemma not_shadow_idempotent {A : Type} (shadow : A -> option bool)
  (xs : list A) :
  not_shadow shadow (not_shadow shadow xs) = not_shadow shadow xs.
Proof.
  unfold not_shadow. induction xs as [|x xs IH]; simpl; [reflexivity |].
  destruct (negb (truthy_flag (shadow x))) eqn:Hx; simpl;
    [now rewrite Hx, IH | exact IH].
Qed.

(** As [roundtrip_collection], for a collection that may hold shadow
    entries. *)
Lemma roundtrip_visible_collection {A D : Type} (shadow : A -> option bool)
  (toHash : A -> D) (rebuild : D -> A) (bytes : A -> string) (ok : A -> bool)
  (xs : list A) :
  (forall d, shadow (rebuild d) = None) ->
  (forall x, ok x = true -> bytes (rebuild (toHash x)) = bytes x) ->
  forallb ok (not_shadow shadow xs) = true ->
  each_bytes bytes
    (not_shadow shadow
       (map rebuild
          (Validate.collection
             (if_nonempty (not_shadow shadow xs) (map toHash)))))
  = each_bytes bytes (not_shadow shadow xs).
Proof.
  intros Hshadow Hbytes Hok.
  rewrite collection_if_nonempty by reflexivity.
  rewrite (not_shadow_map_unflagged shadow rebuild _ Hshadow).
  rewrite !each_bytes_map. now apply each_bytes_ext with (ok := ok).
Qed.

Lemma roundtrip_visible_support (x : SupportBase.t) :
  untagged FeatureBase.tags
    (not_shadow FeatureBase.shadow (SupportBase.features x))
  && untagged ReleaseBase.tags
       (not_shadow ReleaseBase.shadow (SupportBase.releases x))
  && untagged HotfixBase.tags
       (not_shadow HotfixBase.shadow (SupportBase.hotfixes x)) = true ->
  Bytes.support (Validate.support (SupportBase.toHash x)) = Bytes.support x.
Proof.
  intros E. apply andb_prop in E as [E Th]. apply andb_prop in E as [Tf Tr].
  unfold Bytes.support, SupportBase.toHash, toHash_visible. simpl.
  rewrite (roundtrip_visible_collection FeatureBase.shadow FeatureBase.toHash
             Validate.feature Bytes.feature _ _ (fun d => eq_refl)
             roundtrip_feature Tf).
  rewrite (roundtrip_visible_collection ReleaseBase.shadow ReleaseBase.toHash
             Validate.release Bytes.release _ _ (fun d => eq_refl)
             roundtrip_release Tr).
  rewrite (roundtrip_visible_collection HotfixBase.shadow HotfixBase.toHash
             Validate.hotfix Bytes.hotfix _ _ (fun d => eq_refl)
             roundtrip_hotfix Th).
  reflexivity.
Qed.

Lemma forallb_true {A : Type} (xs : list A) :
  forallb (fun _ => true) xs = true.
Proof. induction xs; simpl; auto. Qed.

(** The bytes of a tree are a function of its serialised document, when
    no visible branch carries a tagging: they are the bytes of the tree
    rebuilt from the document. *)
Lemma bytes_of_document `{Platform} (c : ConfigBase.t) (d : ConfigSchema.t) :
  no_visible_taggings c = true ->
  ConfigBase.toHash false c = Ok d ->
  Bytes.config (Validate.validate d) = Bytes.config c.
Proof.
  intros Ht Hd.
  unfold ConfigBase.toHash in Hd. simpl in Hd. injection Hd as <-.
  unfold no_visible_taggings in Ht.
  apply andb_prop in Ht as [Ht Tsup]. apply andb_prop in Ht as [Ht Th].
  apply andb_prop in Ht as [Tf Tr].
  unfold Bytes.config, Bytes.fields, Bytes.before_managed,
    Bytes.after_managed. simpl.
  rewrite !collection_unless_empty.
  rewrite !(collection_if_nonempty (fun xs : list string => xs))
    by reflexivity.
  rewrite (collection_if_nonempty (fun xs : list Upstream.t => xs))
    by reflexivity.
  rewrite (roundtrip_visible_collection SubmoduleBase.shadow
             SubmoduleBase.toHash Validate.submodule Bytes.submodule
             (fun _ => true) _ (fun d => eq_refl)
             (fun x _ => roundtrip_submodule x) (forallb_true _)).
  rewrite (roundtrip_visible_collection FeatureBase.shadow FeatureBase.toHash
             Validate.feature Bytes.feature _ _ (fun d => eq_refl)
             roundtrip_feature Tf).
  rewrite (roundtrip_visible_collection ReleaseBase.shadow ReleaseBase.toHash
             Validate.release Bytes.release _ _ (fun d => eq_refl)
             roundtrip_release Tr).
  rewrite (roundtrip_visible_collection HotfixBase.shadow HotfixBase.toHash
             Validate.hotfix Bytes.hotfix _ _ (fun d => eq_refl)
             roundtrip_hotfix Th).
  rewrite !collection_if_nonempty by reflexivity.
  rewrite !each_bytes_map.
  rewrite (each_bytes_ext _ Bytes.support _ _ roundtrip_visible_support Tsup).
  rewrite (each_bytes_ext _ Bytes.integration (fun _ => true) _
             (fun x _ => roundtrip_integration x) (forallb_true _)).
  destruct (ConfigBase.managed c); simpl;
    destruct (ConfigBase.dependencies c) as [[|dep deps]|]; reflexivity.
Qed.

(** Two trees with the same serialised document, in neither of which a
    visible Feature, Release or Hotfix carries a tagging, feed every hash
    the same bytes and have the same digest; they may differ in their
    shadow entries, in shadow flags that are false or absent, and in an
    empty or absent dependency list. *)
Theorem toHash_determines_digest `{Platform} (c1 c2 : ConfigBase.t)
  (algorithm encoding : option string) :
  no_visible_taggings c1 = true ->
  no_visible_taggings c2 = true ->
  ConfigBase.toHash false c1 = ConfigBase.toHash false c2 ->
  (forall h, ConfigBase.updateHash c1 h = ConfigBase.updateHash c2 h)
  /\ ConfigBase.calculateHash c1 algorithm encoding
     = ConfigBase.calculateHash c2 algorithm encoding.
Proof.
  intros T1 T2 E.
  assert (exists d, ConfigBase.toHash false c1 = Ok d) as [d Hd]
    by (unfold ConfigBase.toHash; simpl; eexists; reflexivity).
  assert (Hb : Bytes.config c1 = Bytes.config c2).
  { rewrite <- (bytes_of_document T1 Hd).
    rewrite E in Hd. now rewrite <- (bytes_of_document T2 Hd). }
  split.
  - intros h. now rewrite !ConfigBase_updateHash_bytes, Hb.
  - now rewrite !calculateHash_bytes, Hb.
Qed.

(** The sample tree with and without a shadow hotfix, on the reference
    platform. *)
Lemma toHash_determines_digest_witness :
  no_visible_taggings Sample2.patched = true
  /\ no_visible_taggings Sample.untagged = true
  /\ ConfigBase.toHash (H := Reference.platform) false Sample2.patched
     = ConfigBase.toHash (H := Reference.platform) false Sample.untagged
  /\ ConfigBase.hotfixes Sample2.patched <> ConfigBase.hotfixes Sample.untagged
  /\ ConfigBase.calculateHash (H := Reference.platform) Sample2.patched
       None None
     = ConfigBase.calculateHash (H := Reference.platform) Sample.untagged
         None None.
Proof.
  split; [reflexivity |]. split; [reflexivity |]. split; [reflexivity |].
  split; [discriminate |].
  exact (proj2 (toHash_determines_digest (H := Reference.platform)
                  (c1 := Sample2.patched) (c2 := Sample.untagged) None None
                  eq_refl eq_refl eq_refl)).
Defined.

(** ** Visible entries always reach the hash *)

Lemma inserted_here (x s : string) : inserted x s (x ++ s).
Proof. exists "", s. split; reflexivity. Qed.

Lemma inserted_app_l (x s s' p : string) :
  inserted x s s' -> inserted x (p ++ s) (p ++ s').
Proof.
  intros (b & a & -> & ->). exists (p ++ b), a.
  now rewrite !append_assoc.
Qed.

Lemma inserted_app_r (x s s' r : string) :
  inserted x s s' -> inserted x (s ++ r) (s' ++ r).
Proof.
  intros (b & a & -> & ->). exists b, (a ++ r).
  now rewrite !append_assoc.
Qed.

Lemma inserted_neq (x s s' : string) :
  x <> "" -> inserted x s s' -> s' <> s.
Proof.
  intros Hx (b & a & -> & ->). now apply append_token_neq.
Qed.

Lemma inserted_length (x s s' : string) :
  inserted x s s' -> String.length s' = String.length s + String.length x.
Proof.
  intros (b & a & -> & ->). rewrite !length_append. lia.
Qed.

Lemma not_shadow_app {A : Type} (shadow : A -> option bool) (xs ys : list A) :
  not_shadow shadow (xs ++ ys)%list
  = (not_shadow shadow xs ++ not_shadow shadow ys)%list.
Proof. unfold not_shadow. apply filter_app. Qed.

(** An entry that is not shadow-flagged, added to a collection, adds its
    bytes to those of the visible entries, at its place among them. *)
Lemma inserted_visible {A : Type} (shadow : A -> option bool)
  (bytes : A -> string) (n : nat) (x : A) (xs : list A) :
  truthy_flag (shadow x) = false ->
  inserted (bytes x)
    (each_bytes bytes (not_shadow shadow xs))
    (each_bytes bytes (not_shadow shadow (insert_at n x xs))).
Proof.
  intros Hx. unfold insert_at.
  rewrite <- (firstn_skipn n xs) at 1.
  rewrite !not_shadow_app, !each_bytes_app.
  apply inserted_app_l.
  unfold not_shadow at 2. simpl. rewrite Hx. simpl.
  rewrite each_bytes_cons. apply inserted_here.
Qed.

Lemma inserted_replace_at {A : Type} (bytes : A -> string) (x : string)
  (k : nat) (y y' : A) (xs : list A) :
  nth_error xs k = Some y ->
  inserted x (bytes y) (bytes y') ->
  inserted x (each_bytes bytes xs) (each_bytes bytes (replace_at k y' xs)).
Proof.
  intros Hk Hy. rewrite (firstn_skipn_nth k xs Hk) at 1.
  unfold replace_at. rewrite !each_bytes_app, !each_bytes_cons.
  apply inserted_app_l, inserted_app_r, Hy.
Qed.

(** Navigation to the field of a concatenation that changes. *)
Ltac inserted_in_field H :=
  repeat first [ apply inserted_app_r; exact H
               | exact H
               | apply inserted_app_l ].

Lemma add_to_support_visible `{Platform} (e : Entry) (n : nat)
  (s s' : SupportBase.t) :
  truthy_flag (Entry_shadow e) = false ->
  add_to_support e n s = Some s' ->
  inserted (Entry_bytes e) (Bytes.support s) (Bytes.support s').
Proof.
  intros Hs Hadd.
  destruct e as [x|x|x|x]; simpl in Hs, Hadd; try discriminate;
    injection Hadd as <-; unfold Bytes.support; simpl.
  - pose proof (inserted_visible FeatureBase.shadow Bytes.feature n x
                  (SupportBase.features s) Hs) as Hi.
    inserted_in_field Hi.
  - pose proof (inserted_visible ReleaseBase.shadow Bytes.release n x
                  (SupportBase.releases s) Hs) as Hi.
    inserted_in_field Hi.
  - pose proof (inserted_visible HotfixBase.shadow Bytes.hotfix n x
                  (SupportBase.hotfixes s) Hs) as Hi.
    inserted_in_field Hi.
Qed.

Lemma add_entry_visible `{Platform} (place : Place) (e : Entry) (n : nat)
  (c c' : ConfigBase.t) :
  truthy_flag (Entry_shadow e) = false ->
  add_entry place e n c = Some c' ->
  inserted (Entry_bytes e) (Bytes.config c) (Bytes.config c').
Proof.
  intros Hs Hadd. destruct place as [|k]; simpl in Hadd.
  - injection Hadd as <-.
    unfold Bytes.config, Bytes.fields, Bytes.before_managed,
      Bytes.after_managed, concat_strings.
    destruct e as [x|x|x|x]; simpl in Hs; simpl.
    + pose proof (inserted_visible SubmoduleBase.shadow Bytes.submodule n x
                    (ConfigBase.submodules c) Hs) as Hi.
      inserted_in_field Hi.
    + pose proof (inserted_visible FeatureBase.shadow Bytes.feature n x
                    (ConfigBase.features c) Hs) as Hi.
      inserted_in_field Hi.
    + pose proof (inserted_visible ReleaseBase.shadow Bytes.release n x
                    (ConfigBase.releases c) Hs) as Hi.
      inserted_in_field Hi.
    + pose proof (inserted_visible HotfixBase.shadow Bytes.hotfix n x
                    (ConfigBase.hotfixes c) Hs) as Hi.
      inserted_in_field Hi.
  - destruct (nth_error (ConfigBase.supports c) k) as [s|] eqn:Hk;
      [| discriminate].
    destruct (add_to_support e n s) as [s'|] eqn:Hsup; [| discriminate].
    injection Hadd as <-.
    pose proof (inserted_replace_at Bytes.support k s'
                  (ConfigBase.supports c) Hk
                  (add_to_support_visible e n s Hs Hsup)) as Hi.
    unfold Bytes.config, Bytes.fields, Bytes.before_managed,
      Bytes.after_managed, concat_strings. simpl.
    inserted_in_field Hi.
Qed.

Lemma Boolean_toString_length (b : bool) :
  4 <= String.length (Boolean_toString b).
Proof. destruct b; simpl; lia. Qed.

Lemma Bytes_release_nonempty (x : ReleaseBase.t) : Bytes.release x <> "".
Proof.
  intros E. apply (f_equal String.length) in E. unfold Bytes.release in E.
  rewrite !length_append in E.
  pose proof (Boolean_toString_length (ReleaseBase.intermediate x)).
  simpl in E. lia.
Qed.

Lemma Bytes_hotfix_nonempty (x : HotfixBase.t) : Bytes.hotfix x <> "".
Proof.
  intros E. apply (f_equal String.length) in E. unfold Bytes.hotfix in E.
  rewrite !length_append in E.
  pose proof (Boolean_toString_length (HotfixBase.intermediate x)).
  simpl in E. lia.
Qed.

(** An entry that is not shadow-flagged, added at any position of the
    tree's collections or of those of a Support line, adds exactly its own
    bytes to what [updateHash] feeds a hash, at some position and with
    everything else unchanged; so the hash input grows by the length of
    the entry's bytes and changes whenever these are not empty. A Release
    or a Hotfix always has bytes (the text of its [intermediate] flag), so
    adding one always changes the hash input. *)
Theorem visible_entries_reach_the_hash `{Platform} (place : Place)
  (e : Entry) (n : nat) (c c' : ConfigBase.t) (algorithm : string) :
  truthy_flag (Entry_shadow e) = false ->
  add_entry place e n c = Some c' ->
  let fed t :=
    Crypto.data (ConfigBase.updateHash t (Crypto.createHash algorithm)) in
  inserted (Entry_bytes e) (fed c) (fed c')
  /\ String.length (fed c')
     = String.length (fed c) + String.length (Entry_bytes e)
  /\ (Entry_bytes e <> "" -> fed c' <> fed c)
  /\ match e with
     | ReleaseEntry _ | HotfixEntry _ => fed c' <> fed c
     | SubmoduleEntry _ | FeatureEntry _ => True
     end.
Proof.
  intros Hs Hadd. cbv beta zeta.
  pose proof (add_entry_visible place e n c Hs Hadd) as Hi.
  rewrite !ConfigBase_updateHash_bytes. simpl.
  split; [exact Hi |]. split; [now apply inserted_length |].
  split; [intros Hne; now apply (inserted_neq Hne Hi) |].
  destruct e as [x|x|x|x]; trivial.
  - exact (inserted_neq (@Bytes_release_nonempty x) Hi).
  - exact (inserted_neq (@Bytes_hotfix_nonempty x) Hi).
Qed.

(** A visible release added in front of the releases of the sample tree,
    and to its Support line, on the reference platform: the hash input
    grows by the 25 bytes of the release. *)
Lemma visible_entries_reach_the_hash_witness :
  truthy_flag (Entry_shadow Sample2.release) = false
  /\ (exists c',
         add_entry AtRoot Sample2.release 0 Sample.supported = Some c'
         /\ String.length
              (Crypto.data
                 (ConfigBase.updateHash (H := Reference.platform) c'
                    (Crypto.createHash "sha256")))
            = String.length
                (Crypto.data
                   (ConfigBase.updateHash (H := Reference.platform)
                      Sample.supported (Crypto.createHash "sha256")))
              + 25)
  /\ (exists c',
         add_entry (InSupport 0) Sample2.release 0 Sample.supported = Some c'
         /\ String.length
              (Crypto.data
                 (ConfigBase.updateHash (H := Reference.platform) c'
                    (Crypto.createHash "sha256")))
            = String.length
                (Crypto.data
                   (ConfigBase.updateHash (H := Reference.platform)
                      Sample.supported (Crypto.createHash "sha256")))
              + 25).
Proof.
  split; [reflexivity |]. split.
  - eexists. split; [reflexivity |].
    exact (proj1 (proj2
             (visible_entries_reach_the_hash (H := Reference.platform)
                AtRoot Sample2.release 0 Sample.supported "sha256"
                eq_refl eq_refl))).
  - eexists. split; [reflexivity |].
    exact (proj1 (proj2
             (visible_entries_reach_the_hash (H := Reference.platform)
                (InSupport 0) Sample2.release 0 Sample.supported "sha256"
                eq_refl eq_refl))).
Defined.

(** ** Element references and the other parsers *)

(** What a successful [ConfigUriSchema.parse] says about its input. *)
Lemma ConfigUriSchema_parse_Ok `{Platform} (uri protocol qualifier : string) :
  ConfigUriSchema_parse uri = Ok (protocol, qualifier) ->
  Zod_isUrl uri = true
  /\ is_protocol protocol = true
  /\ exists rest, split "://" uri = protocol :: qualifier :: rest.
Proof.
  unfold ConfigUriSchema_parse.
  destruct (Zod_isUrl uri); simpl; [| discriminate].
  destruct (split "://" uri) as [|p [|q rest]]; simpl; try discriminate.
  destruct (is_protocol p) eqn:Hp; simpl; [| discriminate].
  intros E. injection E as <- <-. repeat split; trivial. now exists rest.
Qed.

Lemma is_element_type_cases (t : string) :
  is_element_type t = true <->
  t = "feature" \/ t = "release" \/ t = "hotfix" \/ t = "support".
Proof.
  unfold is_element_type, element_types. simpl.
  rewrite !orb_true_iff, !String.eqb_eq. intuition congruence.
Qed.

(** [parseElementUri]: a string that is not a URL is refused; a URL of
    the form [type://qualifier] gives [{ type, qualifier }] exactly when
    the type is feature, release, hotfix or support, whatever the
    qualifier is (the empty one included), and is refused otherwise; so
    the types [branch] and [repo] of [ElementSchema] are refused. A
    descriptor that is returned always has one of the four types and
    holds the first two pieces of the input split at ['://']. *)
Theorem parseElementUri_cases `{Platform} (uri : string) :
  (Zod_isUrl uri = false ->
   parseElementUri uri = ElementZodError [element_invalid_url])
  /\ (forall type qualifier rest,
         Zod_isUrl uri = true ->
         split "://" uri = type :: qualifier :: rest ->
         (is_element_type type = true ->
          parseElementUri uri
          = ElementOk {| ElementUri.type := type;
                         ElementUri.qualifier := qualifier |})
         /\ (is_element_type type = false ->
             parseElementUri uri = ElementZodError [invalid_element_type]))
  /\ (forall value,
         parseElementUri uri = ElementOk value ->
         (ElementUri.type value = "feature"
          \/ ElementUri.type value = "release"
          \/ ElementUri.type value = "hotfix"
          \/ ElementUri.type value = "support")
         /\ Zod_isUrl uri = true
         /\ exists rest,
             split "://" uri
             = ElementUri.type value :: ElementUri.qualifier value :: rest)
  /\ is_element_type "branch" = false
  /\ is_element_type "repo" = false.
Proof.
  unfold parseElementUri, ElementUriSchema_parse.
  split; [| split; [| split; [| split; reflexivity]]].
  - intros Hurl. now rewrite Hurl.
  - intros type qualifier rest Hurl Hsplit. rewrite Hurl, Hsplit. simpl.
    split; intros Ht; now rewrite Ht.
  - intros value.
    destruct (Zod_isUrl uri); simpl; [| discriminate].
    destruct (split "://" uri) as [|t [|q rest]]; simpl; try discriminate.
    destruct (is_element_type t) eqn:Ht; simpl; [| discriminate].
    intros E. injection E as <-. simpl.
    split; [now apply is_element_type_cases |].
    split; [reflexivity | now exists rest].
Qed.

(** [feature://my-feature], [support://] (empty qualifier) and
    [branch://develop], on the reference platform. *)
Lemma parseElementUri_cases_witness :
  parseElementUri (H := Reference.platform) "feature://my-feature"
  = ElementOk {| ElementUri.type := "feature";
                 ElementUri.qualifier := "my-feature" |}
  /\ parseElementUri (H := Reference.platform) "support://"
     = ElementOk {| ElementUri.type := "support";
                    ElementUri.qualifier := "" |}
  /\ parseElementUri (H := Reference.platform) "branch://develop"
     = ElementZodError [invalid_element_type].
Proof.
  split; [| split].
  - exact (proj1 (proj1 (proj2
             (parseElementUri_cases (H := Reference.platform)
                "feature://my-feature"))
             "feature" "my-feature" [] eq_refl eq_refl) eq_refl).
  - exact (proj1 (proj1 (proj2
             (parseElementUri_cases (H := Reference.platform) "support://"))
             "support" "" [] eq_refl eq_refl) eq_refl).
  - exact (proj2 (proj1 (proj2
             (parseElementUri_cases (H := Reference.platform)
                "branch://develop"))
             "branch" "develop" [] eq_refl eq_refl) eq_refl).
Defined.

(** Both parsers keep only the text between the first and the second
    ['://']: two URLs that agree on their first two pieces give the same
    element descriptor and the same config descriptor, whatever follows a
    second ['://'] in either. (A glfs reference that is refused quotes
    the whole URI in its message, so only its descriptors agree.) *)
Theorem text_after_second_separator_is_dropped `{Platform}
  (uri uri' first second : string) (rest rest' : list string) :
  Zod_isUrl uri = true ->
  Zod_isUrl uri' = true ->
  split "://" uri = first :: second :: rest ->
  split "://" uri' = first :: second :: rest' ->
  parseElementUri uri = parseElementUri uri'
  /\ (first <> "glfs" -> parseConfigReference uri = parseConfigReference uri')
  /\ (forall reference,
         parseConfigReference uri = Ok reference
         <-> parseConfigReference uri' = Ok reference).
Proof.
  intros Hurl Hurl' Hsplit Hsplit'.
  split; [| split].
  - unfold parseElementUri, ElementUriSchema_parse.
    now rewrite Hurl, Hurl', Hsplit, Hsplit'.
  - intros Hglfs. apply String.eqb_neq in Hglfs.
    unfold parseConfigReference.
    rewrite (ConfigUriSchema_parse_parts uri Hurl Hsplit),
      (ConfigUriSchema_parse_parts uri' Hurl' Hsplit').
    destruct (is_protocol first); [| reflexivity].
    now rewrite Hglfs.
  - intros reference. unfold parseConfigReference.
    rewrite (ConfigUriSchema_parse_parts uri Hurl Hsplit),
      (ConfigUriSchema_parse_parts uri' Hurl' Hsplit').
    destruct (is_protocol first); [| reflexivity].
    destruct (first =? "config"); [reflexivity |].
    destruct (first =? "file"); [reflexivity |].
    destruct (first =? "branch"); [reflexivity |].
    destruct ((first =? "http") || (first =? "https")); [reflexivity |].
    destruct (first =? "glfs"); [| split; discriminate].
    destruct (split "/" second) as [|p0 [|p1 [|p2 [|p3 [|p4 ps]]]]];
      try reflexivity; split; discriminate.
Qed.

(** [https://example.com/r?next=https://other.org/x]: the descriptor's
    url stops before the second ['://'], on the reference platform. *)
Lemma text_after_second_separator_is_dropped_witness :
  parseConfigReference (H := Reference.platform)
    "https://example.com/r?next=https://other.org/x"
  = Ok (HttpRef "https" "example.com/r?next=https")
  /\ parseElementUri (H := Reference.platform)
       "feature://a://b"
     = parseElementUri (H := Reference.platform) "feature://a".
Proof.
  split.
  - rewrite (proj1 (proj2
               (text_after_second_separator_is_dropped
                  (H := Reference.platform)
                  "https://example.com/r?next=https://other.org/x"
                  "https://example.com/r?next=https"
                  (first := "https") (second := "example.com/r?next=https")
                  (rest := ["other.org/x"]) (rest' := [])
                  eq_refl eq_refl eq_refl eq_refl))).
    + reflexivity.
    + discriminate.
  - exact (proj1
             (text_after_second_separator_is_dropped
                (H := Reference.platform) "feature://a://b" "feature://a"
                (first := "feature") (second := "a")
                (rest := ["b"]) (rest' := [])
                eq_refl eq_refl eq_refl eq_refl)).
Defined.

(** [parseConfigReference] of v1.5 extends that of the versions before
    it: on every string the two agree, except on a glfs reference with
    exactly four segments, which the earlier parser refuses and v1.5
    reads as hostname, namespace, name and support. *)
Theorem parseConfigReference_extends_earlier `{Platform} (uri : string) :
  V1_1.parseConfigReference uri = parseConfigReference uri
  \/ exists qualifier rest p0 p1 p2 p3,
      Zod_isUrl uri = true
      /\ split "://" uri = "glfs" :: qualifier :: rest
      /\ split "/" qualifier = [p0; p1; p2; p3]
      /\ V1_1.parseConfigReference uri
         = Throw (Error ("GLFS Uri invalid [" ++ uri ++ "]"))
      /\ parseConfigReference uri = Ok (GlfsRef (Some p0) p1 p2 (Some p3)).
Proof.
  unfold V1_1.parseConfigReference, parseConfigReference.
  destruct (ConfigUriSchema_parse uri) as [[protocol qualifier]|e] eqn:Hparse;
    [| now left].
  apply ConfigUriSchema_parse_Ok in Hparse as (Hurl & _ & rest & Hsplit).
  destruct (protocol =? "config"); [now left |].
  destruct (protocol =? "file"); [now left |].
  destruct (protocol =? "branch"); [now left |].
  destruct ((protocol =? "http") || (protocol =? "https")); [now left |].
  destruct (String.eqb_spec protocol "glfs") as [-> |]; [| now left].
  simpl.
  destruct (split "/" qualifier) as [|p0 [|p1 [|p2 [|p3 [|p4 ps]]]]] eqn:Hq;
    try (now left).
  right. exists qualifier, rest, p0, p1, p2, p3. repeat split; trivial.
Qed.

(** In the first version a glfs reference is never refused: whatever the
    number of segments, the descriptor holds the first three, a missing
    one being [undefined] and those after the third being ignored. With
    exactly three segments it is the descriptor of v1.5; with one segment
    v1.5 refuses the reference. *)
Theorem first_version_glfs_never_refused `{Platform} (uri qualifier : string)
  (rest : list string) :
  Zod_isUrl uri = true ->
  split "://" uri = "glfs" :: qualifier :: rest ->
  let parts := split "/" qualifier in
  (exists hostname,
      nth_error parts 0 = Some hostname
      /\ V1_0.parseConfigReference uri
         = Ok (V1_0.GlfsRef (Some hostname) (nth_error parts 1)
                 (nth_error parts 2)))
  /\ (3 <= length parts ->
         V1_0.parseConfigReference uri
         = Ok (V1_0.GlfsRef (nth_error (firstn 3 parts) 0)
                 (nth_error (firstn 3 parts) 1)
                 (nth_error (firstn 3 parts) 2)))
  /\ (forall p0 p1 p2,
         parts = [p0; p1; p2] ->
         V1_0.parseConfigReference uri
         = Ok (V1_0.GlfsRef (Some p0) (Some p1) (Some p2))
         /\ parseConfigReference uri = Ok (GlfsRef (Some p0) p1 p2 None))
  /\ (forall p0,
         parts = [p0] ->
         V1_0.parseConfigReference uri
         = Ok (V1_0.GlfsRef (Some p0) None None)
         /\ parseConfigReference uri
            = Throw (Error ("GLFS Uri invalid [" ++ uri ++ "]"))).
Proof.
  intros Hurl Hsplit. cbv zeta.
  assert (Hv0 : V1_0.parseConfigReference uri
                = Ok (V1_0.GlfsRef (nth_error (split "/" qualifier) 0)
                        (nth_error (split "/" qualifier) 1)
                        (nth_error (split "/" qualifier) 2))).
  { unfold V1_0.parseConfigReference.
    rewrite (ConfigUriSchema_parse_parts uri Hurl Hsplit). reflexivity. }
  rewrite Hv0, (parseConfigReference_glfs uri Hurl Hsplit).
  pose proof (@split_from_nonempty "/" qualifier 0 "") as Hne.
  fold (split "/" qualifier) in Hne.
  destruct (split "/" qualifier) as [|p0 parts]; [contradiction |].
  split; [| split; [| split]].
  - exists p0. split; reflexivity.
  - intros Hlen.
    destruct parts as [|p1 [|p2 parts]]; simpl in Hlen; try lia.
    reflexivity.
  - intros q0 q1 q2 E. injection E as -> ->. split; reflexivity.
  - intros q0 E. injection E as -> ->. split; reflexivity.
Qed.

(** [glfs://a] and [glfs://h/ns/name/extra/more] in the first version, on
    the reference platform. *)
Lemma first_version_glfs_never_refused_witness :
  V1_0.parseConfigReference (H := Reference.platform) "glfs://a"
  = Ok (V1_0.GlfsRef (Some "a") None None)
  /\ V1_0.parseConfigReference (H := Reference.platform)
       "glfs://h/ns/name/extra/more"
     = Ok (V1_0.GlfsRef (Some "h") (Some "ns") (Some "name")).
Proof.
  split.
  - exact (proj1 (proj2 (proj2 (proj2
             (first_version_glfs_never_refused (H := Reference.platform)
                "glfs://a" (qualifier := "a") (rest := [])
                eq_refl eq_refl))) "a" eq_refl)).
  - exact (proj1 (proj2
             (first_version_glfs_never_refused (H := Reference.platform)
                "glfs://h/ns/name/extra/more"
                (qualifier := "h/ns/name/extra/more") (rest := [])
                eq_refl eq_refl)) (le_S _ _ (le_S _ _ (le_n 3)))).
Defined.

(** ** Digests across versions *)

Lemma each_bytes_nil {A : Type} (f : A -> string) : each_bytes f [] = "".
Proof. reflexivity. Qed.

(** A loop of an earlier version over a collection, seen from v1.5: the
    entries read as v1.5 entries are not shadow-flagged, so all of them
    pass the filter. *)
Lemma upgraded_collection {A B : Type} (f : A -> Crypto.Hash -> Crypto.Hash)
  (up : A -> B) (shadow : B -> option bool) (bytes : B -> string) :
  (forall a, shadow (up a) = None) ->
  (forall a h, f a h = Crypto.update h (bytes (up a))) ->
  forall xs h,
    fold_left (fun h a => f a h) xs h
    = Crypto.update h (each_bytes bytes (not_shadow shadow (map up xs))).
Proof.
  intros Hshadow Hf xs h.
  rewrite (not_shadow_map_unflagged shadow up xs Hshadow), each_bytes_map.
  now apply fold_updateHash.
Qed.

(** Both sides are one update of the same hash; the fields the earlier
    version lacks contribute nothing. *)
Ltac absent_fields :=
  hash_steps; unfold each_bytes, record_bytes; simpl;
  repeat rewrite append_nil_r; try reflexivity.

Lemma submodule_1_1_bytes `{Platform} (x : V1_1.SubmoduleBase.t)
  (h : Crypto.Hash) :
  V1_1.SubmoduleBase.updateHash x h
  = Crypto.update h (Bytes.submodule (Upgrade.submodule_1_1 x)).
Proof.
  unfold V1_1.SubmoduleBase.updateHash, Bytes.submodule. absent_fields.
Qed.

Lemma feature_1_1_bytes (x : V1_1.FeatureBase.t) (h : Crypto.Hash) :
  V1_1.FeatureBase.updateHash x h
  = Crypto.update h (Bytes.feature (Upgrade.feature_1_1 x)).
Proof. unfold V1_1.FeatureBase.updateHash, Bytes.feature. absent_fields. Qed.

Lemma release_1_1_bytes (x : V1_1.ReleaseBase.t) (h : Crypto.Hash) :
  V1_1.ReleaseBase.updateHash x h
  = Crypto.update h (Bytes.release (Upgrade.release_1_1 x)).
Proof. unfold V1_1.ReleaseBase.updateHash, Bytes.release. absent_fields. Qed.

Lemma hotfix_1_1_bytes (x : V1_1.HotfixBase.t) (h : Crypto.Hash) :
  V1_1.HotfixBase.updateHash x h
  = Crypto.update h (Bytes.hotfix (Upgrade.hotfix_1_1 x)).
Proof. unfold V1_1.HotfixBase.updateHash, Bytes.hotfix. absent_fields. Qed.

Lemma support_1_1_bytes (x : V1_1.SupportBase.t) (h : Crypto.Hash) :
  V1_1.SupportBase.updateHash x h
  = Crypto.update h (Bytes.support (Upgrade.support_1_1 x)).
Proof.
  unfold V1_1.SupportBase.updateHash. cbv zeta.
  rewrite (upgraded_collection V1_1.FeatureBase.updateHash
             Upgrade.feature_1_1 FeatureBase.shadow Bytes.feature)
    by (reflexivity || exact feature_1_1_bytes).
  rewrite (upgraded_collection V1_1.ReleaseBase.updateHash
             Upgrade.release_1_1 ReleaseBase.shadow Bytes.release)
    by (reflexivity || exact release_1_1_bytes).
  rewrite (upgraded_collection V1_1.HotfixBase.updateHash
             Upgrade.hotfix_1_1 HotfixBase.shadow Bytes.hotfix)
    by (reflexivity || exact hotfix_1_1_bytes).
  autorewrite with hashing.
  f_equal; unfold Bytes.support; simpl;
    repeat rewrite append_assoc; repeat rewrite append_nil_r; reflexivity.
Qed.

Lemma config_1_1_bytes `{Platform} (c : V1_1.ConfigBase.t) (h : Crypto.Hash) :
  V1_1.ConfigBase.updateHash c h
  = Crypto.update h (Bytes.config (Upgrade.config_1_1 c)).
Proof.
  unfold V1_1.ConfigBase.updateHash. cbv zeta.
  rewrite (fold_updateHash
             (fun u h => Crypto.update (Crypto.update h (Upstream.name u))
                                       (Upstream.url u))
             Bytes.upstream)
    by (intros; unfold Bytes.upstream; now rewrite update_update).
  rewrite (upgraded_collection V1_1.SubmoduleBase.updateHash
             Upgrade.submodule_1_1 SubmoduleBase.shadow Bytes.submodule)
    by (reflexivity || exact submodule_1_1_bytes).
  rewrite (upgraded_collection V1_1.FeatureBase.updateHash
             Upgrade.feature_1_1 FeatureBase.shadow Bytes.feature)
    by (reflexivity || exact feature_1_1_bytes).
  rewrite (upgraded_collection V1_1.ReleaseBase.updateHash
             Upgrade.release_1_1 ReleaseBase.shadow Bytes.release)
    by (reflexivity || exact release_1_1_bytes).
  rewrite (upgraded_collection V1_1.HotfixBase.updateHash
             Upgrade.hotfix_1_1 HotfixBase.shadow Bytes.hotfix)
    by (reflexivity || exact hotfix_1_1_bytes).
  rewrite (fold_updateHash V1_1.SupportBase.updateHash
             (fun x => Bytes.support (Upgrade.support_1_1 x)))
    by exact support_1_1_bytes.
  rewrite <- (each_bytes_map Bytes.support Upgrade.support_1_1).
  autorewrite with hashing.
  f_equal;
    unfold Bytes.config, Bytes.fields, Bytes.before_managed,
      Bytes.after_managed, concat_strings, record_bytes; simpl;
    rewrite ?each_bytes_nil;
    repeat rewrite append_assoc; repeat rewrite append_nil_r; reflexivity.
Qed.

Lemma submodule_1_2_bytes `{Platform} (x : V1_2.SubmoduleBase.t)
  (h : Crypto.Hash) :
  V1_2.SubmoduleBase.updateHash x h
  = Crypto.update h (Bytes.submodule (Upgrade.submodule_1_2 x)).
Proof.
  unfold V1_2.SubmoduleBase.updateHash, Bytes.submodule. absent_fields.
Qed.

Lemma feature_1_2_bytes (x : V1_2.FeatureBase.t) (h : Crypto.Hash) :
  V1_2.FeatureBase.updateHash x h
  = Crypto.update h (Bytes.feature (Upgrade.feature_1_2 x)).
Proof. unfold V1_2.FeatureBase.updateHash, Bytes.feature. absent_fields. Qed.

Lemma release_1_2_bytes (x : V1_2.ReleaseBase.t) (h : Crypto.Hash) :
  V1_2.ReleaseBase.updateHash x h
  = Crypto.update h (Bytes.release (Upgrade.release_1_2 x)).
Proof. unfold V1_2.ReleaseBase.updateHash, Bytes.release. absent_fields. Qed.

Lemma hotfix_1_2_bytes (x : V1_2.HotfixBase.t) (h : Crypto.Hash) :
  V1_2.HotfixBase.updateHash x h
  = Crypto.update h (Bytes.hotfix (Upgrade.hotfix_1_2 x)).
Proof. unfold V1_2.HotfixBase.updateHash, Bytes.hotfix. absent_fields. Qed.

Lemma support_1_2_bytes (x : V1_2.SupportBase.t) (h : Crypto.Hash) :
  V1_2.SupportBase.updateHash x h
  = Crypto.update h (Bytes.support (Upgrade.support_1_2 x)).
Proof.
  unfold V1_2.SupportBase.updateHash. cbv zeta.
  rewrite (upgraded_collection V1_2.FeatureBase.updateHash
             Upgrade.feature_1_2 FeatureBase.shadow Bytes.feature)
    by (reflexivity || exact feature_1_2_bytes).
  rewrite (upgraded_collection V1_2.ReleaseBase.updateHash
             Upgrade.release_1_2 ReleaseBase.shadow Bytes.release)
    by (reflexivity || exact release_1_2_bytes).
  rewrite (upgraded_collection V1_2.HotfixBase.updateHash
             Upgrade.hotfix_1_2 HotfixBase.shadow Bytes.hotfix)
    by (reflexivity || exact hotfix_1_2_bytes).
  autorewrite with hashing.
  f_equal; unfold Bytes.support; simpl;
    repeat rewrite append_assoc; repeat rewrite append_nil_r; reflexivity.
Qed.

Lemma config_1_2_bytes `{Platform} (c : V1_2.ConfigBase.t) (h : Crypto.Hash) :
  V1_2.ConfigBase.updateHash c h
  = Crypto.update h (Bytes.config (Upgrade.config_1_2 c)).
Proof.
  unfold V1_2.ConfigBase.updateHash. cbv zeta.
  rewrite update_managed.
  rewrite (fold_updateHash
             (fun u h => Crypto.update (Crypto.update h (Upstream.name u))
                                       (Upstream.url u))
             Bytes.upstream)
    by (intros; unfold Bytes.upstream; now rewrite update_update).
  rewrite (upgraded_collection V1_2.SubmoduleBase.updateHash
             Upgrade.submodule_1_2 SubmoduleBase.shadow Bytes.submodule)
    by (reflexivity || exact submodule_1_2_bytes).
  rewrite (upgraded_collection V1_2.FeatureBase.updateHash
             Upgrade.feature_1_2 FeatureBase.shadow Bytes.feature)
    by (reflexivity || exact feature_1_2_bytes).
  rewrite (upgraded_collection V1_2.ReleaseBase.updateHash
             Upgrade.release_1_2 ReleaseBase.shadow Bytes.release)
    by (reflexivity || exact release_1_2_bytes).
  rewrite (upgraded_collection V1_2.HotfixBase.updateHash
             Upgrade.hotfix_1_2 HotfixBase.shadow Bytes.hotfix)
    by (reflexivity || exact hotfix_1_2_bytes).
  rewrite (fold_updateHash V1_2.SupportBase.updateHash
             (fun x => Bytes.support (Upgrade.support_1_2 x)))
    by exact support_1_2_bytes.
  rewrite <- (each_bytes_map Bytes.support Upgrade.support_1_2).
  autorewrite with hashing.
  f_equal;
    unfold Bytes.config, Bytes.fields, Bytes.before_managed,
      Bytes.after_managed, concat_strings, record_bytes; simpl;
    rewrite ?each_bytes_nil;
    repeat rewrite append_assoc; repeat rewrite append_nil_r; reflexivity.
Qed.

(** The digest of a tree does not change when the module is upgraded: a
    tree of the version with templates, or of the version with the
    [managed] flag, feeds a hash the same bytes as the v1.5 tree with the
    same values (the fields the earlier version lacks being absent), so
    [calculateHash] gives the same digest for every algorithm and
    encoding. *)
Theorem earlier_digests_are_kept `{Platform}
  (c1 : V1_1.ConfigBase.t) (c2 : V1_2.ConfigBase.t) (h : Crypto.Hash)
  (algorithm encoding : option string) :
  V1_1.ConfigBase.updateHash c1 h
  = ConfigBase.updateHash (Upgrade.config_1_1 c1) h
  /\ V1_1.ConfigBase.calculateHash c1 algorithm encoding
     = ConfigBase.calculateHash (Upgrade.config_1_1 c1) algorithm encoding
  /\ V1_2.ConfigBase.updateHash c2 h
     = ConfigBase.updateHash (Upgrade.config_1_2 c2) h
  /\ V1_2.ConfigBase.calculateHash c2 algorithm encoding
     = ConfigBase.calculateHash (Upgrade.config_1_2 c2) algorithm encoding.
Proof.
  unfold V1_1.ConfigBase.calculateHash, V1_2.ConfigBase.calculateHash,
    ConfigBase.calculateHash. cbv zeta.
  rewrite !ConfigBase_updateHash_bytes, !config_1_1_bytes, !config_1_2_bytes.
  repeat split.
Qed.

(** In the first version the hash does not see the path globs, only how
    many there are: the loops over [included] and [excluded] visit the
    array indices, so two trees that differ only in the text of their
    globs feed the same bytes and have the same digest. *)
Theorem first_version_hashes_glob_counts `{Platform}
  (c : V1_0.ConfigBase.t) (included included' excluded excluded' : list string)
  (h : Crypto.Hash) (algorithm encoding : option string) :
  length included = length included' ->
  length excluded = length excluded' ->
  V1_0.ConfigBase.updateHash (Replace.globs_1_0 included excluded c) h
  = V1_0.ConfigBase.updateHash (Replace.globs_1_0 included' excluded' c) h
  /\ V1_0.ConfigBase.calculateHash (Replace.globs_1_0 included excluded c)
       algorithm encoding
     = V1_0.ConfigBase.calculateHash
         (Replace.globs_1_0 included' excluded' c) algorithm encoding.
Proof.
  intros Hincluded Hexcluded.
  assert (Hupdate : forall h0,
             V1_0.ConfigBase.updateHash
               (Replace.globs_1_0 included excluded c) h0
             = V1_0.ConfigBase.updateHash
                 (Replace.globs_1_0 included' excluded' c) h0).
  { intros h0. unfold V1_0.ConfigBase.updateHash, array_keys. simpl.
    now rewrite Hincluded, Hexcluded. }
  split; [apply Hupdate |].
  unfold V1_0.ConfigBase.calculateHash. cbv zeta. now rewrite Hupdate.
Qed.

(** [{ identifier: 'repo', included: ['src/**'] }] and
    [{ identifier: 'repo', included: ['docs/**'] }] in the first version:
    the same digest; the bytes are [repo0]. *)
Lemma first_version_hashes_glob_counts_witness :
  V1_0.ConfigBase.calculateHash (H := Reference.platform)
    (Replace.globs_1_0 ["src/**"] [] Sample2.repo_1_0) None None
  = V1_0.ConfigBase.calculateHash (H := Reference.platform)
      (Replace.globs_1_0 ["docs/**"] [] Sample2.repo_1_0) None None
  /\ Crypto.data
       (V1_0.ConfigBase.updateHash
          (Replace.globs_1_0 ["docs/**"] [] Sample2.repo_1_0)
          (Crypto.createHash "sha256"))
     = "repo0".
Proof.
  split.
  - exact (proj2
             (first_version_hashes_glob_counts (H := Reference.platform)
                Sample2.repo_1_0 ["src/**"] ["docs/**"] [] []
                (Crypto.createHash "sha256") None None eq_refl eq_refl)).
  - rewrite <- (proj1
                  (first_version_hashes_glob_counts
                     (H := Reference.platform)
                     Sample2.repo_1_0 ["src/**"] ["docs/**"] [] []
                     (Crypto.createHash "sha256") None None
                     eq_refl eq_refl)).
    reflexivity.
Defined.

(** ** The identifier *)

Lemma append_inv_tail (a b r : string) : a ++ r = b ++ r -> a = b.
Proof.
  revert b. induction a as [|x a IH]; intros [|y b] E; simpl in E.
  - reflexivity.
  - apply (f_equal String.length) in E. simpl in E.
    rewrite length_append in E. lia.
  - apply (f_equal String.length) in E. simpl in E.
    rewrite length_append in E. lia.
  - injection E as -> E. f_equal. now apply IH.
Qed.

(** A string of this development is the byte string [hash.update]
    receives, the UTF-8 encoding of the JavaScript string. Two trees that
    differ in nothing but their identifier feed a hash equal bytes exactly
    when the encodings of the two identifiers are equal: no other field
    makes up for a difference in the identifier's bytes. For identifiers
    without unpaired surrogates that is when the identifiers are equal;
    two identifiers that differ only in unpaired surrogates have one
    encoding, are one string here, and do feed equal bytes. *)
Theorem identifier_reaches_the_hash `{Platform} (c : ConfigBase.t)
  (a b : string) (h : Crypto.Hash) :
  Crypto.data (ConfigBase.updateHash (Replace.identifier a c) h)
  = Crypto.data (ConfigBase.updateHash (Replace.identifier b c) h)
  <-> a = b.
Proof.
  split; [| now intros ->].
  rewrite !ConfigBase_updateHash_bytes. unfold Crypto.update. simpl.
  unfold Bytes.config, Bytes.fields, Bytes.before_managed.
  change (Bytes.after_managed (Replace.identifier a c))
    with (Bytes.after_managed c).
  change (Bytes.after_managed (Replace.identifier b c))
    with (Bytes.after_managed c).
  unfold concat_strings. simpl.
  intros E. apply append_inv_head in E. apply append_inv_head in E.
  now apply append_inv_tail in E.
Qed.

(** ** Versions of branches *)

(** What the result of a [resolveVersion] says about the version
    field. *)
Lemma clean_version_sound `{Platform} (field : option string) :
  (clean_version field = Ok None <-> field = None \/ field = Some "")
  /\ (forall version,
         clean_version field = Ok (Some version) ->
         version <> ""
         /\ exists raw,
             field = Some raw /\ raw <> ""
             /\ Semver_clean raw = Some version)
  /\ (forall e,
         clean_version field = Throw e ->
         exists raw,
           field = Some raw /\ raw <> ""
           /\ (Semver_clean raw = None \/ Semver_clean raw = Some "")
           /\ e = Error (invalid_semver_message raw)).
Proof.
  unfold clean_version.
  destruct field as [raw|]; simpl.
  2: { split; [| split]; [split; auto | discriminate | discriminate]. }
  destruct (String.eqb_spec raw "") as [-> | Hraw]; simpl.
  { split; [| split]; [split; auto | discriminate | discriminate]. }
  destruct (Semver_clean raw) as [version|] eqn:Hclean; simpl.
  - destruct (String.eqb_spec version "") as [-> | Hversion]; simpl.
    + split; [| split].
      * split; [discriminate | intros [E | E]; congruence].
      * discriminate.
      * intros e E. injection E as <-. exists raw. auto.
    + split; [| split].
      * split; [discriminate | intros [E | E]; congruence].
      * intros v E. injection E as <-. split; [assumption |].
        exists raw. auto.
      * discriminate.
  - split; [| split].
    + split; [discriminate | intros [E | E]; congruence].
    + discriminate.
    + intros e E. injection E as <-. exists raw. auto.
Qed.

(** [resolveVersion()] of a Feature, a Release or a Hotfix returns
    nothing exactly when the branch's version is absent or the empty
    string; a version it returns is never empty and is what
    [Semver.clean] makes of the branch's version; when it fails, the
    branch's version is a non-empty string that [Semver.clean] does not
    accept and the error quotes it. *)
Theorem branch_resolveVersion_sound `{Platform} (feature : FeatureBase.t)
  (release : ReleaseBase.t) (hotfix : HotfixBase.t) :
  let sound (field : option string) (result : Result (option string)) :=
    (result = Ok None <-> field = None \/ field = Some "")
    /\ (forall version,
           result = Ok (Some version) ->
           version <> ""
           /\ exists raw,
               field = Some raw /\ raw <> ""
               /\ Semver_clean raw = Some version)
    /\ (forall e,
           result = Throw e ->
           exists raw,
             field = Some raw /\ raw <> ""
             /\ (Semver_clean raw = None \/ Semver_clean raw = Some "")
             /\ e = Error ("Version " ++ dquote ++ raw ++ dquote
                           ++ " is not a valid semver format")) in
  sound (FeatureBase.version feature) (FeatureBase.resolveVersion feature)
  /\ sound (ReleaseBase.version release) (ReleaseBase.resolveVersion release)
  /\ sound (HotfixBase.version hotfix) (HotfixBase.resolveVersion hotfix).
Proof.
  cbv zeta. split; [| split]; apply clean_version_sound.
Qed.

(** ** Release and hotfix taggings *)

Lemma update_longer (h : Crypto.Hash) (s : string) :
  s <> "" -> Crypto.data (Crypto.update h s) <> Crypto.data h.
Proof.
  intros Hs E. apply (f_equal String.length) in E.
  unfold Crypto.update in E. simpl in E. rewrite length_append in E.
  destruct s as [|x s]; [now apply Hs | simpl in E; lia].
Qed.

(** The taggings of a Release and of a Hotfix are hashed and not
    serialised, as those of a Feature: a further tagging with a name
    leaves the object [toHash] builds as it is without any tagging, and
    appends its name and its annotation to the bytes [updateHash] feeds a
    hash, which therefore differ. *)
Theorem release_and_hotfix_tags_hashed_not_serialised
  (release : ReleaseBase.t) (hotfix : HotfixBase.t)
  (tags : list TaggingBase.t) (tag : TaggingBase.t) (h : Crypto.Hash) :
  TaggingBase.name tag <> "" ->
  let release' := Replace.release_tags (tags ++ [tag])%list release in
  let hotfix' := Replace.hotfix_tags (tags ++ [tag])%list hotfix in
  let added := TaggingBase.name tag ++ optional_bytes (TaggingBase.annotation tag) in
  (ReleaseBase.toHash release' = ReleaseBase.toHash release
   /\ ConfigReleaseSchema.tags (ReleaseBase.toHash release') = None
   /\ ReleaseBase.updateHash release' h
      = Crypto.update
          (ReleaseBase.updateHash (Replace.release_tags tags release) h) added
   /\ Crypto.data (ReleaseBase.updateHash release' h)
      <> Crypto.data
           (ReleaseBase.updateHash (Replace.release_tags tags release) h))
  /\ (HotfixBase.toHash hotfix' = HotfixBase.toHash hotfix
      /\ ConfigHotfixSchema.tags (HotfixBase.toHash hotfix') = None
      /\ HotfixBase.updateHash hotfix' h
         = Crypto.update
             (HotfixBase.updateHash (Replace.hotfix_tags tags hotfix) h) added
      /\ Crypto.data (HotfixBase.updateHash hotfix' h)
         <> Crypto.data
              (HotfixBase.updateHash (Replace.hotfix_tags tags hotfix) h)).
Proof.
  intros Hname. cbv zeta.
  assert (Hadded : TaggingBase.name tag
                   ++ optional_bytes (TaggingBase.annotation tag) <> "").
  { destruct (TaggingBase.name tag); [now elim Hname | discriminate]. }
  assert (Hr : ReleaseBase.updateHash
                 (Replace.release_tags (tags ++ [tag])%list release) h
               = Crypto.update
                   (ReleaseBase.updateHash
                      (Replace.release_tags tags release) h)
                   (TaggingBase.name tag
                    ++ optional_bytes (TaggingBase.annotation tag))).
  { rewrite !ReleaseBase_updateHash_bytes, update_update.
    f_equal. unfold Bytes.release. simpl.
    rewrite each_bytes_app, each_bytes_cons, each_bytes_nil.
    unfold Bytes.tagging at 2.
    rewrite append_nil_r. repeat rewrite append_assoc. reflexivity. }
  assert (Hh : HotfixBase.updateHash
                 (Replace.hotfix_tags (tags ++ [tag])%list hotfix) h
               = Crypto.update
                   (HotfixBase.updateHash
                      (Replace.hotfix_tags tags hotfix) h)
                   (TaggingBase.name tag
                    ++ optional_bytes (TaggingBase.annotation tag))).
  { rewrite !HotfixBase_updateHash_bytes, update_update.
    f_equal. unfold Bytes.hotfix. simpl.
    rewrite each_bytes_app, each_bytes_cons, each_bytes_nil.
    unfold Bytes.tagging at 2.
    rewrite append_nil_r. repeat rewrite append_assoc. reflexivity. }
  split.
  - split; [reflexivity |]. split; [reflexivity |]. split; [exact Hr |].
    rewrite Hr. now apply update_longer.
  - split; [reflexivity |]. split; [reflexivity |]. split; [exact Hh |].
    rewrite Hh. now apply update_longer.
Qed.

(** The release [1.0] and the hotfix [patch] with the tagging [wip]: the
    same serialised objects as without it; the hash receives [wip] after
    the text of the [intermediate] flag. *)
Lemma release_and_hotfix_tags_hashed_not_serialised_witness :
  ReleaseBase.toHash
    (Replace.release_tags [Sample.tagging "wip"] Sample2.release_1_0)
  = ReleaseBase.toHash Sample2.release_1_0
  /\ Crypto.data
       (ReleaseBase.updateHash
          (Replace.release_tags [Sample.tagging "wip"] Sample2.release_1_0)
          (Crypto.createHash "sha256"))
     = "1.0release/1.0abc123falsewip"
  /\ HotfixBase.toHash
       (Replace.hotfix_tags [Sample.tagging "wip"] Sample2.shadow_hotfix)
     = HotfixBase.toHash Sample2.shadow_hotfix.
Proof.
  pose proof (release_and_hotfix_tags_hashed_not_serialised
                Sample2.release_1_0 Sample2.shadow_hotfix []
                (Sample.tagging "wip") (Crypto.createHash "sha256"))
    as W.
  cbv zeta in W.
  assert (Hname : TaggingBase.name (Sample.tagging "wip") <> "")
    by discriminate.
  destruct (W Hname) as [(Ht & _ & Hu & _) (Ht' & _)].
  split; [exact Ht |]. split; [| exact Ht'].
  simpl in Hu. rewrite Hu. reflexivity.
Defined.
